(** * GYMLOGGER: entity consistency and personal-best derivation

    A shallow embedding of the two back ends of the training log:

    - [Api]: the SQL-backed service of [src/api/main.py] over the tables of
      [src/GYM/api/models.py];
    - [Gym]: the file-based prototype of [src/GYM/app.py] together with the
      handlers of [src/server.py] that work on the same JSON document;
    - [Db]: the rewriting of the database URL in [src/api/db.py].

    Conventions of the embedding.

    - Python [int] is [Z]; [bool] is [bool].  Where a request writes an
      integer of its payload to a new row, the range of the column (64 bits)
      is checked as the driver checks it; the identifiers a request names
      for a lookup are taken to be within that range.
    - A [str] is the [string] of the bytes of its UTF-8 encoding: [len]
      counts its characters and [uncons] splits off the first one.  The case
      mappings [str.upper], [str.lower] and the [lower] of the database, and
      [str.strip], are parameters of the definitions that call them.
    - The clock is a parameter: [today] stands for
      [datetime.now().strftime("%Y-%m-%d")].
    - A Python [float] is a [float]: a number, modelled by an exact rational
      of [Q], or NaN, which every comparison answers with [False] and every
      product passes on.  Rounding, the infinities and the integers too
      large to be made a float are outside the model.  The prototype keeps
      whatever float it is given.  The service is modelled on SQLite, the
      store it uses unless told otherwise, which stores no NaN: it binds one
      as NULL, the columns are NOT NULL, and the request that would write one
      fails; the rows of the service therefore hold numbers.
    - A table is the list of its rows in rowid order.  [select(..).all()] is
      [filter], [.first()] is [head] of it, [db.get] looks a row up by its
      primary key.  A new row receives the key [1 + max id] (the rowid rule
      of SQLite for an [INTEGER PRIMARY KEY]) and is appended.  Foreign keys
      are declared and, as SQLite does by default, not enforced.
    - An ORM object mutated and flushed rewrites the row with its primary
      key ([db_update]).  The session flushes before every query, so a query
      sees the rows added and rewritten earlier in the same request.
    - An endpoint is a function from the store to a [result]: [Ok] carries
      the committed store and the response, [Raise] aborts the request and
      leaves the store as it was.
    - [created_at] timestamps and password hashes play no role in the
      rules studied here and are left out of the rows. *)

From Stdlib Require Import ZArith QArith Ascii String List Lia Lqa.
From stdpp Require Import base decidable option list fin_sets gmap strings pretty.

Open Scope string_scope.
Open Scope Z_scope.
Open Scope list_scope.

(* [set_solver] and [naive_solver] clear hypotheses that may be gone. *)
#[local] Set Warnings "-clear-no-such-hyp".

(** ** Results of an operation *)

(** An operation returns normally or raises; [E] is the type of what it
    raises. *)
Inductive result (E A : Type) : Type :=
| Ok (a : A)
| Raise (e : E).
Arguments Ok {E A} a.
Arguments Raise {E A} e.

#[export] Instance result_ret {E} : MRet (result E) := λ A a, Ok a.
#[export] Instance result_bind {E} : MBind (result E) := λ A B k r,
  match r with
  | Ok a => k a
  | Raise e => Raise e
  end.

Definition is_ok {E A} (r : result E A) : bool :=
  match r with Ok _ => true | Raise _ => false end.

(** [raise e] unless the value is there. *)
Definition or_raise {E A} (o : option A) (e : E) : result E A :=
  match o with
  | Some a => Ok a
  | None => Raise e
  end.

(** What a handler raises: the [HTTPException] of FastAPI
    ([error(handler, status, message)] of [src/server.py] answers with the
    same two pieces), or an error of the database layer that the handler does
    not catch.  [OverflowError] is the driver's for an integer outside the 64
    bits of an INTEGER column, [IntegrityError] the table's for a NULL in a
    NOT NULL column. *)
Inductive http_exception : Type :=
| HTTPException (status_code : Z) (detail : string)
| OverflowError
| IntegrityError.

(** ** Strings and floats *)

(** A byte that continues a character of UTF-8: [10xxxxxx]. *)
Definition continuation (c : ascii) : bool :=
  let n := Z.of_N (N_of_ascii c) in bool_decide (128 ≤ n ∧ n < 192).

(** [len(s)]: the number of characters, that is of bytes that start one. *)
Fixpoint len (s : string) : nat :=
  match s with
  | String c s' => if continuation c then len s' else S (len s')
  | EmptyString => O
  end.

(** The continuation bytes a string starts with, and what follows them. *)
Fixpoint continuation_prefix (s : string) : string * string :=
  match s with
  | String c s' =>
      if continuation c
      then let '(bytes, rest) := continuation_prefix s' in (String c bytes, rest)
      else (EmptyString, s)
  | EmptyString => (EmptyString, EmptyString)
  end.

(** [(s[0], s[1:])] of a string that is not empty: its first character,
    with the bytes that continue it, and the characters after it. *)
Definition uncons (s : string) : option (string * string) :=
  match s with
  | String c s' => let '(bytes, rest) := continuation_prefix s' in Some (String c bytes, rest)
  | EmptyString => None
  end.

(** A Python [float]: a number or NaN. *)
Inductive float : Type :=
| Num (q : Q)
| NaN.
Coercion Num : Q >-> float.
Bind Scope Q_scope with float.

(** [a <= b] and [a > b]: [False] as soon as one side is NaN. *)
Definition float_le (a b : float) : bool :=
  match a, b with
  | Num x, Num y => Qle_bool x y
  | _, _ => false
  end.

Definition float_gt (a b : float) : bool :=
  match a, b with
  | Num x, Num y => negb (Qle_bool x y)
  | _, _ => false
  end.

(** [math.isnan(a)]. *)
Definition isnan (a : float) : bool :=
  match a with
  | Num _ => false
  | NaN => true
  end.

(** [a * b]: NaN as soon as one side is NaN. *)
Definition float_mul (a b : float) : float :=
  match a, b with
  | Num x, Num y => Num (x * y)
  | _, _ => NaN
  end.

(** An integer that fits an INTEGER column of SQLite: 64 bits, signed. *)
Definition int64 (n : Z) : bool := bool_decide (- 2 ^ 63 ≤ n ∧ n < 2 ^ 63).

(** ** Generic table operations *)

Class Row (A : Type) := row_id : A → Z.

Section tables.
Context {A : Type} `{Row A}.

Definition db_get (k : Z) (table : list A) : option A :=
  head (filter (λ r, row_id r = k) table).

Definition db_delete (k : Z) (table : list A) : list A :=
  filter (λ r, row_id r ≠ k) table.

Definition db_update (r' : A) (table : list A) : list A :=
  (λ r, if decide (row_id r = row_id r') then r' else r) <$> table.

Definition db_fresh (table : list A) : Z :=
  1 + foldr Z.max 0 (row_id <$> table).

(** The primary key is unique. *)
Definition unique_ids (table : list A) : Prop := NoDup (row_id <$> table).
End tables.

Module Api.

(** *** Tables ([src/GYM/api/models.py]) *)

Module User.
Record t := mk { id : Z; email : string; username : string; display_name : string }.
End User.

Module Exercise.
Record t := mk {
  id : Z; owner_id : Z; name : string; muscle_group : string;
  type : string; equipment : string; notes : string }.
End Exercise.

Module Program.
Record t := mk {
  id : Z; owner_id : Z; name : string; description : string;
  start_date : string; end_date : string; status : string;
  version : Z; visibility : string; is_public : bool }.
End Program.

Module WorkoutTemplate.
Record t := mk { id : Z; program_id : Z; owner_id : Z; name : string }.
End WorkoutTemplate.

Module TemplateExercise.
Record t := mk {
  id : Z; template_id : Z; exercise_id : Z; planned_sets : string;
  reps : string; planned_weight : string; rpe : string; rest : string;
  comment : string }.
End TemplateExercise.

Module Session.
Record t := mk {
  id : Z; owner_id : Z; template_id : Z; program_id : Z;
  template_name : string; program_name : string; date : string;
  status : string }.
End Session.

Module SetLog.
Record t := mk {
  id : Z; session_id : Z; exercise_id : Z; set_number : Z;
  weight : Q; reps : Z; rpe : Q; comment : string }.
End SetLog.

Module PersonalBest.
Record t := mk {
  id : Z; owner_id : Z; exercise_id : Z; kind : string; label : string;
  value : Q; reps : Z; date : string; set_log_id : Z; is_public : bool }.
End PersonalBest.

Module FriendRequest.
Record t := mk { id : Z; from_user_id : Z; to_user_id : Z; status : string }.
End FriendRequest.

Module Friendship.
Record t := mk { id : Z; user_id : Z; friend_id : Z }.
End Friendship.

#[global] Instance user_row : Row User.t := User.id.
#[global] Instance exercise_row : Row Exercise.t := Exercise.id.
#[global] Instance program_row : Row Program.t := Program.id.
#[global] Instance template_row : Row WorkoutTemplate.t := WorkoutTemplate.id.
#[global] Instance template_exercise_row : Row TemplateExercise.t := TemplateExercise.id.
#[global] Instance session_row : Row Session.t := Session.id.
#[global] Instance set_log_row : Row SetLog.t := SetLog.id.
#[global] Instance personal_best_row : Row PersonalBest.t := PersonalBest.id.
#[global] Instance friend_request_row : Row FriendRequest.t := FriendRequest.id.
#[global] Instance friendship_row : Row Friendship.t := Friendship.id.

(** The store: one list per table. *)
Record DB := mkDB {
  users : list User.t;
  exercises : list Exercise.t;
  programs : list Program.t;
  workout_templates : list WorkoutTemplate.t;
  template_exercises : list TemplateExercise.t;
  sessions : list Session.t;
  set_logs : list SetLog.t;
  personal_bests : list PersonalBest.t;
  friend_requests : list FriendRequest.t;
  friendships : list Friendship.t }.

Definition set_exercises (db : DB) (l : list Exercise.t) : DB :=
  mkDB (users db) l (programs db) (workout_templates db) (template_exercises db)
       (sessions db) (set_logs db) (personal_bests db) (friend_requests db) (friendships db).
Definition set_programs (db : DB) (l : list Program.t) : DB :=
  mkDB (users db) (exercises db) l (workout_templates db) (template_exercises db)
       (sessions db) (set_logs db) (personal_bests db) (friend_requests db) (friendships db).
Definition set_workout_templates (db : DB) (l : list WorkoutTemplate.t) : DB :=
  mkDB (users db) (exercises db) (programs db) l (template_exercises db)
       (sessions db) (set_logs db) (personal_bests db) (friend_requests db) (friendships db).
Definition set_template_exercises (db : DB) (l : list TemplateExercise.t) : DB :=
  mkDB (users db) (exercises db) (programs db) (workout_templates db) l
       (sessions db) (set_logs db) (personal_bests db) (friend_requests db) (friendships db).
Definition set_sessions (db : DB) (l : list Session.t) : DB :=
  mkDB (users db) (exercises db) (programs db) (workout_templates db) (template_exercises db)
       l (set_logs db) (personal_bests db) (friend_requests db) (friendships db).
Definition set_set_logs (db : DB) (l : list SetLog.t) : DB :=
  mkDB (users db) (exercises db) (programs db) (workout_templates db) (template_exercises db)
       (sessions db) l (personal_bests db) (friend_requests db) (friendships db).
Definition set_personal_bests (db : DB) (l : list PersonalBest.t) : DB :=
  mkDB (users db) (exercises db) (programs db) (workout_templates db) (template_exercises db)
       (sessions db) (set_logs db) l (friend_requests db) (friendships db).
Definition set_friend_requests (db : DB) (l : list FriendRequest.t) : DB :=
  mkDB (users db) (exercises db) (programs db) (workout_templates db) (template_exercises db)
       (sessions db) (set_logs db) (personal_bests db) l (friendships db).
Definition set_friendships (db : DB) (l : list Friendship.t) : DB :=
  mkDB (users db) (exercises db) (programs db) (workout_templates db) (template_exercises db)
       (sessions db) (set_logs db) (personal_bests db) (friend_requests db) l.

(** *** Helpers of [src/api/main.py] *)

Definition ensure_owner (obj_owner_id : Z) (user : User.t) : result http_exception unit :=
  if decide (obj_owner_id ≠ User.id user)
  then Raise (HTTPException 403 "Not allowed")
  else Ok ().

Definition estimate_one_rm (weight : Q) (reps : Z) : Q :=
  (weight * (1 + inject_Z reps / 30))%Q.

(** The [where] clause of the lookup in [update_personal_bests]: the rep
    count takes part in the key for every kind but ["est_1rm"]. *)
Definition pb_where (owner_id exercise_id : Z) (kind : string) (reps : Z)
    (pb : PersonalBest.t) : Prop :=
  PersonalBest.owner_id pb = owner_id ∧
  PersonalBest.exercise_id pb = exercise_id ∧
  PersonalBest.kind pb = kind ∧
  (if decide (kind ≠ "est_1rm") then PersonalBest.reps pb = reps else True).

#[global] Instance pb_where_dec o e k r pb : Decision (pb_where o e k r pb).
Proof. unfold pb_where. destruct (decide (k ≠ "est_1rm")); apply _. Defined.

Definition find_pb (owner_id exercise_id : Z) (kind : string) (reps : Z)
    (pbs : list PersonalBest.t) : option PersonalBest.t :=
  head (filter (pb_where owner_id exercise_id kind reps) pbs).

(** The three candidates of a set: kind, label, value. *)
Definition pb_entries (set_log : SetLog.t) : list (string * string * Q) :=
  let est_1rm := estimate_one_rm (SetLog.weight set_log) (SetLog.reps set_log) in
  let volume := (SetLog.weight set_log * inject_Z (SetLog.reps set_log))%Q in
  [ ("est_1rm", "1RM (est)", est_1rm);
    ("max_weight_reps", ("Max weight for " ++ pretty (SetLog.reps set_log) ++ " reps")%string,
       SetLog.weight set_log);
    ("max_volume", "Max volume", volume) ].

(** One turn of the loop over the candidates in [update_personal_bests]. *)
Definition merge_entry (owner_id : Z) (session : Session.t) (set_log : SetLog.t)
    (pbs : list PersonalBest.t) (entry : string * string * Q) : list PersonalBest.t :=
  let '(kind, label, value) := entry in
  match find_pb owner_id (SetLog.exercise_id set_log) kind (SetLog.reps set_log) pbs with
  | Some existing =>
      if Qlt_le_dec (PersonalBest.value existing) value
      then db_update
             (PersonalBest.mk (PersonalBest.id existing) (PersonalBest.owner_id existing)
                (PersonalBest.exercise_id existing) (PersonalBest.kind existing)
                label value (SetLog.reps set_log) (Session.date session)
                (SetLog.id set_log) (PersonalBest.is_public existing))
             pbs
      else pbs
  | None =>
      pbs ++ [PersonalBest.mk (db_fresh pbs) owner_id (SetLog.exercise_id set_log)
                kind label value (SetLog.reps set_log) (Session.date session)
                (SetLog.id set_log) false]
  end.

Definition update_personal_bests (db : DB) (owner_id : Z) (session : Session.t)
    (set_log : SetLog.t) : DB :=
  set_personal_bests db
    (foldl (merge_entry owner_id session set_log) (personal_bests db) (pb_entries set_log)).


(** The loop [for log in set_logs: update_personal_bests(db, user.id, sess, log)]
    of [finish_session]: the derive-and-merge pass over a session's sets. *)
Definition derive_personal_bests (owner_id : Z) (session : Session.t)
    (logs : list SetLog.t) (db : DB) : DB :=
  foldl (λ db log, update_personal_bests db owner_id session log) db logs.

(** Any sequence of merges: each is a call of [update_personal_bests] with
    its owner, session and set. *)
Definition merge_all (merges : list (Z * Session.t * SetLog.t)) (db : DB) : DB :=
  foldl (λ db '(owner_id, session, set_log),
           update_personal_bests db owner_id session set_log) db merges.

(** What merging may do to a stored record: leave it as it is, or raise its
    value (the identity and the key columns stay). *)
Definition pb_kept_or_raised (pb pb' : PersonalBest.t) : Prop :=
  pb' = pb ∨
  (PersonalBest.id pb' = PersonalBest.id pb ∧
   PersonalBest.owner_id pb' = PersonalBest.owner_id pb ∧
   PersonalBest.exercise_id pb' = PersonalBest.exercise_id pb ∧
   PersonalBest.kind pb' = PersonalBest.kind pb ∧
   (PersonalBest.value pb < PersonalBest.value pb')%Q).

(** The pass on the table of personal bests alone. *)
Definition merge_logs (owner_id : Z) (session : Session.t) (logs : list SetLog.t)
    (pbs : list PersonalBest.t) : list PersonalBest.t :=
  foldl (λ pbs log, foldl (merge_entry owner_id session log) pbs (pb_entries log)) pbs logs.

(** The record stored under a candidate's key is at least the candidate. *)
Definition entry_covered (owner_id : Z) (set_log : SetLog.t) (pbs : list PersonalBest.t)
    (entry : string * string * Q) : Prop :=
  ∃ e, find_pb owner_id (SetLog.exercise_id set_log) entry.1.1 (SetLog.reps set_log) pbs
         = Some e ∧
       (entry.2 <= PersonalBest.value e)%Q.

Definition serialize_session (db : DB) (sess : Session.t) : Session.t * list SetLog.t :=
  (sess, filter (λ l, SetLog.session_id l = Session.id sess) (set_logs db)).

Definition get_user_by_username (db : DB) (username : string) : option User.t :=
  head (filter (λ u, User.username u = username) (users db)).

Definition friendship_key (a b : Z) : Z * Z :=
  if decide (a < b) then (a, b) else (b, a).

Definition friendship_exists (db : DB) (a b : Z) : bool :=
  let '(u1, u2) := friendship_key a b in
  match head (filter (λ f, Friendship.user_id f = u1 ∧ Friendship.friend_id f = u2)
                     (friendships db)) with
  | Some _ => true
  | None => false
  end.

Definition ensure_friendship (db : DB) (a b : Z) : result http_exception DB :=
  let '(u1, u2) := friendship_key a b in
  if decide (u1 = u2) then Raise (HTTPException 400 "Cannot friend yourself")
  else if negb (friendship_exists db u1 u2)
  then Ok (set_friendships db
             (friendships db ++ [Friendship.mk (db_fresh (friendships db)) u1 u2]))
  else Ok db.

(** The canonical edge of the pair is stored. *)
Definition friends (db : DB) (a b : Z) : Prop :=
  ∃ f, f ∈ friendships db ∧
       Friendship.user_id f = Z.min a b ∧ Friendship.friend_id f = Z.max a b.

(** A pending request stands between the two, in either direction. *)
Definition pending_between (db : DB) (a b : Z) : Prop :=
  ∃ fr, fr ∈ friend_requests db ∧ FriendRequest.status fr = "pending" ∧
        ((FriendRequest.from_user_id fr = a ∧ FriendRequest.to_user_id fr = b) ∨
         (FriendRequest.from_user_id fr = b ∧ FriendRequest.to_user_id fr = a)).

(** *** Sessions *)

Record SetLogPayload := mkSetLogPayload {
  p_exercise_id : Z; p_set_number : Z; p_weight : float; p_reps : Z; p_rpe : float;
  p_comment : string }.

(** [db.commit()] writes the new row: the driver refuses an integer of the
    payload that does not fit the column, and the table a NaN. *)
Definition log_set (session_id : Z) (log : SetLogPayload) (user : User.t) (db : DB)
    : result http_exception (DB * SetLog.t) :=
  sess ← or_raise (db_get session_id (sessions db)) (HTTPException 404 "Session not found");
  _ ← ensure_owner (Session.owner_id sess) user;
  if negb (int64 (p_exercise_id log) && int64 (p_set_number log) && int64 (p_reps log))
  then Raise OverflowError
  else
    match p_weight log, p_rpe log with
    | Num weight, Num rpe =>
        let db_log := SetLog.mk (db_fresh (set_logs db)) session_id (p_exercise_id log)
                        (p_set_number log) weight (p_reps log) rpe (p_comment log) in
        Ok (set_set_logs db (set_logs db ++ [db_log]), db_log)
    | _, _ => Raise IntegrityError
    end.

Definition set_status (sess : Session.t) (status : string) : Session.t :=
  Session.mk (Session.id sess) (Session.owner_id sess) (Session.template_id sess)
    (Session.program_id sess) (Session.template_name sess) (Session.program_name sess)
    (Session.date sess) status.

Definition finish_session (session_id : Z) (user : User.t) (db : DB)
    : result http_exception (DB * (Session.t * list SetLog.t)) :=
  sess ← or_raise (db_get session_id (sessions db)) (HTTPException 404 "Session not found");
  _ ← ensure_owner (Session.owner_id sess) user;
  let sess := set_status sess "done" in
  let logs := filter (λ l, SetLog.session_id l = Session.id sess) (set_logs db) in
  let db := derive_personal_bests (User.id user) sess logs db in
  let db := set_sessions db (db_update sess (sessions db)) in
  Ok (db, serialize_session db sess).

Definition cancel_session (session_id : Z) (user : User.t) (db : DB)
    : result http_exception (DB * (Session.t * list SetLog.t)) :=
  sess ← or_raise (db_get session_id (sessions db)) (HTTPException 404 "Session not found");
  _ ← ensure_owner (Session.owner_id sess) user;
  let sess := set_status sess "cancelled" in
  let logs := filter (λ l, SetLog.session_id l = Session.id sess) (set_logs db) in
  let db := foldl (λ db log, set_set_logs db (db_delete (SetLog.id log) (set_logs db))) db logs in
  let db := set_sessions db (db_update sess (sessions db)) in
  Ok (db, serialize_session db sess).

Definition delete_session (session_id : Z) (user : User.t) (db : DB) : result http_exception (DB * Z) :=
  sess ← or_raise (db_get session_id (sessions db)) (HTTPException 404 "Session not found");
  _ ← ensure_owner (Session.owner_id sess) user;
  let logs := filter (λ l, SetLog.session_id l = session_id) (set_logs db) in
  let db := foldl (λ db log, set_set_logs db (db_delete (SetLog.id log) (set_logs db))) db logs in
  let db := set_sessions db (db_delete (Session.id sess) (sessions db)) in
  Ok (db, session_id).

(** *** Programs *)

Definition delete_program (program_id : Z) (user : User.t) (db : DB) : result http_exception (DB * Z) :=
  pr ← or_raise (db_get program_id (programs db)) (HTTPException 404 "Program not found");
  _ ← ensure_owner (Program.owner_id pr) user;
  let templates := filter (λ t, WorkoutTemplate.program_id t = program_id) (workout_templates db) in
  let db := foldl (λ db tpl,
      let rows := filter (λ r, TemplateExercise.template_id r = WorkoutTemplate.id tpl)
                         (template_exercises db) in
      let db := foldl (λ db row,
          set_template_exercises db (db_delete (TemplateExercise.id row) (template_exercises db)))
          db rows in
      set_workout_templates db (db_delete (WorkoutTemplate.id tpl) (workout_templates db)))
    db templates in
  let sessions_ := filter (λ s, Session.program_id s = program_id) (sessions db) in
  let db := foldl (λ db s, set_sessions db (db_delete (Session.id s) (sessions db))) db sessions_ in
  let db := set_programs db (db_delete (Program.id pr) (programs db)) in
  Ok (db, program_id).

(** *** Friends *)

Definition send_friend_request (to_username : string) (user : User.t) (db : DB)
    : result http_exception (DB * FriendRequest.t) :=
  to_user ← or_raise (get_user_by_username db to_username) (HTTPException 404 "Recipient not found");
  if decide (User.id to_user = User.id user)
  then Raise (HTTPException 400 "Cannot send request to yourself")
  else if friendship_exists db (User.id user) (User.id to_user)
  then Raise (HTTPException 400 "You are already friends")
  else
    let pending := head (filter (λ fr,
        ((FriendRequest.from_user_id fr = User.id user ∧
          FriendRequest.to_user_id fr = User.id to_user) ∨
         (FriendRequest.from_user_id fr = User.id to_user ∧
          FriendRequest.to_user_id fr = User.id user)) ∧
        FriendRequest.status fr = "pending") (friend_requests db)) in
    match pending with
    | Some _ => Raise (HTTPException 400 "Request already pending")
    | None =>
        let fr := FriendRequest.mk (db_fresh (friend_requests db)) (User.id user)
                    (User.id to_user) "pending" in
        Ok (set_friend_requests db (friend_requests db ++ [fr]), fr)
    end.

Definition set_fr_status (fr : FriendRequest.t) (status : string) : FriendRequest.t :=
  FriendRequest.mk (FriendRequest.id fr) (FriendRequest.from_user_id fr)
    (FriendRequest.to_user_id fr) status.

Definition accept_friend_request (request_id : Z) (user : User.t) (db : DB)
    : result http_exception (DB * FriendRequest.t) :=
  fr ← or_raise (db_get request_id (friend_requests db)) (HTTPException 404 "Request not found");
  if decide (FriendRequest.to_user_id fr ≠ User.id user)
  then Raise (HTTPException 403 "Not allowed")
  else if decide (FriendRequest.status fr ≠ "pending")
  then Raise (HTTPException 400 "Request already handled")
  else
    let fr' := set_fr_status fr "accepted" in
    db ← ensure_friendship db (FriendRequest.from_user_id fr') (FriendRequest.to_user_id fr');
    Ok (set_friend_requests db (db_update fr' (friend_requests db)), fr').

Definition reject_friend_request (request_id : Z) (user : User.t) (db : DB)
    : result http_exception (DB * FriendRequest.t) :=
  fr ← or_raise (db_get request_id (friend_requests db)) (HTTPException 404 "Request not found");
  if decide (FriendRequest.to_user_id fr ≠ User.id user)
  then Raise (HTTPException 403 "Not allowed")
  else if decide (FriendRequest.status fr ≠ "pending")
  then Raise (HTTPException 400 "Request already handled")
  else
    let fr' := set_fr_status fr "rejected" in
    Ok (set_friend_requests db (db_update fr' (friend_requests db)), fr').

(** The friend ids of [list_friends], before they are resolved to profiles. *)
Definition friend_ids (user : User.t) (db : DB) : list Z :=
  (λ link, if decide (Friendship.user_id link = User.id user)
           then Friendship.friend_id link else Friendship.user_id link)
  <$> filter (λ f, Friendship.user_id f = User.id user ∨ Friendship.friend_id f = User.id user)
        (friendships db).

(** *** Copying a program ([copy_program_from_public])

    The function is split at its loops: the scan of the source rows, the
    copy of the exercises (which builds [new_ex_map]) and the copy of the
    templates with their rows. *)

(** The templates of a program, the rows of a template, and the rows of a
    program template by template: the queries of the copy. *)
Definition program_templates (db : DB) (program_id : Z) : list WorkoutTemplate.t :=
  filter (λ t, WorkoutTemplate.program_id t = program_id) (workout_templates db).

Definition template_rows (db : DB) (template_id : Z) : list TemplateExercise.t :=
  filter (λ r, TemplateExercise.template_id r = template_id) (template_exercises db).

Definition program_rows (db : DB) (program_id : Z) : list TemplateExercise.t :=
  program_templates db program_id ≫= (λ tpl, template_rows db (WorkoutTemplate.id tpl)).

(** An exercise copied for another owner: every field but the identity and
    the owner. *)
Definition exercise_forked (owner_id : Z) (ex ex' : Exercise.t) : Prop :=
  Exercise.owner_id ex' = owner_id ∧
  Exercise.name ex' = Exercise.name ex ∧
  Exercise.muscle_group ex' = Exercise.muscle_group ex ∧
  Exercise.type ex' = Exercise.type ex ∧
  Exercise.equipment ex' = Exercise.equipment ex ∧
  Exercise.notes ex' = Exercise.notes ex.

(** A row copied through the remap table: the planning fields as they were,
    the exercise the one the table gives for the source's. *)
Definition row_forked (new_ex_map : gmap Z Z) (row row' : TemplateExercise.t) : Prop :=
  new_ex_map !! TemplateExercise.exercise_id row = Some (TemplateExercise.exercise_id row') ∧
  TemplateExercise.planned_sets row' = TemplateExercise.planned_sets row ∧
  TemplateExercise.reps row' = TemplateExercise.reps row ∧
  TemplateExercise.planned_weight row' = TemplateExercise.planned_weight row ∧
  TemplateExercise.rpe row' = TemplateExercise.rpe row ∧
  TemplateExercise.rest row' = TemplateExercise.rest row ∧
  TemplateExercise.comment row' = TemplateExercise.comment row.

(** [rows_by_tpl] and [exercise_ids] of the source program. *)
Definition scan_templates (db : DB) (templates : list WorkoutTemplate.t)
    : gmap Z (list TemplateExercise.t) * gset Z :=
  foldl (λ '(rows_by_tpl, exercise_ids) tpl,
      let rows := filter (λ r, TemplateExercise.template_id r = WorkoutTemplate.id tpl)
                         (template_exercises db) in
      (<[WorkoutTemplate.id tpl := rows]> rows_by_tpl,
       foldl (λ ids r, {[TemplateExercise.exercise_id r]} ∪ ids) exercise_ids rows))
    (∅, ∅) templates.

Definition copy_exercises (user : User.t) (exercises_ : list Exercise.t) (db : DB)
    : DB * gmap Z Z :=
  foldl (λ '(db, new_ex_map) ex,
      let new_ex := Exercise.mk (db_fresh (exercises db)) (User.id user) (Exercise.name ex)
                      (Exercise.muscle_group ex) (Exercise.type ex) (Exercise.equipment ex)
                      (Exercise.notes ex) in
      (set_exercises db (exercises db ++ [new_ex]),
       <[Exercise.id ex := Exercise.id new_ex]> new_ex_map))
    (db, ∅) exercises_.

Definition copy_rows (new_tpl : WorkoutTemplate.t) (new_ex_map : gmap Z Z)
    (rows : list TemplateExercise.t) (db : DB) : DB * list TemplateExercise.t :=
  foldl (λ '(db, new_rows) row,
      match new_ex_map !! TemplateExercise.exercise_id row with
      | Some mapped_ex_id =>
          if decide (mapped_ex_id = 0) then (db, new_rows)
          else
            let new_row := TemplateExercise.mk (db_fresh (template_exercises db))
                             (WorkoutTemplate.id new_tpl) mapped_ex_id
                             (TemplateExercise.planned_sets row) (TemplateExercise.reps row)
                             (TemplateExercise.planned_weight row) (TemplateExercise.rpe row)
                             (TemplateExercise.rest row) (TemplateExercise.comment row) in
            (set_template_exercises db (template_exercises db ++ [new_row]),
             new_rows ++ [new_row])
      | None => (db, new_rows)
      end)
    (db, []) rows.

Definition copy_templates (user : User.t) (new_program : Program.t)
    (rows_by_tpl : gmap Z (list TemplateExercise.t)) (new_ex_map : gmap Z Z)
    (templates : list WorkoutTemplate.t) (db : DB)
    : DB * list (WorkoutTemplate.t * list TemplateExercise.t) :=
  foldl (λ '(db, new_templates) tpl,
      let new_tpl := WorkoutTemplate.mk (db_fresh (workout_templates db))
                       (Program.id new_program) (User.id user) (WorkoutTemplate.name tpl) in
      let db := set_workout_templates db (workout_templates db ++ [new_tpl]) in
      let '(db, new_rows) :=
        copy_rows new_tpl new_ex_map (default [] (rows_by_tpl !! WorkoutTemplate.id tpl)) db in
      (db, new_templates ++ [(new_tpl, new_rows)]))
    (db, []) templates.

Definition copy_program_from_public (program_id : Z) (user : User.t) (db : DB)
    : result http_exception (DB * (Program.t * list (WorkoutTemplate.t * list TemplateExercise.t))) :=
  source ← or_raise (db_get program_id (programs db)) (HTTPException 404 "Program not found");
  if decide (Program.owner_id source ≠ User.id user ∧ Program.is_public source = false)
  then Raise (HTTPException 403 "Program is not public")
  else
    let templates := filter (λ t, WorkoutTemplate.program_id t = Program.id source)
                            (workout_templates db) in
    let '(rows_by_tpl, exercise_ids) := scan_templates db templates in
    let exercises_ :=
      if decide (exercise_ids ≠ ∅)
      then filter (λ ex, Exercise.id ex ∈ exercise_ids) (exercises db)
      else [] in
    let new_program := Program.mk (db_fresh (programs db)) (User.id user)
        (if decide (Program.owner_id source ≠ User.id user)
         then (Program.name source ++ " (kopia)")%string else Program.name source)
        (Program.description source) (Program.start_date source) (Program.end_date source)
        (Program.status source) 1 "private" false in
    let db := set_programs db (programs db ++ [new_program]) in
    let '(db, new_ex_map) := copy_exercises user exercises_ db in
    let '(db, new_templates) := copy_templates user new_program rows_by_tpl new_ex_map templates db in
    Ok (db, (new_program, new_templates)).

(** *** Registration ([register]) *)

Definition set_users (db : DB) (l : list User.t) : DB :=
  mkDB l (exercises db) (programs db) (workout_templates db) (template_exercises db)
       (sessions db) (set_logs db) (personal_bests db) (friend_requests db) (friendships db).

(** The class [[A-Za-z0-9_]] of [USERNAME_RE]. *)
Definition word_char (c : ascii) : bool :=
  let n := Z.of_N (N_of_ascii c) in
  bool_decide ((65 ≤ n ∧ n ≤ 90) ∨ (97 ≤ n ∧ n ≤ 122) ∨ (48 ≤ n ∧ n ≤ 57) ∨ n = 95).

(** A string of word characters. *)
Fixpoint all_word (s : string) : bool :=
  match s with
  | String c s' => word_char c && all_word s'
  | EmptyString => true
  end.

(** The length of the longest run of word characters a string starts with,
    and what follows the run. *)
Fixpoint word_prefix (s : string) : nat * string :=
  match s with
  | String c s' =>
      if word_char c then let '(n, rest) := word_prefix s' in (S n, rest) else (O, s)
  | EmptyString => (O, EmptyString)
  end.

(** [USERNAME_RE.match(username)] for the pattern [^[A-Za-z0-9_]{3,30}$]:
    the run of word characters has to reach the place where [$] matches,
    which in Python is the end of the string or the line feed that ends
    it. *)
Definition username_re_match (username : string) : bool :=
  let '(n, rest) := word_prefix username in
  bool_decide (3 ≤ n ∧ n ≤ 30)%nat &&
  bool_decide (rest = EmptyString ∨ rest = String "010"%char EmptyString).

Definition validate_username_or_400 (username : string) : result http_exception unit :=
  if username_re_match username then Ok ()
  else Raise (HTTPException 400
                "Username must be 3-30 chars and contain only letters, numbers or _").

Record RegisterPayload := mkRegisterPayload {
  r_email : string; r_password : string; r_display_name : string; r_username : string }.

(** The response carries the stored user; its access token is left out, as
    is the hash of the password in the row. *)
Definition register (payload : RegisterPayload) (db : DB) : result http_exception (DB * User.t) :=
  if decide (len (r_password payload) = 0%nat)
  then Raise (HTTPException 400 "Password required")
  else if decide (128 < len (r_password payload))%nat
  then Raise (HTTPException 400 "Password too long (max 128 tecken)")
  else
    _ ← validate_username_or_400 (r_username payload);
    match head (filter (λ u, User.email u = r_email payload) (users db)) with
    | Some _ => Raise (HTTPException 400 "Email already registered")
    | None =>
        match head (filter (λ u, User.username u = r_username payload) (users db)) with
        | Some _ => Raise (HTTPException 400 "Username already taken")
        | None =>
            let user := User.mk (db_fresh (users db)) (r_email payload) (r_username payload)
                          (r_display_name payload) in
            Ok (set_users db (users db ++ [user]), user)
        end
    end.

(** Emails and usernames are unique, as the columns declare. *)
Definition unique_accounts (db : DB) : Prop :=
  unique_ids (users db) ∧
  NoDup (User.email <$> users db) ∧
  NoDup (User.username <$> users db).

(** *** Exercises *)

Record ExerciseCreate := mkExerciseCreate {
  c_name : string; c_muscle_group : string; c_type : string; c_equipment : string;
  c_notes : string }.

Section exercise_names.
(** [str.strip], [str.upper] and the [lower] of the database are taken as
    they are. *)
Variables (strip upper lower : string → string).

(** [name_clean]: stripped, with its first character in upper case. *)
Definition clean_name (name : string) : string :=
  let name_clean := strip name in
  match uncons name_clean with
  | Some (first, rest) => (upper first ++ rest)%string
  | None => name_clean
  end.

Definition create_exercise (payload : ExerciseCreate) (user : User.t) (db : DB)
    : result http_exception (DB * Exercise.t) :=
  let name_clean := clean_name (c_name payload) in
  match head (filter (λ ex, Exercise.owner_id ex = User.id user ∧
                            lower (Exercise.name ex) = lower name_clean) (exercises db)) with
  | Some _ => Raise (HTTPException 400 "Exercise with this name already exists.")
  | None =>
      let ex := Exercise.mk (db_fresh (exercises db)) (User.id user) name_clean
                  (c_muscle_group payload) (c_type payload) (c_equipment payload)
                  (c_notes payload) in
      Ok (set_exercises db (exercises db ++ [ex]), ex)
  end.

(** No owner has two exercises whose names differ in case only. *)
Definition unique_names (db : DB) : Prop :=
  ∀ i j ex1 ex2,
    exercises db !! i = Some ex1 → exercises db !! j = Some ex2 →
    Exercise.owner_id ex1 = Exercise.owner_id ex2 →
    lower (Exercise.name ex1) = lower (Exercise.name ex2) → i = j.
End exercise_names.

Definition delete_exercise (exercise_id : Z) (user : User.t) (db : DB)
    : result http_exception (DB * Z) :=
  db_ex ← or_raise (db_get exercise_id (exercises db)) (HTTPException 404 "Exercise not found");
  _ ← ensure_owner (Exercise.owner_id db_ex) user;
  Ok (set_exercises db (db_delete (Exercise.id db_ex) (exercises db)), exercise_id).

(** *** Templates and their rows *)

Record TemplateExerciseCreate := mkTemplateExerciseCreate {
  c_exercise_id : Z; c_planned_sets : string; c_reps : string; c_planned_weight : string;
  c_rpe : string; c_rest : string; c_comment : string }.

(** [session.commit()] writes the new row: the driver refuses an
    [exercise_id] that does not fit the column. *)
Definition add_exercise_to_template (template_id : Z) (row : TemplateExerciseCreate)
    (user : User.t) (db : DB) : result http_exception (DB * TemplateExercise.t) :=
  tpl ← or_raise (db_get template_id (workout_templates db))
          (HTTPException 404 "Template not found");
  _ ← ensure_owner (WorkoutTemplate.owner_id tpl) user;
  if negb (int64 (c_exercise_id row)) then Raise OverflowError
  else
    let row_db := TemplateExercise.mk (db_fresh (template_exercises db)) (WorkoutTemplate.id tpl)
                    (c_exercise_id row) (c_planned_sets row) (c_reps row) (c_planned_weight row)
                    (c_rpe row) (c_rest row) (c_comment row) in
    Ok (set_template_exercises db (template_exercises db ++ [row_db]), row_db).

Definition remove_exercise_from_template (template_id row_id : Z) (user : User.t) (db : DB)
    : result http_exception (DB * Z) :=
  tpl ← or_raise (db_get template_id (workout_templates db))
          (HTTPException 404 "Template not found");
  _ ← ensure_owner (WorkoutTemplate.owner_id tpl) user;
  match db_get row_id (template_exercises db) with
  | Some row =>
      if decide (TemplateExercise.template_id row ≠ WorkoutTemplate.id tpl)
      then Raise (HTTPException 404 "Row not found")
      else Ok (set_template_exercises db
                 (db_delete (TemplateExercise.id row) (template_exercises db)), row_id)
  | None => Raise (HTTPException 404 "Row not found")
  end.

Definition delete_template (template_id : Z) (user : User.t) (db : DB)
    : result http_exception (DB * Z) :=
  tpl ← or_raise (db_get template_id (workout_templates db))
          (HTTPException 404 "Template not found");
  _ ← ensure_owner (WorkoutTemplate.owner_id tpl) user;
  let rows := filter (λ r, TemplateExercise.template_id r = template_id)
                     (template_exercises db) in
  let db := foldl (λ db row,
      set_template_exercises db (db_delete (TemplateExercise.id row) (template_exercises db)))
      db rows in
  let db := set_workout_templates db (db_delete (WorkoutTemplate.id tpl) (workout_templates db)) in
  Ok (db, template_id).

(** *** Sessions: starting and clearing *)

Record SessionStartPayload := mkSessionStartPayload {
  s_template_id : Z; s_date : option string }.

(** [today] is [datetime.now().strftime("%Y-%m-%d")]. *)
Definition start_session (today : string) (payload : SessionStartPayload) (user : User.t)
    (db : DB) : result http_exception (DB * (Session.t * list SetLog.t)) :=
  tpl ← or_raise (db_get (s_template_id payload) (workout_templates db))
          (HTTPException 404 "Template not found");
  _ ← ensure_owner (WorkoutTemplate.owner_id tpl) user;
  let program := db_get (WorkoutTemplate.program_id tpl) (programs db) in
  let date_value := match s_date payload with
                    | Some (String c s) => String c s
                    | _ => today
                    end in
  let sess := Session.mk (db_fresh (sessions db)) (User.id user) (WorkoutTemplate.id tpl)
                (WorkoutTemplate.program_id tpl) (WorkoutTemplate.name tpl)
                (from_option Program.name EmptyString program) date_value "in_progress" in
  let db := set_sessions db (sessions db ++ [sess]) in
  Ok (db, serialize_session db sess).

Definition clear_active_sessions (user : User.t) (db : DB) : result http_exception (DB * Z) :=
  let active_sessions :=
    filter (λ s, Session.owner_id s = User.id user ∧ Session.status s = "in_progress")
           (sessions db) in
  Ok (foldl (λ '(db, cleared) sess,
        let logs := filter (λ l, SetLog.session_id l = Session.id sess) (set_logs db) in
        let db := foldl (λ db log, set_set_logs db (db_delete (SetLog.id log) (set_logs db)))
                        db logs in
        let db := set_sessions db (db_delete (Session.id sess) (sessions db)) in
        (db, cleared + 1))
      (db, 0) active_sessions).

(** *** Personal bests: listing and publishing *)


Definition set_pb_public (pb : PersonalBest.t) (is_public : bool) : PersonalBest.t :=
  PersonalBest.mk (PersonalBest.id pb) (PersonalBest.owner_id pb) (PersonalBest.exercise_id pb)
    (PersonalBest.kind pb) (PersonalBest.label pb) (PersonalBest.value pb)
    (PersonalBest.reps pb) (PersonalBest.date pb) (PersonalBest.set_log_id pb) is_public.

Definition publish_pb (pb_id : Z) (is_public : bool) (user : User.t) (db : DB)
    : result http_exception (DB * PersonalBest.t) :=
  pb ← or_raise (db_get pb_id (personal_bests db)) (HTTPException 404 "PB not found");
  _ ← ensure_owner (PersonalBest.owner_id pb) user;
  let pb := set_pb_public pb is_public in
  Ok (set_personal_bests db (db_update pb (personal_bests db)), pb).

(** What a merge for owner [o] may do to a stored record: keep it or raise
    its value, with its publication flag as it was; a record of another owner
    is kept. *)
Definition pb_merged (o : Z) (pb pb' : PersonalBest.t) : Prop :=
  pb_kept_or_raised pb pb' ∧
  PersonalBest.is_public pb' = PersonalBest.is_public pb ∧
  (PersonalBest.owner_id pb ≠ o → pb' = pb).

(** What it may do to the table: the stored records are merged in place,
    and the records it adds are private records of [o]. *)
Definition pbs_merged (o : Z) (pbs pbs' : list PersonalBest.t) : Prop :=
  ∃ olds news,
    pbs' = olds ++ news ∧ Forall2 (pb_merged o) pbs olds ∧
    Forall (λ n, PersonalBest.is_public n = false ∧ PersonalBest.owner_id n = o) news.

(** *** Friends: the lists *)

(** The pending requests sent to the user, each with the name and the
    display name of its sender when the sender is still there. *)
Definition list_incoming_requests (user : User.t) (db : DB)
    : list (Z * option string * option string * string) :=
  (λ fr, let from_user := db_get (FriendRequest.from_user_id fr) (users db) in
         (FriendRequest.id fr, User.username <$> from_user, User.display_name <$> from_user,
          FriendRequest.status fr))
  <$> filter (λ fr, FriendRequest.to_user_id fr = User.id user ∧
                    FriendRequest.status fr = "pending") (friend_requests db).

Definition list_outgoing_requests (user : User.t) (db : DB)
    : list (Z * option string * option string * string) :=
  (λ fr, let to_user := db_get (FriendRequest.to_user_id fr) (users db) in
         (FriendRequest.id fr, User.username <$> to_user, User.display_name <$> to_user,
          FriendRequest.status fr))
  <$> filter (λ fr, FriendRequest.from_user_id fr = User.id user ∧
                    FriendRequest.status fr = "pending") (friend_requests db).

(** [list_friends]: identifier, name and display name of every friend that
    is found among the users. *)
Definition list_friends (user : User.t) (db : DB) : list (Z * string * string) :=
  let friend_ids_ := friend_ids user db in
  match friend_ids_ with
  | [] => []
  | _ =>
      let friends_ := filter (λ u, User.id u ∈ friend_ids_) (users db) in
      let lookup : gmap Z User.t := foldl (λ m u, <[User.id u := u]> m) ∅ friends_ in
      omap (λ fid, (λ u, (fid, User.username u, User.display_name u)) <$> lookup !! fid)
           friend_ids_
  end.

(** The edges are stored in their canonical direction, each pair once (the
    unique constraint of the table). *)
Definition canonical_friendships (db : DB) : Prop :=
  Forall (λ f, Friendship.user_id f < Friendship.friend_id f) (friendships db) ∧
  NoDup ((λ f, (Friendship.user_id f, Friendship.friend_id f)) <$> friendships db).

(** *** Public content *)

Definition _get_owner_or_404 (db : DB) (username : string) : result http_exception User.t :=
  or_raise (get_user_by_username db username) (HTTPException 404 "User not found").

Definition list_user_programs (username : string) (viewer : User.t) (db : DB)
    : result http_exception (list Program.t) :=
  owner ← _get_owner_or_404 db username;
  let is_owner := bool_decide (User.id viewer = User.id owner) in
  let q := filter (λ p, Program.owner_id p = User.id owner) (programs db) in
  Ok (if is_owner then q else filter (λ p, Program.is_public p = true) q).

(** The program with its templates, each with its rows and, next to every
    row, the exercise it points at when that is found. *)
Definition get_user_program_full (username : string) (program_id : Z) (viewer : User.t)
    (db : DB)
    : result http_exception
        (Program.t * list (WorkoutTemplate.t * list (TemplateExercise.t * option Exercise.t))) :=
  owner ← _get_owner_or_404 db username;
  match db_get program_id (programs db) with
  | None => Raise (HTTPException 404 "Program not found")
  | Some program =>
      if decide (Program.owner_id program ≠ User.id owner)
      then Raise (HTTPException 404 "Program not found")
      else
        let is_owner := bool_decide (User.id viewer = User.id owner) in
        if negb is_owner && negb (Program.is_public program)
        then Raise (HTTPException 403 "Program is not public")
        else
          let templates := filter (λ t, WorkoutTemplate.program_id t = Program.id program)
                                  (workout_templates db) in
          Ok (program,
              (λ tpl,
                 let rows := filter (λ r, TemplateExercise.template_id r = WorkoutTemplate.id tpl)
                                    (template_exercises db) in
                 let exercise_ids : gset Z :=
                   list_to_set (TemplateExercise.exercise_id <$> rows) in
                 let exercises_ :=
                   if decide (exercise_ids ≠ ∅)
                   then filter (λ ex, Exercise.id ex ∈ exercise_ids) (exercises db)
                   else [] in
                 let ex_map : gmap Z Exercise.t :=
                   foldl (λ m ex, <[Exercise.id ex := ex]> m) ∅ exercises_ in
                 (tpl, (λ r, (r, ex_map !! TemplateExercise.exercise_id r)) <$> rows))
              <$> templates)
  end.

Definition list_user_public_pbs (username : string) (exercise_id : option Z) (viewer : User.t)
    (db : DB) : result http_exception (list PersonalBest.t) :=
  owner ← _get_owner_or_404 db username;
  let is_owner := bool_decide (User.id viewer = User.id owner) in
  let q := filter (λ pb, PersonalBest.owner_id pb = User.id owner) (personal_bests db) in
  let q := match exercise_id with
           | Some e => if decide (e = 0) then q
                       else filter (λ pb, PersonalBest.exercise_id pb = e) q
           | None => q
           end in
  Ok (if is_owner then q else filter (λ pb, PersonalBest.is_public pb = true) q).

Definition set_program_public (program : Program.t) (is_public : bool) : Program.t :=
  Program.mk (Program.id program) (Program.owner_id program) (Program.name program)
    (Program.description program) (Program.start_date program) (Program.end_date program)
    (Program.status program) (Program.version program) (Program.visibility program) is_public.

Definition publish_program (program_id : Z) (is_public : bool) (user : User.t) (db : DB)
    : result http_exception (DB * Program.t) :=
  program ← or_raise (db_get program_id (programs db)) (HTTPException 404 "Program not found");
  _ ← ensure_owner (Program.owner_id program) user;
  let program := set_program_public program is_public in
  Ok (set_programs db (db_update program (programs db)), program).

End Api.

(** ** The file-based prototype ([src/GYM/app.py], [src/server.py])

    The JSON document is a record of lists; a dictionary-shaped entity is a
    record.  A reference to an element of a list (what [require_id] and
    [find_item] return, and what the code then mutates in place) is the
    position of the element together with its value.  [gen_id] draws the
    first eight hex digits of a random UUID: identifiers are opaque tokens,
    modelled by [nat], and the draws are a parameter, [draw k] being what the
    k-th call returns.  Nothing is assumed of them, not even that two draws
    differ.  The number of calls so far is threaded through every operation
    that draws.  What the command prints is returned next to the document it
    saves. *)

Inductive system_exit : Type :=
| SystemExit (msg : string).

Module Gym.

Definition Id := nat.

Module Exercise.
Record t := mk {
  id : Id; name : string; muscle_group : string; type : string;
  equipment : string; notes : string }.
End Exercise.

Module Program.
Record t := mk {
  id : Id; name : string; description : string; start_date : string;
  end_date : string; status : string; version : Z }.
End Program.

(** A row of a template ([WorkoutExerciseTemplate]). *)
Module ExerciseRow.
Record t := mk {
  id : Id; exercise_id : Id; planned_sets : string; reps : string;
  planned_weight : string; rpe : string; rest : string; comment : string }.
End ExerciseRow.

Module Template.
Record t := mk {
  id : Id; program_id : Id; name : string; exercises : list ExerciseRow.t }.
End Template.

Module SetLog.
Record t := mk {
  id : Id; exercise_id : Id; set_number : Z; weight : float; reps : Z; rpe : float;
  comment : string }.
End SetLog.

Module Session.
Record t := mk {
  id : Id; template_id : Id; program_id : Id; template_name : string;
  program_name : string; date : string; set_logs : list SetLog.t;
  status : string }.
End Session.

Module PB.
Record t := mk {
  id : Id; exercise_id : Id; kind : string; label : string; value : float;
  reps : Z; date : string; set_log_id : Id }.
End PB.

Record DB := mkDB {
  exercises : list Exercise.t;
  programs : list Program.t;
  workout_templates : list Template.t;
  sessions : list Session.t;
  personal_bests : list PB.t }.

Class Item (A : Type) := item_id : A → Id.
#[global] Instance exercise_item : Item Exercise.t := Exercise.id.
#[global] Instance program_item : Item Program.t := Program.id.
#[global] Instance template_item : Item Template.t := Template.id.
#[global] Instance session_item : Item Session.t := Session.id.

(** [find_item] of [src/server.py]: the first item with the identifier. *)
Definition find_item {A} `{Item A} (items : list A) (id : Id) : option (nat * A) :=
  list_find (λ item, item_id item = id) items.

Definition require_id {A} `{Item A} (items : list A) (id : Id) (label : string)
    : result system_exit (nat * A) :=
  or_raise (find_item items id)
    (SystemExit (label ++ " with id '" ++ pretty id ++ "' not found")%string).

Section draws.
(** [draw k] is what the k-th call of [uuid.uuid4().hex[:8]] returns. *)
Variable draw : nat → Id.

Definition gen_id (k : nat) : Id * nat := (draw k, S k).

(** *** Programs *)

(** [dict(row, id=...)]: the row with another identifier. *)
Definition with_id (row : ExerciseRow.t) (id : Id) : ExerciseRow.t :=
  ExerciseRow.mk id (ExerciseRow.exercise_id row) (ExerciseRow.planned_sets row)
    (ExerciseRow.reps row) (ExerciseRow.planned_weight row) (ExerciseRow.rpe row)
    (ExerciseRow.rest row) (ExerciseRow.comment row).

(** [[dict(row, id=gen_id()) for row in rows]]. *)
Definition copy_rows (rows : list ExerciseRow.t) (k : nat) : list ExerciseRow.t * nat :=
  foldl (λ '(rows', k) row, let '(row_id, k) := gen_id k in (rows' ++ [with_id row row_id], k))
        ([], k) rows.

(** The loop [for tpl in db["workout_templates"]] of [copy_program], which
    appends to the list it walks: the iterator is an index into the growing
    list and stops when the index reaches its end. *)
Fixpoint copy_templates (fuel : nat) (i : nat) (program_id new_program_id : Id)
    (templates : list Template.t) (k : nat) : option (list Template.t * nat) :=
  match fuel with
  | O => None
  | S fuel =>
      match templates !! i with
      | None => Some (templates, k)
      | Some tpl =>
          if decide (Template.program_id tpl ≠ program_id)
          then copy_templates fuel (S i) program_id new_program_id templates k
          else
            let '(tpl_id, k) := gen_id k in
            let '(rows, k) := copy_rows (Template.exercises tpl) k in
            let new_tpl := Template.mk tpl_id new_program_id (Template.name tpl) rows in
            copy_templates fuel (S i) program_id new_program_id (templates ++ [new_tpl]) k
      end
  end.

Record CopyArgs := mkCopyArgs {
  a_program_id : Id; a_name : option string; a_version : Z;
  a_start_date : string; a_end_date : string }.

Definition copy_program (fuel : nat) (args : CopyArgs) (db : DB) (k : nat)
    : option (result system_exit (DB * nat)) :=
  match require_id (programs db) (a_program_id args) "Program" with
  | Raise e => Some (Raise e)
  | Ok (_, program) =>
      let '(new_id, k) := gen_id k in
      let new_program := Program.mk new_id
          (match a_name args with
           | Some (String c s) => String c s
           | _ => (Program.name program ++ " (copy)")%string
           end)
          (Program.description program) (a_start_date args) (a_end_date args)
          "active" (a_version args) in
      let programs_ := programs db ++ [new_program] in
      '(templates, k) ← copy_templates fuel 0 (Program.id program) (Program.id new_program)
                          (workout_templates db) k;
      Some (Ok (mkDB (exercises db) programs_ templates (sessions db) (personal_bests db), k))
  end.

(** What [copy_program] is meant to add to the templates, told without the
    loop over the growing list: one copy per template of the source program,
    in order, each drawing its identifier and then those of its rows. *)
Fixpoint copied_templates (program_id new_program_id : Id) (templates : list Template.t)
    (k : nat) : list Template.t * nat :=
  match templates with
  | [] => ([], k)
  | tpl :: rest =>
      if decide (Template.program_id tpl ≠ program_id)
      then copied_templates program_id new_program_id rest k
      else
        let rows := zip_with with_id (Template.exercises tpl)
                      (draw <$> seq (S k) (length (Template.exercises tpl))) in
        let '(copies, k') := copied_templates program_id new_program_id rest
                               (S k + length (Template.exercises tpl)) in
        (Template.mk (draw k) new_program_id (Template.name tpl) rows :: copies, k')
  end.

(** A copy of a row: every field but the identifier as in the source, the
    exercise included. *)
Definition row_copied (row row' : ExerciseRow.t) : Prop :=
  ExerciseRow.exercise_id row' = ExerciseRow.exercise_id row ∧
  ExerciseRow.planned_sets row' = ExerciseRow.planned_sets row ∧
  ExerciseRow.reps row' = ExerciseRow.reps row ∧
  ExerciseRow.planned_weight row' = ExerciseRow.planned_weight row ∧
  ExerciseRow.rpe row' = ExerciseRow.rpe row ∧
  ExerciseRow.rest row' = ExerciseRow.rest row ∧
  ExerciseRow.comment row' = ExerciseRow.comment row.

(** A copy of a template under the new program: same name, rows copied one
    by one. *)
Definition template_copied (new_program_id : Id) (tpl tpl' : Template.t) : Prop :=
  Template.program_id tpl' = new_program_id ∧
  Template.name tpl' = Template.name tpl ∧
  Forall2 row_copied (Template.exercises tpl) (Template.exercises tpl').

(** The identifiers of a template and its rows, in the order they are drawn. *)
Definition template_ids (tpl : Template.t) : list Id :=
  Template.id tpl :: (ExerciseRow.id <$> Template.exercises tpl).

(** *** Sessions and logging *)

Record LogArgs := mkLogArgs {
  a_session_id : Id; a_exercise_id : Id; a_set_number : Z; a_weight : float;
  a_reps : Z; a_rpe : float; a_comment : string }.

Definition add_set_log (session : Session.t) (log_entry : SetLog.t) : Session.t :=
  Session.mk (Session.id session) (Session.template_id session) (Session.program_id session)
    (Session.template_name session) (Session.program_name session) (Session.date session)
    (Session.set_logs session ++ [log_entry]) (Session.status session).

Definition set_status (session : Session.t) (status : string) : Session.t :=
  Session.mk (Session.id session) (Session.template_id session) (Session.program_id session)
    (Session.template_name session) (Session.program_name session) (Session.date session)
    (Session.set_logs session) status.

Definition set_sessions (db : DB) (l : list Session.t) : DB :=
  mkDB (exercises db) (programs db) (workout_templates db) l (personal_bests db).

Definition set_personal_bests (db : DB) (l : list PB.t) : DB :=
  mkDB (exercises db) (programs db) (workout_templates db) (sessions db) l.

Definition log_set (args : LogArgs) (db : DB) (k : nat)
    : result system_exit (DB * nat * string) :=
  '(i, session) ← require_id (sessions db) (a_session_id args) "Session";
  _ ← require_id (exercises db) (a_exercise_id args) "Exercise";
  let '(log_id, k) := gen_id k in
  let log_entry := SetLog.mk log_id (a_exercise_id args) (a_set_number args) (a_weight args)
                     (a_reps args) (a_rpe args) (a_comment args) in
  Ok (set_sessions db (<[i := add_set_log session log_entry]> (sessions db)), k,
      ("Logged set " ++ pretty log_id ++ " in session " ++ pretty (Session.id session))%string).

(** *** Personal bests *)

Definition estimate_one_rm (weight : float) (reps : Z) : float :=
  float_mul weight (Num (1 + inject_Z reps / 30)).

(** The test of the search loop in [update_pb_entry]: either of its two
    [if]s selects the record. *)
Definition pb_match (exercise_id : Id) (kind : string) (reps : Z) (pb : PB.t) : Prop :=
  (PB.exercise_id pb = exercise_id ∧ PB.kind pb = kind ∧ PB.reps pb = reps) ∨
  (PB.exercise_id pb = exercise_id ∧ PB.kind pb = kind ∧ kind ≠ "max_weight_reps").

(** The search loop: the first record that passes the test, with its
    position. *)
Definition find_pb (exercise_id : Id) (kind : string) (reps : Z) (pbs : list PB.t)
    : option (nat * PB.t) :=
  list_find (pb_match exercise_id kind reps) pbs.

(** [if value <= existing["value"]: return]: the record is kept when the
    comparison holds and rewritten when it does not, which is also when one
    of the two values is NaN. *)
Definition update_pb_entry (pbs : list PB.t) (k : nat) (exercise_id : Id)
    (kind label : string) (value : float) (reps : Z) (date : string) (set_log_id : Id)
    : list PB.t * nat :=
  match find_pb exercise_id kind reps pbs with
  | Some (i, existing) =>
      if float_le value (PB.value existing) then (pbs, k)
      else
        (<[i := PB.mk (PB.id existing) (PB.exercise_id existing) (PB.kind existing)
                  label value reps date set_log_id]> pbs, k)
  | None =>
      let '(pb_id, k) := gen_id k in
      (pbs ++ [PB.mk pb_id exercise_id kind label value reps date set_log_id], k)
  end.

Definition update_personal_bests (pbs : list PB.t) (k : nat) (session : Session.t)
    : list PB.t * nat :=
  let date := Session.date session in
  foldl (λ '(pbs, k) set_log,
      let weight := SetLog.weight set_log in
      let reps := SetLog.reps set_log in
      let est_1rm := estimate_one_rm weight reps in
      let volume := float_mul weight (Num (inject_Z reps)) in
      let exercise_id := SetLog.exercise_id set_log in
      let set_id := SetLog.id set_log in
      let '(pbs, k) := update_pb_entry pbs k exercise_id "est_1rm" "1RM (est)" est_1rm
                         reps date set_id in
      let '(pbs, k) := update_pb_entry pbs k exercise_id "max_weight_reps"
                         ("Max weight for " ++ pretty reps ++ " reps")%string weight
                         reps date set_id in
      update_pb_entry pbs k exercise_id "max_volume" "Max volume" volume reps date set_id)
    (pbs, k) (Session.set_logs session).

(** Any sequence of merges: the sets of a list of sessions, in order. *)
Definition merge_all (sessions_ : list Session.t) (pbs : list PB.t) (k : nat)
    : list PB.t * nat :=
  foldl (λ '(pbs, k) session, update_personal_bests pbs k session) (pbs, k) sessions_.

(** What merging may do to a stored record: leave it as it is, or raise its
    value. *)
Definition pb_kept_or_raised (pb pb' : PB.t) : Prop :=
  pb' = pb ∨
  (PB.id pb' = PB.id pb ∧ PB.exercise_id pb' = PB.exercise_id pb ∧
   PB.kind pb' = PB.kind pb ∧ float_gt (PB.value pb') (PB.value pb) = true).

(** Every record found under a key is still found there, at the same
    position, kept or raised. *)
Definition pbs_kept_or_raised (pbs pbs' : list PB.t) : Prop :=
  ∀ exercise_id kind reps i pb,
    find_pb exercise_id kind reps pbs = Some (i, pb) →
    ∃ pb', find_pb exercise_id kind reps pbs' = Some (i, pb') ∧ pb_kept_or_raised pb pb'.

(** No stored value is NaN. *)
Definition no_nan (pbs : list PB.t) : Prop :=
  Forall (λ pb, isnan (PB.value pb) = false) pbs.

Definition finish_session (session_id : Id) (db : DB) (k : nat)
    : result system_exit (DB * nat * string) :=
  '(i, session) ← require_id (sessions db) session_id "Session";
  if decide (Session.status session = "done")
  then Ok (db, k, "Session already finished.")
  else
    let session := set_status session "done" in
    let db := set_sessions db (<[i := session]> (sessions db)) in
    let '(pbs, k) := update_personal_bests (personal_bests db) k session in
    Ok (set_personal_bests db pbs, k,
        ("Finished session " ++ pretty (Session.id session) ++ " on " ++ Session.date session)%string).

(** *** The commands that add exercises, programs, templates and rows *)

Record ExerciseArgs := mkExerciseArgs {
  e_name : string; e_muscle_group : string; e_type : string; e_equipment : string;
  e_notes : string }.

Definition add_exercise (args : ExerciseArgs) (db : DB) (k : nat) : DB * nat * string :=
  let '(ex_id, k) := gen_id k in
  let exercise := Exercise.mk ex_id (e_name args) (e_muscle_group args) (e_type args)
                    (e_equipment args) (e_notes args) in
  (mkDB (exercises db ++ [exercise]) (programs db) (workout_templates db) (sessions db)
        (personal_bests db), k,
   ("Added exercise " ++ Exercise.name exercise ++ " (id=" ++ pretty ex_id ++ ")")%string).

Record ProgramArgs := mkProgramArgs {
  p_name : string; p_description : string; p_start_date : string; p_end_date : string;
  p_status : string; p_version : Z }.

Definition add_program (args : ProgramArgs) (db : DB) (k : nat) : DB * nat * string :=
  let '(pr_id, k) := gen_id k in
  let program := Program.mk pr_id (p_name args) (p_description args) (p_start_date args)
                   (p_end_date args) (p_status args) (p_version args) in
  (mkDB (exercises db) (programs db ++ [program]) (workout_templates db) (sessions db)
        (personal_bests db), k,
   ("Added program " ++ Program.name program ++ " (id=" ++ pretty pr_id ++ ")")%string).

Record TemplateArgs := mkTemplateArgs { t_program_id : Id; t_name : string }.

Definition add_template (args : TemplateArgs) (db : DB) (k : nat)
    : result system_exit (DB * nat * string) :=
  _ ← require_id (programs db) (t_program_id args) "Program";
  let '(tpl_id, k) := gen_id k in
  let template := Template.mk tpl_id (t_program_id args) (t_name args) [] in
  Ok (mkDB (exercises db) (programs db) (workout_templates db ++ [template]) (sessions db)
           (personal_bests db), k,
      ("Added workout template " ++ Template.name template ++ " (id=" ++ pretty tpl_id ++ ")")%string).

Record RowArgs := mkRowArgs {
  r_template_id : Id; r_exercise_id : Id; r_sets : string; r_reps : string;
  r_weight : string; r_rpe : string; r_rest : string; r_comment : string }.

Definition add_row (template : Template.t) (row : ExerciseRow.t) : Template.t :=
  Template.mk (Template.id template) (Template.program_id template) (Template.name template)
    (Template.exercises template ++ [row]).

Definition add_template_exercise (args : RowArgs) (db : DB) (k : nat)
    : result system_exit (DB * nat * string) :=
  '(i, template) ← require_id (workout_templates db) (r_template_id args) "Template";
  _ ← require_id (exercises db) (r_exercise_id args) "Exercise";
  let '(row_id, k) := gen_id k in
  let exercise_row := ExerciseRow.mk row_id (r_exercise_id args) (r_sets args) (r_reps args)
                        (r_weight args) (r_rpe args) (r_rest args) (r_comment args) in
  Ok (mkDB (exercises db) (programs db)
           (<[i := add_row template exercise_row]> (workout_templates db))
           (sessions db) (personal_bests db), k,
      ("Added exercise " ++ pretty (r_exercise_id args) ++ " to template " ++
       Template.name template ++ " (row id=" ++ pretty row_id ++ ")")%string).

(** The lines [show_template] prints for the rows, and how the loop ends:
    a row whose exercise is missing exits after the lines before it. *)
Fixpoint show_rows (db : DB) (rows : list ExerciseRow.t)
    : list string * result system_exit unit :=
  match rows with
  | [] => ([], Ok ())
  | row :: rows =>
      match require_id (exercises db) (ExerciseRow.exercise_id row) "Exercise" with
      | Raise e => ([], Raise e)
      | Ok (_, ex) =>
          let '(lines, r) := show_rows db rows in
          (("  " ++ pretty (ExerciseRow.id row) ++ ": " ++ Exercise.name ex ++
            " | sets " ++ ExerciseRow.planned_sets row ++ " | reps " ++ ExerciseRow.reps row ++
            " | weight " ++ ExerciseRow.planned_weight row ++ " | RPE " ++ ExerciseRow.rpe row ++
            " | rest " ++ ExerciseRow.rest row ++ " | " ++ ExerciseRow.comment row)%string
           :: lines, r)
      end
  end.

Definition show_template (template_id : Id) (db : DB) : list string * result system_exit unit :=
  match require_id (workout_templates db) template_id "Template" with
  | Raise e => ([], Raise e)
  | Ok (_, template) =>
      match require_id (programs db) (Template.program_id template) "Program" with
      | Raise e => ([], Raise e)
      | Ok (_, program) =>
          let header := ("Template " ++ Template.name template ++ " (id=" ++
                         pretty (Template.id template) ++ ") in program " ++
                         Program.name program)%string in
          match Template.exercises template with
          | [] => ([header; "  No exercises yet."], Ok ())
          | rows => let '(lines, r) := show_rows db rows in (header :: lines, r)
          end
      end
  end.

Record StartArgs := mkStartArgs { s_template_id : Id; s_date : string }.

(** [today] is [datetime.now().strftime("%Y-%m-%d")]. *)
Definition start_session (today : string) (args : StartArgs) (db : DB) (k : nat)
    : result system_exit (DB * nat * string) :=
  '(_, template) ← require_id (workout_templates db) (s_template_id args) "Template";
  '(_, program) ← require_id (programs db) (Template.program_id template) "Program";
  let '(sess_id, k) := gen_id k in
  let session := Session.mk sess_id (Template.id template) (Program.id program)
                   (Template.name template) (Program.name program)
                   (match s_date args with
                    | String c s => String c s
                    | EmptyString => today
                    end) [] "in_progress" in
  Ok (set_sessions db (sessions db ++ [session]), k,
      ("Started session " ++ pretty sess_id ++ " for " ++ Template.name template ++ " on " ++
       Session.date session)%string).

(** A row points at a stored exercise; a template belongs to a stored
    program and all its rows point at stored exercises. *)
Definition row_linked (exercises_ : list Exercise.t) (row : ExerciseRow.t) : Prop :=
  ∃ ex, ex ∈ exercises_ ∧ Exercise.id ex = ExerciseRow.exercise_id row.

Definition linked (programs_ : list Program.t) (exercises_ : list Exercise.t)
    (tpl : Template.t) : Prop :=
  (∃ p, p ∈ programs_ ∧ Program.id p = Template.program_id tpl) ∧
  Forall (row_linked exercises_) (Template.exercises tpl).

(** Every template of the document is linked. *)
Definition well_linked (db : DB) : Prop :=
  Forall (linked (programs db) (exercises db)) (workout_templates db).

(** *** Seeding the standard exercises *)

(** The list [standard] of [seed_standard_exercises]: name, muscle group,
    type, equipment, notes. *)
Definition standard : list (string * string * string * string * string) :=
  [ ("Bänkpress", "Bröst", "styrka", "skivstång", "");
    ("Lutande bänkpress", "Bröst", "styrka", "skivstång/hantlar", "");
    ("Hantelflyes", "Bröst", "styrka", "hantlar", "");
    ("Knäböj", "Ben", "styrka", "skivstång", "");
    ("Frontböj", "Ben", "styrka", "skivstång", "");
    ("Marklyft", "Rygg/Ben", "styrka", "skivstång", "");
    ("Rumänska marklyft", "Hamstrings", "styrka", "skivstång", "");
    ("Hip thrust", "Säte", "styrka", "skivstång", "");
    ("Utfall", "Ben", "styrka", "hantlar/kroppsvikt", "");
    ("Vadpress", "Vad", "styrka", "maskin/skivstång", "");
    ("Benpress", "Ben", "styrka", "maskin", "");
    ("Benspark", "Framsida lår", "styrka", "maskin", "");
    ("Liggande lårcurl", "Hamstrings", "styrka", "maskin", "");
    ("Militärpress", "Axlar", "styrka", "skivstång", "");
    ("Hantelpress axlar", "Axlar", "styrka", "hantlar", "");
    ("Sida lyft", "Axlar", "styrka", "hantlar", "");
    ("Face pulls", "Baksida axel", "styrka", "kabel", "");
    ("Pull-up", "Rygg", "styrka", "kroppsvikt/assist", "");
    ("Chins", "Rygg/Armar", "styrka", "kroppsvikt/assist", "");
    ("Latsdrag", "Rygg", "styrka", "maskin", "");
    ("Skivstångsrodd", "Rygg", "styrka", "skivstång", "");
    ("Sittande rodd", "Rygg", "styrka", "kabel", "");
    ("Bicepscurl stång", "Armar", "styrka", "skivstång", "");
    ("Hantelcurl", "Armar", "styrka", "hantlar", "");
    ("Triceps pushdown", "Armar", "styrka", "kabel", "");
    ("Dips", "Bröst/Triceps", "styrka", "kroppsvikt/assist", "");
    ("Plankan", "Core", "styrka", "kroppsvikt", "");
    ("Russian twist", "Core", "styrka/kondition", "kettlebell/medicinboll", "");
    ("Kettlebell swing", "Höft/Condition", "kondition", "kettlebell", "");
    ("Farmer's walk", "Grepp/Core", "styrka/kondition", "hantlar/kettlebell", "") ].

Section seed.
(** [str.lower] is taken as it is. *)
Variable lower : string → string.

(** One turn of the loop over [standard]: the exercises so far, the
    identifiers drawn and the count [added]. *)
Definition seed_step (existing_names : gset string) (acc : list Exercise.t * nat * nat)
    (entry : string * string * string * string * string) : list Exercise.t * nat * nat :=
  let '(exs, k, added) := acc in
  let '(name, mg, typ, equip, notes) := entry in
  if decide (lower name ∈ existing_names) then (exs, k, added)
  else
    let '(ex_id, k) := gen_id k in
    (exs ++ [Exercise.mk ex_id name mg typ equip notes], k, S added).

Definition seed_standard_exercises (db : DB) (k : nat) : DB * nat * string :=
  let existing_names : gset string :=
    list_to_set ((λ ex, lower (Exercise.name ex)) <$> exercises db) in
  let '(exs, k, added) := foldl (seed_step existing_names) (exercises db, k, O) standard in
  (mkDB exs (programs db) (workout_templates db) (sessions db) (personal_bests db), k,
   if decide (added = O) then "Inga nya övningar lades till."
   else ("Lade till " ++ pretty added ++ " standardövningar.")%string).
End seed.

End draws.

End Gym.

(** *** The HTTP front of the prototype ([APIServer.handle_api_post]) *)

Module Server.
Import Gym.

Section draws.
Variable draw : nat → Id.

(** [POST /api/programs/delete]; [id] is [body.get("id")]. *)
Definition programs_delete (id : option Id) (db : DB) : result http_exception (DB * Id) :=
  match id with
  | None => Raise (HTTPException 400 "Missing id")
  | Some pr_id =>
      Ok (mkDB (exercises db)
            (filter (λ p, Program.id p ≠ pr_id) (programs db))
            (filter (λ t, Template.program_id t ≠ pr_id) (workout_templates db))
            (sessions db) (personal_bests db), pr_id)
  end.

(** [POST /api/sessions/<id>/log-set]; the fields of the body with their
    defaults applied. *)
Definition sessions_log_set (session_id : Id) (body : LogArgs) (db : DB) (k : nat)
    : result http_exception (DB * nat * SetLog.t) :=
  '(i, session) ← or_raise (find_item (sessions db) session_id)
                    (HTTPException 404 "Session not found");
  let '(log_id, k) := gen_id draw k in
  let log_entry := SetLog.mk log_id (a_exercise_id body) (a_set_number body) (a_weight body)
                     (a_reps body) (a_rpe body) (a_comment body) in
  Ok (set_sessions db (<[i := add_set_log session log_entry]> (sessions db)), k, log_entry).

(** [POST /api/sessions/<id>/finish]. *)
Definition sessions_finish (session_id : Id) (db : DB) (k : nat)
    : result http_exception (DB * nat * Session.t) :=
  '(i, session) ← or_raise (find_item (sessions db) session_id)
                    (HTTPException 404 "Session not found");
  let session := set_status session "done" in
  let db := set_sessions db (<[i := session]> (sessions db)) in
  let '(pbs, k) := update_personal_bests draw (personal_bests db) k session in
  Ok (set_personal_bests db pbs, k, session).

Definition with_exercises (tpl : Template.t) (rows : list ExerciseRow.t) : Template.t :=
  Template.mk (Template.id tpl) (Template.program_id tpl) (Template.name tpl) rows.

Definition with_set_logs (sess : Session.t) (logs : list SetLog.t) : Session.t :=
  Session.mk (Session.id sess) (Session.template_id sess) (Session.program_id sess)
    (Session.template_name sess) (Session.program_name sess) (Session.date sess) logs
    (Session.status sess).

(** [POST /api/exercises/delete]: the exercise goes, and with it the rows
    of every template and the sets of every session that point at it. *)
Definition exercises_delete (id : option Id) (db : DB) : result http_exception (DB * Id) :=
  match id with
  | None => Raise (HTTPException 400 "Missing id")
  | Some ex_id =>
      Ok (mkDB (filter (λ e, Exercise.id e ≠ ex_id) (exercises db))
            (programs db)
            ((λ tpl, with_exercises tpl
                       (filter (λ r, ExerciseRow.exercise_id r ≠ ex_id) (Template.exercises tpl)))
             <$> workout_templates db)
            ((λ sess, with_set_logs sess
                        (filter (λ s, SetLog.exercise_id s ≠ ex_id) (Session.set_logs sess)))
             <$> sessions db)
            (personal_bests db), ex_id)
  end.

(** [POST /api/templates/<id>/add-exercise]; the fields of the body with
    their defaults applied, [exercise_id] as [body.get] gives it. *)
Definition templates_add_exercise (tpl_id : Id) (exercise_id : option Id) (body : RowArgs)
    (db : DB) (k : nat) : result http_exception (DB * nat * ExerciseRow.t) :=
  '(i, tpl) ← or_raise (find_item (workout_templates db) tpl_id)
                (HTTPException 404 "Template not found");
  match exercise_id with
  | None => Raise (HTTPException 400 "exercise_id required")
  | Some ex_id =>
      let '(row_id, k) := gen_id draw k in
      let row := ExerciseRow.mk row_id ex_id (r_sets body) (r_reps body) (r_weight body)
                   (r_rpe body) (r_rest body) (r_comment body) in
      Ok (mkDB (exercises db) (programs db) (<[i := add_row tpl row]> (workout_templates db))
               (sessions db) (personal_bests db), k, row)
  end.

(** [POST /api/sessions/clear-active]: the loop rewrites the sessions in
    place and counts those it cancels. *)
Definition sessions_clear_active (db : DB) : result http_exception (DB * Z) :=
  let '(sessions_, cancelled) :=
    foldl (λ '(done, cancelled) sess,
        if decide (Session.status sess = "in_progress")
        then (done ++ [set_status sess "cancelled"], cancelled + 1)
        else (done ++ [sess], cancelled))
      ([], 0) (sessions db) in
  Ok (set_sessions db sessions_, cancelled).

End draws.

End Server.

(** ** The database URL ([src/api/db.py]) *)

Module Db.

Fixpoint string_drop (n : nat) (s : string) : string :=
  match n, s with
  | S n, String _ s => string_drop n s
  | _, _ => s
  end.

(** [s.replace(old, new, 1)]: the first occurrence of [old], from the left,
    is replaced. *)
Fixpoint replace_first (s old new : string) : string :=
  if String.prefix old s then (new ++ string_drop (String.length old) s)%string
  else
    match s with
    | EmptyString => EmptyString
    | String c s' => String c (replace_first s' old new)
    end.

Definition _normalize_db_url (url : string) : string :=
  if String.prefix "postgres://" url
  then replace_first url "postgres://" "postgresql+psycopg://"
  else if String.prefix "postgresql://" url && negb (String.prefix "postgresql+psycopg://" url)
  then replace_first url "postgresql://" "postgresql+psycopg://"
  else url.

End Db.

(** ** Sample data

    Two users and a small program of Alice's with one template, one started
    session and one logged set, used to run the operations on. *)

Module Sample.
Import Api.

Definition alice : User.t := User.mk 1 "alice@example.org" "alice" "Alice".
Definition bob : User.t := User.mk 2 "bob@example.org" "bob" "Bob".
Definition carol : User.t := User.mk 3 "carol@example.org" "carol" "Carol".

Definition bench : Exercise.t := Exercise.mk 7 1 "Bench press" "Chest" "strength" "barbell" "".
Definition squat : Exercise.t := Exercise.mk 8 1 "Squat" "Legs" "strength" "barbell" "".

Definition base_program : Program.t :=
  Program.mk 1 1 "Base" "Three days" "2024-01-01" "" "archived" 4 "public" true.

Definition push_day : WorkoutTemplate.t := WorkoutTemplate.mk 1 1 1 "Push".
Definition leg_day : WorkoutTemplate.t := WorkoutTemplate.mk 2 1 1 "Legs".

Definition push_rows : list TemplateExercise.t :=
  [ TemplateExercise.mk 1 1 7 "4" "6-8" "70kg" "7" "2m" "";
    TemplateExercise.mk 2 1 7 "2" "12" "50kg" "8" "1m" "back-off";
    TemplateExercise.mk 3 2 8 "5" "5" "100kg" "8" "3m" "" ].

Definition monday : Session.t := Session.mk 1 1 1 1 "Push" "Base" "2024-01-08" "in_progress".

Definition set_100x5 : SetLog.t := SetLog.mk 1 1 7 1 100 5 8 "".
Definition set_90x8 : SetLog.t := SetLog.mk 2 1 7 2 90 8 9 "".

Definition payload_100x5 : SetLogPayload := mkSetLogPayload 7 1 100 5 8 "".
Definition payload_90x8 : SetLogPayload := mkSetLogPayload 7 2 90 8 9 "".

(** Alice's program with its two templates and three rows; no session yet. *)
Definition db0 : DB :=
  mkDB [alice; bob; carol] [bench; squat] [base_program] [push_day; leg_day] push_rows
       [] [] [] [] [].

(** The same with Monday's session started and one set logged. *)
Definition db1 : DB :=
  mkDB [alice; bob; carol] [bench; squat] [base_program] [push_day; leg_day] push_rows
       [monday] [set_100x5] [] [] [].

(** The same with a second set logged. *)
Definition db2 : DB :=
  mkDB [alice; bob; carol] [bench; squat] [base_program] [push_day; leg_day] push_rows
       [monday] [set_100x5; set_90x8] [] [] [].

(** Alice has asked Bob to be her friend. *)
Definition db_requested : DB :=
  mkDB [alice; bob; carol] [bench; squat] [base_program] [push_day; leg_day] push_rows
       [] [] [] [FriendRequest.mk 1 1 2 "pending"] [].

(** The store [db0] with one more row, which points at an exercise that is
    no longer in the table. *)
Definition db_dangling : DB :=
  mkDB [alice; bob; carol] [bench; squat] [base_program] [push_day; leg_day]
       (push_rows ++ [TemplateExercise.mk 4 2 99 "3" "10" "" "" "" ""])
       [] [] [] [] [].

(** An earlier best of Alice on the bench: 100 for 3 on 2023-12-01, an
    estimated maximum of 110. *)
Definition old_best : PersonalBest.t :=
  PersonalBest.mk 1 1 7 "est_1rm" "1RM (est)" 110 3 "2023-12-01" 40 true.

Definition db_with_best : DB :=
  mkDB [alice; bob; carol] [bench; squat] [base_program] [push_day; leg_day] push_rows
       [monday] [set_100x5; set_90x8] [old_best] [] [].

End Sample.

Module GymSample.
Import Gym.
Local Open Scope nat_scope.

Definition bench : Exercise.t := Exercise.mk 7 "Bench press" "Chest" "strength" "barbell" "".
Definition squat : Exercise.t := Exercise.mk 8 "Squat" "Legs" "strength" "barbell" "".

Definition base_program : Program.t :=
  Program.mk 1 "Base" "Three days" "2024-01-01" "2024-03-01" "archived" 4%Z.
Definition other_program : Program.t :=
  Program.mk 2 "Other" "" "" "" "active" 1%Z.

Definition push_day : Template.t :=
  Template.mk 3 1 "Push"
    [ ExerciseRow.mk 4 7 "4" "6-8" "70kg" "7" "2m" "";
      ExerciseRow.mk 5 7 "2" "12" "50kg" "8" "1m" "back-off" ].
Definition leg_day : Template.t :=
  Template.mk 6 1 "Legs" [ ExerciseRow.mk 9 8 "5" "5" "100kg" "8" "3m" "" ].
Definition other_day : Template.t :=
  Template.mk 10 2 "Other day" [ ExerciseRow.mk 11 8 "3" "10" "" "" "" "" ].

Definition set_100x5 : SetLog.t := SetLog.mk 13 7 1%Z 100%Q 5%Z 8%Q "".
Definition set_90x8 : SetLog.t := SetLog.mk 14 7 2%Z 90%Q 8%Z 9%Q "".

Definition monday : Session.t :=
  Session.mk 12 3 1 "Push" "Base" "2024-01-08" [set_100x5; set_90x8] "in_progress".

Definition args_90x8 : LogArgs := mkLogArgs 12 7 2%Z 90%Q 8%Z 9%Q "".

(** Draws to run the commands with: the k-th is [100 + k]. *)
Definition draw (k : nat) : Id := 100 + k.

(** Three sessions in progress: 100 for 5 on the first day, nothing yet on
    the second, 50 for 5 on the third. *)
Definition heavy_day : Session.t :=
  Session.mk 17 3 1 "Push" "Base" "2024-01-10" [SetLog.mk 21 7 1%Z 100%Q 5%Z 8%Q ""]
    "in_progress".
Definition empty_day : Session.t :=
  Session.mk 18 3 1 "Push" "Base" "2024-01-11" [] "in_progress".
Definition light_day : Session.t :=
  Session.mk 19 3 1 "Push" "Base" "2024-01-12" [SetLog.mk 22 7 1%Z 50%Q 5%Z 8%Q ""]
    "in_progress".

(** The document, after twenty draws. *)
Definition db0 : DB :=
  mkDB [bench; squat] [base_program; other_program] [push_day; other_day; leg_day]
       [monday] [].

Definition db_three_days : DB :=
  mkDB [bench; squat] [base_program; other_program] [push_day; other_day; leg_day]
       [heavy_day; empty_day; light_day] [].

End GymSample.

(** * Facts *)

(** ** Tables *)

Section table_facts.
Context {A : Type} `{Row A}.
Implicit Types (l : list A) (x y r : A).

Lemma unique_ids_eq l x y :
  unique_ids l → x ∈ l → y ∈ l → row_id x = row_id y → x = y.
Proof.
  unfold unique_ids. induction l as [|a l IH]; intros Hnd Hx Hy Heq.
  - inversion Hx.
  - rewrite fmap_cons in Hnd. apply NoDup_cons in Hnd as [Ha Hnd].
    apply elem_of_cons in Hx as [->|Hx]; apply elem_of_cons in Hy as [->|Hy];
      try done.
    + exfalso. apply Ha. rewrite Heq. by apply list_elem_of_fmap_2.
    + exfalso. apply Ha. rewrite <- Heq. by apply list_elem_of_fmap_2.
    + by apply IH.
Qed.

Lemma db_update_ids r l : row_id <$> db_update r l = row_id <$> l.
Proof.
  unfold db_update. rewrite <- list_fmap_compose. apply list_fmap_ext.
  intros i x _. simpl. by case_decide.
Qed.

Lemma unique_ids_update r l : unique_ids l → unique_ids (db_update r l).
Proof. unfold unique_ids. by rewrite db_update_ids. Qed.

Lemma db_fresh_gt l x : x ∈ l → row_id x < db_fresh l.
Proof.
  unfold db_fresh. induction l as [|a l IH]; intros Hx; [inversion Hx|].
  rewrite fmap_cons. simpl. apply elem_of_cons in Hx as [->|Hx]; [lia|].
  specialize (IH Hx). lia.
Qed.

Lemma db_fresh_pos l : 0 < db_fresh l.
Proof.
  unfold db_fresh.
  assert (0 ≤ foldr Z.max 0 (row_id <$> l)); [|lia].
  induction l as [|a l IH]; [done|]. rewrite fmap_cons. simpl. lia.
Qed.

Lemma unique_ids_snoc l x :
  unique_ids l → row_id x = db_fresh l → unique_ids (l ++ [x]).
Proof.
  unfold unique_ids. intros Hnd Hx. rewrite fmap_app. apply NoDup_app.
  split; [done|]. split; [|apply NoDup_singleton].
  intros k Hk Hk'. apply list_elem_of_fmap in Hk as (y & -> & Hy).
  apply list_elem_of_singleton in Hk'. apply db_fresh_gt in Hy. lia.
Qed.

Lemma db_update_idem r l : db_update r (db_update r l) = db_update r l.
Proof.
  unfold db_update. rewrite <- list_fmap_compose. apply list_fmap_ext.
  intros i x _. simpl. repeat case_decide; done.
Qed.

Lemma db_get_Some k l x : db_get k l = Some x → x ∈ l ∧ row_id x = k.
Proof.
  unfold db_get. intros Hh. apply head_Some_elem_of in Hh.
  apply list_elem_of_filter in Hh. tauto.
Qed.

Lemma db_get_elem_of l x : unique_ids l → x ∈ l → db_get (row_id x) l = Some x.
Proof.
  intros Hnd Hx. unfold db_get.
  destruct (head (filter (λ r, row_id r = row_id x) l)) as [y|] eqn:Hh.
  - f_equal. pose proof (head_Some_elem_of _ _ Hh) as Hy.
    apply list_elem_of_filter in Hy as [Hy1 Hy2]. by apply (unique_ids_eq l).
  - apply head_None in Hh. exfalso.
    by apply (filter_nil_not_elem_of _ _ x Hh).
Qed.

(** A lookup commutes with a rewriting of the rows that leaves the
    [where] clause as it was. *)
Lemma head_filter_fmap (P : A → Prop) `{∀ x, Decision (P x)} (f : A → A) l :
  (∀ x, x ∈ l → P (f x) ↔ P x) →
  head (filter P (f <$> l)) = f <$> head (filter P l).
Proof.
  induction l as [|a l IH]; intros Hf; [done|].
  rewrite fmap_cons.
  assert (P (f a) ↔ P a) as Ha by (apply Hf; left).
  assert (head (filter P (f <$> l)) = f <$> head (filter P l)) as IH'.
  { apply IH. intros x Hx. apply Hf. by right. }
  destruct (decide (P a)) as [Hp|Hp].
  - rewrite (filter_cons_True P a), (filter_cons_True P (f a)); [done|tauto..].
  - rewrite (filter_cons_False P a), (filter_cons_False P (f a)); [done|tauto..].
Qed.

Lemma head_filter_snoc_Some (P : A → Prop) `{∀ x, Decision (P x)} l x y :
  head (filter P l) = Some y → head (filter P (l ++ [x])) = Some y.
Proof. intros Hh. rewrite filter_app. apply head_app_Some. by left. Qed.

Lemma head_filter_snoc_None (P : A → Prop) `{∀ x, Decision (P x)} l x :
  head (filter P l) = None → P x → head (filter P (l ++ [x])) = Some x.
Proof.
  intros Hh Hp. rewrite filter_app. apply head_None in Hh. rewrite Hh. simpl.
  by rewrite filter_cons_True.
Qed.
Lemma db_get_update k r l :
  db_get k (db_update r l) =
  (λ x, if decide (row_id x = row_id r) then r else x) <$> db_get k l.
Proof.
  unfold db_get, db_update. apply head_filter_fmap.
  intros x _. case_decide; [|done]. split; congruence.
Qed.
End table_facts.

(** ** Personal bests of the service *)

Section api_pb_facts.
Import Api.
Implicit Types (pbs : list PersonalBest.t) (pb existing : PersonalBest.t).

Lemma pb_kept_or_raised_refl pb : pb_kept_or_raised pb pb.
Proof. by left. Qed.

Lemma pb_kept_or_raised_trans pb1 pb2 pb3 :
  pb_kept_or_raised pb1 pb2 → pb_kept_or_raised pb2 pb3 → pb_kept_or_raised pb1 pb3.
Proof.
  intros [->|(?&?&?&?&Hv1)] [->|(?&?&?&?&Hv2)]; try (by left); right;
    repeat split; try congruence; try done.
  by apply (Qlt_trans _ (PersonalBest.value pb2)).
Qed.

Lemma pb_kept_or_raised_le pb pb' :
  pb_kept_or_raised pb pb' → (PersonalBest.value pb <= PersonalBest.value pb')%Q.
Proof. intros [->|(?&?&?&?&Hv)]; [apply Qle_refl|by apply Qlt_le_weak]. Qed.

(** Rewriting the five columns of a record found under a key moves it
    under no other key. *)
Lemma pb_where_rewritten o e k r existing label value date sid o' e' k' r' :
  pb_where o e k r existing →
  pb_where o' e' k' r'
    (PersonalBest.mk (PersonalBest.id existing) (PersonalBest.owner_id existing)
       (PersonalBest.exercise_id existing) (PersonalBest.kind existing)
       label value r date sid (PersonalBest.is_public existing)) ↔
  pb_where o' e' k' r' existing.
Proof.
  unfold pb_where. simpl. intros (Ho & He & Hk & Hr).
  destruct (decide (k ≠ "est_1rm")), (decide (k' ≠ "est_1rm"));
    intuition congruence.
Qed.

Lemma merge_entry_unique o sess log pbs entry :
  unique_ids pbs → unique_ids (merge_entry o sess log pbs entry).
Proof.
  intros Hnd. destruct entry as [[kind label] value]. unfold merge_entry.
  destruct (find_pb _ _ _ _ pbs) as [existing|].
  - destruct (Qlt_le_dec _ _); [by apply unique_ids_update|done].
  - by apply unique_ids_snoc.
Qed.

Lemma merge_entry_lookup o sess log pbs entry o' e' k' r' pb :
  unique_ids pbs →
  find_pb o' e' k' r' pbs = Some pb →
  ∃ pb', find_pb o' e' k' r' (merge_entry o sess log pbs entry) = Some pb' ∧
         pb_kept_or_raised pb pb'.
Proof.
  intros Hnd Hpb. destruct entry as [[kind label] value]. unfold merge_entry.
  destruct (find_pb o _ kind _ pbs) as [existing|] eqn:Hex.
  - destruct (Qlt_le_dec _ _) as [Hlt|Hle]; [|exists pb; split; [done|by left]].
    pose proof (head_Some_elem_of _ _ Hex) as Hin.
    apply list_elem_of_filter in Hin as [Hw Hin].
    unfold find_pb, db_update. rewrite head_filter_fmap.
    + unfold find_pb in Hpb. rewrite Hpb. simpl. eexists. split; [done|].
      case_decide as Hid; [|by left]. simpl in Hid.
      assert (pb = existing) as ->.
      { apply (unique_ids_eq pbs); try done.
        pose proof (head_Some_elem_of _ _ Hpb) as Hin'.
        by apply list_elem_of_filter in Hin' as [_ ?]. }
      right. by simpl.
    + intros x Hx. case_decide as Hid; [|done]. simpl in Hid.
      assert (x = existing) as -> by by apply (unique_ids_eq pbs).
      by apply (pb_where_rewritten o (SetLog.exercise_id log) kind).
  - exists pb. split; [|by left]. by apply head_filter_snoc_Some.
Qed.

Lemma merge_entries_lookup o sess log entries pbs o' e' k' r' pb :
  unique_ids pbs →
  find_pb o' e' k' r' pbs = Some pb →
  unique_ids (foldl (merge_entry o sess log) pbs entries) ∧
  ∃ pb', find_pb o' e' k' r' (foldl (merge_entry o sess log) pbs entries) = Some pb' ∧
         pb_kept_or_raised pb pb'.
Proof.
  revert pbs pb. induction entries as [|entry entries IH]; intros pbs pb Hnd Hpb.
  - split; [done|]. exists pb. split; [done|by left].
  - simpl.
    destruct (merge_entry_lookup o sess log pbs entry o' e' k' r' pb Hnd Hpb)
      as (pb1 & Hpb1 & Hk1).
    destruct (IH _ pb1 (merge_entry_unique o sess log pbs entry Hnd) Hpb1)
      as (Hnd' & pb2 & Hpb2 & Hk2).
    split; [done|]. exists pb2. split; [done|].
    by apply (pb_kept_or_raised_trans _ pb1).
Qed.

Lemma merge_entries_unique o sess log entries pbs :
  unique_ids pbs → unique_ids (foldl (merge_entry o sess log) pbs entries).
Proof.
  revert pbs. induction entries as [|entry entries IH]; intros pbs Hnd; [done|].
  simpl. apply IH. by apply merge_entry_unique.
Qed.

Lemma merge_all_lookup merges db o' e' k' r' pb :
  unique_ids (personal_bests db) →
  find_pb o' e' k' r' (personal_bests db) = Some pb →
  unique_ids (personal_bests (merge_all merges db)) ∧
  ∃ pb', find_pb o' e' k' r' (personal_bests (merge_all merges db)) = Some pb' ∧
         pb_kept_or_raised pb pb'.
Proof.
  revert db pb. induction merges as [|[[o sess] log] merges IH]; intros db pb Hnd Hpb.
  - split; [done|]. exists pb. split; [done|by left].
  - unfold merge_all. simpl. fold (merge_all merges).
    destruct (merge_entries_lookup o sess log (pb_entries log) _ o' e' k' r' pb Hnd Hpb)
      as (Hnd1 & pb1 & Hpb1 & Hk1).
    destruct (IH (update_personal_bests db o sess log) pb1 Hnd1 Hpb1)
      as (Hnd2 & pb2 & Hpb2 & Hk2).
    split; [done|]. exists pb2. split; [done|].
    by apply (pb_kept_or_raised_trans _ pb1).
Qed.
End api_pb_facts.

(** ** Floats *)

Lemma float_le_refl a : isnan a = false → float_le a a = true.
Proof. destruct a as [x|]; [|done]. intros _. apply Qle_bool_iff, Qle_refl. Qed.

Lemma float_gt_le a b : float_gt b a = true → float_le a b = true.
Proof.
  destruct a as [x|], b as [y|]; try done. cbn. intros Hgt.
  apply Qle_bool_iff, Qlt_le_weak, Qnot_le_lt. intros Hle.
  apply Qle_bool_iff in Hle. by rewrite Hle in Hgt.
Qed.

Lemma float_gt_trans c b a : float_gt c b = true → float_gt b a = true → float_gt c a = true.
Proof.
  destruct a as [x|], b as [y|], c as [z|]; try done. cbn. intros Hcb Hba.
  apply negb_true_iff. apply not_true_is_false. intros Hle. apply Qle_bool_iff in Hle.
  apply negb_true_iff in Hcb, Hba.
  assert (y < z)%Q as Hyz
    by (apply Qnot_le_lt; intros H; apply Qle_bool_iff in H; congruence).
  assert (x < y)%Q as Hxy
    by (apply Qnot_le_lt; intros H; apply Qle_bool_iff in H; congruence).
  apply (Qlt_not_le x z); [by apply (Qlt_trans _ y)|done].
Qed.

(** Between two numbers, [a <= b] fails exactly when [a > b]. *)
Lemma float_le_false a b :
  isnan a = false → isnan b = false → float_le a b = false → float_gt a b = true.
Proof. destruct a as [x|], b as [y|]; try done. cbn. by intros _ _ ->. Qed.

(** ** Personal bests of the prototype *)

Section gym_pb_facts.
Import Gym.
Variable draw : nat → Id.
Implicit Types (pbs : list PB.t) (pb existing : PB.t).

Lemma list_find_rewritten {A} (P : A → Prop) `{∀ x, Decision (P x)}
    (l : list A) i x y j z :
  l !! i = Some x → (P y ↔ P x) →
  list_find P l = Some (j, z) →
  list_find P (<[i:=y]> l) = Some (j, if decide (j = i) then y else z).
Proof.
  intros Hi Hxy Hfind. apply list_find_Some in Hfind as (Hj & Hz & Hbefore).
  pose proof (lookup_lt_Some _ _ _ Hi) as Hlen.
  apply list_find_Some. split_and!.
  - case_decide as Hji; [subst; by apply list_lookup_insert_eq|].
    by rewrite list_lookup_insert_ne.
  - case_decide as Hji; [|done]. subst. rewrite Hi in Hj. inversion Hj; subst. tauto.
  - intros j' y' Hj' Hlt. destruct (decide (j' = i)) as [->|Hne].
    + rewrite list_lookup_insert_eq in Hj' by done. inversion Hj'; subst.
      rewrite Hxy. by apply (Hbefore i).
    + rewrite list_lookup_insert_ne in Hj' by done. by apply (Hbefore j').
Qed.

Lemma gym_kept_or_raised_trans pb1 pb2 pb3 :
  Gym.pb_kept_or_raised pb1 pb2 → Gym.pb_kept_or_raised pb2 pb3 →
  Gym.pb_kept_or_raised pb1 pb3.
Proof.
  intros [->|(?&?&?&Hv1)] [->|(?&?&?&Hv2)]; try (by left); right;
    repeat split; try congruence; try done.
  by apply (float_gt_trans _ (PB.value pb2)).
Qed.

Lemma gym_kept_or_raised_le pb pb' :
  isnan (PB.value pb) = false →
  Gym.pb_kept_or_raised pb pb' → float_le (PB.value pb) (PB.value pb') = true.
Proof.
  intros Hnum [->|(_ & _ & _ & Hgt)]; [by apply float_le_refl|by apply float_gt_le].
Qed.

Lemma pbs_kept_or_raised_refl pbs : pbs_kept_or_raised pbs pbs.
Proof. intros ex kind reps i pb Hpb. exists pb. split; [done|by left]. Qed.

Lemma pbs_kept_or_raised_trans pbs1 pbs2 pbs3 :
  pbs_kept_or_raised pbs1 pbs2 → pbs_kept_or_raised pbs2 pbs3 →
  pbs_kept_or_raised pbs1 pbs3.
Proof.
  intros H12 H23 ex kind reps i pb Hpb.
  destruct (H12 _ _ _ _ _ Hpb) as (pb2 & Hpb2 & Hk2).
  destruct (H23 _ _ _ _ _ Hpb2) as (pb3 & Hpb3 & Hk3).
  exists pb3. split; [done|]. by apply (gym_kept_or_raised_trans _ pb2).
Qed.

(** Rewriting the five fields of the record found under a key moves it
    under no other key. *)
Lemma pb_match_rewritten ex kind reps existing label value date sid ex' kind' reps' :
  pb_match ex kind reps existing →
  pb_match ex' kind' reps'
    (PB.mk (PB.id existing) (PB.exercise_id existing) (PB.kind existing)
       label value reps date sid) ↔
  pb_match ex' kind' reps' existing.
Proof. unfold pb_match. simpl. intuition congruence. Qed.

(** What [update_pb_entry] does to a record it finds, whatever the two
    values are. *)
Lemma update_pb_entry_found pbs k ex kind label value reps date sid i existing :
  find_pb ex kind reps pbs = Some (i, existing) →
  update_pb_entry draw pbs k ex kind label value reps date sid =
  if float_le value (PB.value existing) then (pbs, k)
  else (<[i := PB.mk (PB.id existing) (PB.exercise_id existing) (PB.kind existing)
                label value reps date sid]> pbs, k).
Proof. intros Hex. unfold update_pb_entry. by rewrite Hex. Qed.

(** As long as no NaN is involved, a merge keeps or raises every record. *)
Lemma update_pb_entry_kept pbs k ex kind label value reps date sid :
  isnan value = false →
  no_nan pbs →
  pbs_kept_or_raised pbs (update_pb_entry draw pbs k ex kind label value reps date sid).1 ∧
  no_nan (update_pb_entry draw pbs k ex kind label value reps date sid).1.
Proof.
  intros Hvalue Hpbs. unfold update_pb_entry.
  destruct (find_pb ex kind reps pbs) as [[i existing]|] eqn:Hex.
  - pose proof Hex as Hex'. apply list_find_Some in Hex' as (Hi & Hm & _).
    assert (isnan (PB.value existing) = false) as Hexisting
      by (by apply (Forall_lookup_1 _ _ _ _ Hpbs Hi)).
    destruct (float_le value (PB.value existing)) eqn:Hle; cbn [fst].
    + split; [apply pbs_kept_or_raised_refl|done].
    + split; [|by apply Forall_insert].
      intros ex' kind' reps' j pb Hpb. eexists. split.
      * apply (list_find_rewritten _ pbs i existing); [done| |done].
        by apply (pb_match_rewritten ex kind).
      * case_decide as Hji; [|by left]. subst.
        apply list_find_Some in Hpb as (Hj & _). rewrite Hi in Hj.
        inversion Hj; subst. right. cbn. split_and!; try done.
        by apply float_le_false.
  - cbn [gen_id fst]. split.
    + intros ex' kind' reps' j pb Hpb. exists pb. split; [|by left].
      by apply list_find_app_l.
    + apply Forall_app. split; [done|]. by apply Forall_singleton.
Qed.

Lemma update_personal_bests_kept session pbs k :
  Forall (λ set_log, isnan (SetLog.weight set_log) = false) (Session.set_logs session) →
  no_nan pbs →
  pbs_kept_or_raised pbs (update_personal_bests draw pbs k session).1 ∧
  no_nan (update_personal_bests draw pbs k session).1.
Proof.
  unfold update_personal_bests. generalize (Session.date session) as date.
  intros date. revert pbs k.
  induction (Session.set_logs session) as [|log logs IH]; intros pbs k Hlogs Hpbs;
    [split; [apply pbs_kept_or_raised_refl|done]|].
  apply Forall_cons in Hlogs as [Hlog Hlogs].
  destruct (SetLog.weight log) as [weight|] eqn:Hweight; [|done].
  cbn [foldl]. rewrite Hweight.
  destruct (update_pb_entry_kept pbs k (SetLog.exercise_id log) "est_1rm" "1RM (est)"
    (estimate_one_rm weight (SetLog.reps log)) (SetLog.reps log) date
    (SetLog.id log)) as [H1 Hn1]; [done|done|].
  destruct (update_pb_entry draw pbs k _ "est_1rm" _ _ _ _ _) as [pbs1 k1].
  destruct (update_pb_entry_kept pbs1 k1 (SetLog.exercise_id log) "max_weight_reps"
    ("Max weight for " ++ pretty (SetLog.reps log) ++ " reps")%string
    weight (SetLog.reps log) date (SetLog.id log)) as [H2 Hn2]; [done|done|].
  destruct (update_pb_entry draw pbs1 k1 _ "max_weight_reps" _ _ _ _ _) as [pbs2 k2].
  destruct (update_pb_entry_kept pbs2 k2 (SetLog.exercise_id log) "max_volume"
    "Max volume" (float_mul weight (inject_Z (SetLog.reps log))) (SetLog.reps log)
    date (SetLog.id log)) as [H3 Hn3]; [done|done|].
  destruct (update_pb_entry draw pbs2 k2 _ "max_volume" _ _ _ _ _) as [pbs3 k3].
  cbn [fst] in *.
  destruct (IH pbs3 k3 Hlogs Hn3) as [H4 Hn4].
  split; [|done].
  eapply pbs_kept_or_raised_trans; [|exact H4].
  eapply pbs_kept_or_raised_trans; [|exact H3].
  eapply pbs_kept_or_raised_trans; [exact H1|exact H2].
Qed.

Lemma gym_merge_all_kept sessions_ pbs k :
  Forall (λ session, Forall (λ set_log, isnan (SetLog.weight set_log) = false)
                       (Session.set_logs session)) sessions_ →
  no_nan pbs →
  pbs_kept_or_raised pbs (Gym.merge_all draw sessions_ pbs k).1.
Proof.
  revert pbs k. induction sessions_ as [|session sessions_ IH]; intros pbs k Hlogs Hpbs;
    [apply pbs_kept_or_raised_refl|].
  apply Forall_cons in Hlogs as [Hsession Hlogs].
  unfold Gym.merge_all. simpl. fold (Gym.merge_all draw sessions_).
  destruct (update_personal_bests_kept session pbs k Hsession Hpbs) as [H1 Hn1].
  destruct (update_personal_bests draw pbs k session) as [pbs1 k1].
  eapply pbs_kept_or_raised_trans; [exact H1|]. by apply IH.
Qed.
End gym_pb_facts.

(** ** C1: stored values never decrease *)

Section c1.
Import Api.

Lemma merge_entry_tie o sess log pbs kind label value existing :
  find_pb o (SetLog.exercise_id log) kind (SetLog.reps log) pbs = Some existing →
  (value <= PersonalBest.value existing)%Q →
  merge_entry o sess log pbs (kind, label, value) = pbs.
Proof.
  intros Hex Hle. unfold merge_entry. rewrite Hex.
  destruct (Qlt_le_dec _ _) as [Hlt|_]; [|done].
  exfalso. by apply (Qlt_not_le _ _ Hlt).
Qed.

Lemma merge_entry_replace o sess log pbs kind label value existing :
  unique_ids pbs →
  find_pb o (SetLog.exercise_id log) kind (SetLog.reps log) pbs = Some existing →
  (PersonalBest.value existing < value)%Q →
  find_pb o (SetLog.exercise_id log) kind (SetLog.reps log)
    (merge_entry o sess log pbs (kind, label, value)) =
  Some (PersonalBest.mk (PersonalBest.id existing) (PersonalBest.owner_id existing)
          (PersonalBest.exercise_id existing) (PersonalBest.kind existing)
          label value (SetLog.reps log) (Session.date sess) (SetLog.id log)
          (PersonalBest.is_public existing)).
Proof.
  intros Hnd Hex Hlt. unfold merge_entry. rewrite Hex.
  destruct (Qlt_le_dec _ _) as [_|Hle]; [|exfalso; by apply (Qlt_not_le _ _ Hlt)].
  pose proof (head_Some_elem_of _ _ Hex) as Hin.
  apply list_elem_of_filter in Hin as [Hw Hin].
  unfold find_pb, db_update. rewrite head_filter_fmap.
  - unfold find_pb in Hex. rewrite Hex. simpl. by rewrite decide_True.
  - intros x Hx. case_decide as Hid; [|done]. simpl in Hid.
    assert (x = existing) as -> by by apply (unique_ids_eq pbs).
    by apply (pb_where_rewritten o (SetLog.exercise_id log) kind).
Qed.
End c1.

(** C1 (code defect).  The prototype keeps a record when
    [value <= existing["value"]] holds and rewrites it otherwise, which is
    also what it does when either value is NaN.  A set logged with the weight
    NaN therefore replaces the three bests of its exercise by NaN, and the
    next set, however light, replaces those: after 100 for 5, NaN for 5 and 50
    for 5 the stored bests are those of the last set, lower than the first
    ones (part 1).  The service rewrites a record exactly when the candidate
    is strictly greater and keeps it on a tie or a smaller candidate, earlier
    date included, so that over every sequence of merges a stored value never
    decreases; a set with the weight NaN is refused when it is logged (parts
    2 to 4).  In the prototype the same holds as long as no weight and no
    stored value is NaN (part 5); part 6 is what one merge does to a record it
    finds. *)
Theorem nan_set_lowers_personal_best :
  (∀ draw,
     ∃ db_a k_a msg_a db_b k_b msg_b db_c k_c msg_c db_d k_d msg_d,
       Gym.finish_session draw 17%nat GymSample.db_three_days 30 = Ok (db_a, k_a, msg_a) ∧
       (λ pb, (Gym.PB.kind pb, Gym.PB.value pb)) <$> Gym.personal_bests db_a =
         [("est_1rm", Num (3500 # 30)); ("max_weight_reps", Num 100); ("max_volume", Num 500)] ∧
       Gym.log_set draw (Gym.mkLogArgs 18%nat 7%nat 1 NaN 5 8 "") db_a k_a =
         Ok (db_b, k_b, msg_b) ∧
       Gym.finish_session draw 18%nat db_b k_b = Ok (db_c, k_c, msg_c) ∧
       (λ pb, (Gym.PB.kind pb, Gym.PB.value pb)) <$> Gym.personal_bests db_c =
         [("est_1rm", NaN); ("max_weight_reps", NaN); ("max_volume", NaN)] ∧
       Gym.finish_session draw 19%nat db_c k_c = Ok (db_d, k_d, msg_d) ∧
       (λ pb, (Gym.PB.kind pb, Gym.PB.value pb)) <$> Gym.personal_bests db_d =
         [("est_1rm", Num (1750 # 30)); ("max_weight_reps", Num 50); ("max_volume", Num 250)]) ∧
  (∀ merges db owner_id exercise_id kind reps pb,
     unique_ids (Api.personal_bests db) →
     Api.find_pb owner_id exercise_id kind reps (Api.personal_bests db) = Some pb →
     ∃ pb',
       Api.find_pb owner_id exercise_id kind reps
         (Api.personal_bests (Api.merge_all merges db)) = Some pb' ∧
       (Api.PersonalBest.value pb <= Api.PersonalBest.value pb')%Q ∧
       Api.pb_kept_or_raised pb pb') ∧
  (∀ owner_id session set_log pbs kind label value existing,
     unique_ids pbs →
     Api.find_pb owner_id (Api.SetLog.exercise_id set_log) kind (Api.SetLog.reps set_log) pbs
       = Some existing →
     ((value <= Api.PersonalBest.value existing)%Q →
      Api.merge_entry owner_id session set_log pbs (kind, label, value) = pbs) ∧
     ((Api.PersonalBest.value existing < value)%Q →
      Api.find_pb owner_id (Api.SetLog.exercise_id set_log) kind (Api.SetLog.reps set_log)
        (Api.merge_entry owner_id session set_log pbs (kind, label, value)) =
      Some (Api.PersonalBest.mk (Api.PersonalBest.id existing)
              (Api.PersonalBest.owner_id existing) (Api.PersonalBest.exercise_id existing)
              (Api.PersonalBest.kind existing) label value (Api.SetLog.reps set_log)
              (Api.Session.date session) (Api.SetLog.id set_log)
              (Api.PersonalBest.is_public existing)))) ∧
  (∀ session_id log user db,
     isnan (Api.p_weight log) = true →
     is_ok (Api.log_set session_id log user db) = false) ∧
  (∀ draw sessions_ pbs k exercise_id kind reps i pb,
     Gym.no_nan pbs →
     Forall (λ session, Forall (λ set_log, isnan (Gym.SetLog.weight set_log) = false)
                          (Gym.Session.set_logs session)) sessions_ →
     Gym.find_pb exercise_id kind reps pbs = Some (i, pb) →
     ∃ pb',
       Gym.find_pb exercise_id kind reps (Gym.merge_all draw sessions_ pbs k).1
         = Some (i, pb') ∧
       float_le (Gym.PB.value pb) (Gym.PB.value pb') = true ∧
       Gym.pb_kept_or_raised pb pb') ∧
  (∀ draw pbs k exercise_id kind label value reps date set_log_id i existing,
     Gym.find_pb exercise_id kind reps pbs = Some (i, existing) →
     (float_le value (Gym.PB.value existing) = true →
      Gym.update_pb_entry draw pbs k exercise_id kind label value reps date set_log_id =
      (pbs, k)) ∧
     (float_gt value (Gym.PB.value existing) = true ∨
      isnan value = true ∨ isnan (Gym.PB.value existing) = true →
      Gym.update_pb_entry draw pbs k exercise_id kind label value reps date set_log_id =
      (<[i := Gym.PB.mk (Gym.PB.id existing) (Gym.PB.exercise_id existing)
                (Gym.PB.kind existing) label value reps date set_log_id]> pbs, k))).
Proof.
  split_and!.
  - intros draw. eexists _, _, _, _, _, _, _, _, _, _, _, _. split_and!; reflexivity.
  - intros merges db o e k r pb Hnd Hpb.
    destruct (merge_all_lookup merges db o e k r pb Hnd Hpb) as (_ & pb' & Hpb' & Hk).
    exists pb'. split_and!; [done| |done]. by apply pb_kept_or_raised_le.
  - intros o sess log pbs kind label value existing Hnd Hex. split.
    + by apply merge_entry_tie.
    + by apply merge_entry_replace.
  - intros sid log user db Hnan. unfold Api.log_set.
    destruct (db_get sid (Api.sessions db)) as [sess|]; [|done]. cbn [or_raise mbind result_bind].
    destruct (Api.ensure_owner _ user); [|done]. cbn [mbind result_bind].
    destruct (negb _); [done|]. by destruct (Api.p_weight log).
  - intros draw sessions_ pbs k ex kind reps i pb Hpbs Hlogs Hpb.
    destruct (gym_merge_all_kept draw sessions_ pbs k Hlogs Hpbs ex kind reps i pb Hpb)
      as (pb' & Hpb' & Hk).
    exists pb'. split_and!; [done| |done].
    apply gym_kept_or_raised_le; [|done].
    apply list_find_Some in Hpb as (Hi & _). by apply (Forall_lookup_1 _ _ _ _ Hpbs Hi).
  - intros draw pbs k ex kind label value reps date sid i existing Hex.
    rewrite (update_pb_entry_found draw _ _ _ _ _ _ _ _ _ _ _ Hex). split.
    + by intros ->.
    + intros Hcase. destruct (float_le value (Gym.PB.value existing)) eqn:Hle; [|done].
      exfalso. destruct value as [v|], (Gym.PB.value existing) as [e|]; try done.
      cbn in *. rewrite Hle in Hcase. by destruct Hcase as [|[|]].
Qed.

Lemma nan_set_lowers_personal_best_witness :
  ∃ pb',
    Api.find_pb 1 7 "est_1rm" 5
      (Api.personal_bests
         (Api.merge_all [(1, Sample.monday, Sample.set_100x5);
                         (1, Sample.monday, Sample.set_90x8)] Sample.db_with_best))
      = Some pb' ∧
    (Api.PersonalBest.value Sample.old_best <= Api.PersonalBest.value pb')%Q ∧
    Api.pb_kept_or_raised Sample.old_best pb'.
Proof.
  apply (proj1 (proj2 nan_set_lowers_personal_best)).
  - by apply (bool_decide_unpack _).
  - reflexivity.
Defined.

(** ** C10: a second pass over the same sets changes nothing *)

Section c10.
Import Api.
Implicit Types (pbs : list PersonalBest.t) (entry : string * string * Q).
Implicit Types (o : Z) (sess : Session.t) (log : SetLog.t) (logs : list SetLog.t).

Lemma merge_entry_covers o sess log pbs entry :
  unique_ids pbs → entry_covered o log (merge_entry o sess log pbs entry) entry.
Proof.
  intros Hnd. destruct entry as [[kind label] value]. unfold entry_covered.
  cbn [fst snd].
  destruct (find_pb o (SetLog.exercise_id log) kind (SetLog.reps log) pbs)
    as [existing|] eqn:Hex.
  - destruct (Qlt_le_dec (PersonalBest.value existing) value) as [Hlt|Hle].
    + eexists. split; [by apply merge_entry_replace|]. simpl. apply Qle_refl.
    + exists existing. split; [|done].
      by rewrite (merge_entry_tie _ _ _ _ _ _ _ existing).
  - unfold merge_entry. rewrite Hex. eexists. split.
    + apply head_filter_snoc_None; [done|].
      unfold pb_where. simpl. by case_decide.
    + simpl. apply Qle_refl.
Qed.

Lemma merge_entry_keeps_covered o log o' sess' log' pbs entry entry' :
  unique_ids pbs → entry_covered o log pbs entry →
  entry_covered o log (merge_entry o' sess' log' pbs entry') entry.
Proof.
  intros Hnd (e & He & Hle).
  destruct (merge_entry_lookup o' sess' log' pbs entry' _ _ _ _ e Hnd He) as (e' & He' & Hk).
  exists e'. split; [done|].
  apply (Qle_trans _ (PersonalBest.value e)); [done|by apply pb_kept_or_raised_le].
Qed.

Lemma merge_entries_keep_covered o log o' sess' log' entries pbs entry :
  unique_ids pbs → entry_covered o log pbs entry →
  entry_covered o log (foldl (merge_entry o' sess' log') pbs entries) entry.
Proof.
  revert pbs. induction entries as [|entry' entries IH]; intros pbs Hnd Hc; [done|].
  simpl. apply IH; [by apply merge_entry_unique|by apply merge_entry_keeps_covered].
Qed.

Lemma merge_entries_cover o sess log entries pbs :
  unique_ids pbs →
  Forall (entry_covered o log (foldl (merge_entry o sess log) pbs entries)) entries.
Proof.
  revert pbs. induction entries as [|entry entries IH]; intros pbs Hnd; [constructor|].
  simpl. constructor.
  - apply merge_entries_keep_covered; [by apply merge_entry_unique|].
    by apply merge_entry_covers.
  - apply IH. by apply merge_entry_unique.
Qed.

Lemma merge_entries_covered_noop o sess log entries pbs :
  Forall (entry_covered o log pbs) entries →
  foldl (merge_entry o sess log) pbs entries = pbs.
Proof.
  induction 1 as [|entry entries (e & He & Hle) _ IH]; [done|].
  destruct entry as [[kind label] value]. cbn [foldl fst snd] in *.
  by rewrite (merge_entry_tie _ _ _ _ _ _ _ e).
Qed.

Lemma merge_logs_cons o sess log logs pbs :
  merge_logs o sess (log :: logs) pbs =
  merge_logs o sess logs (foldl (merge_entry o sess log) pbs (pb_entries log)).
Proof. reflexivity. Qed.

Lemma derive_personal_bests_spec o sess logs db :
  derive_personal_bests o sess logs db =
  set_personal_bests db (merge_logs o sess logs (personal_bests db)).
Proof.
  revert db. induction logs as [|log logs IH]; intros db; [by destruct db|].
  unfold derive_personal_bests, merge_logs in *. cbn [foldl]. rewrite IH.
  unfold update_personal_bests. by destruct db.
Qed.

Lemma merge_logs_unique o sess logs pbs :
  unique_ids pbs → unique_ids (merge_logs o sess logs pbs).
Proof.
  revert pbs. induction logs as [|log logs IH]; intros pbs Hnd; [done|].
  rewrite merge_logs_cons. apply IH. by apply merge_entries_unique.
Qed.

Lemma merge_logs_keep_covered o sess logs o' log' pbs entry :
  unique_ids pbs → entry_covered o' log' pbs entry →
  entry_covered o' log' (merge_logs o sess logs pbs) entry.
Proof.
  revert pbs. induction logs as [|log logs IH]; intros pbs Hnd Hc; [done|].
  rewrite merge_logs_cons. apply IH; [by apply merge_entries_unique|].
  by apply merge_entries_keep_covered.
Qed.

Lemma merge_logs_cover o sess logs pbs :
  unique_ids pbs →
  Forall (λ log, Forall (entry_covered o log (merge_logs o sess logs pbs)) (pb_entries log))
         logs.
Proof.
  revert pbs. induction logs as [|log logs IH]; intros pbs Hnd; [constructor|].
  rewrite merge_logs_cons. constructor.
  - pose proof (merge_entries_cover o sess log (pb_entries log) pbs Hnd) as Hc.
    eapply Forall_impl; [exact Hc|]. intros entry Hentry. cbv beta in Hentry.
    apply merge_logs_keep_covered; [by apply merge_entries_unique|done].
  - apply IH. by apply merge_entries_unique.
Qed.

Lemma merge_logs_covered_noop o sess logs pbs :
  Forall (λ log, Forall (entry_covered o log pbs) (pb_entries log)) logs →
  merge_logs o sess logs pbs = pbs.
Proof.
  induction 1 as [|log logs Hlog _ IH]; [done|].
  rewrite merge_logs_cons. by rewrite merge_entries_covered_noop.
Qed.

Lemma merge_logs_idempotent o sess logs pbs :
  unique_ids pbs →
  merge_logs o sess logs (merge_logs o sess logs pbs) = merge_logs o sess logs pbs.
Proof. intros Hnd. apply merge_logs_covered_noop. by apply merge_logs_cover. Qed.
End c10.

Lemma finish_session_unfold session_id user db sess :
  db_get session_id (Api.sessions db) = Some sess →
  Api.Session.owner_id sess = Api.User.id user →
  Api.finish_session session_id user db =
  let sess' := Api.set_status sess "done" in
  let logs := filter (λ l, Api.SetLog.session_id l = Api.Session.id sess') (Api.set_logs db) in
  let db' := Api.set_sessions
               (Api.set_personal_bests db
                  (Api.merge_logs (Api.User.id user) sess' logs (Api.personal_bests db)))
               (db_update sess' (Api.sessions db)) in
  Ok (db', Api.serialize_session db' sess').
Proof.
  intros Hget Hown. unfold Api.finish_session. rewrite Hget. simpl.
  unfold Api.ensure_owner. rewrite decide_False by (by intros []). simpl.
  rewrite derive_personal_bests_spec. by destruct db.
Qed.

Lemma refinish_store o sess logs db :
  unique_ids (Api.personal_bests db) →
  let db1 := Api.set_sessions
               (Api.set_personal_bests db (Api.merge_logs o sess logs (Api.personal_bests db)))
               (db_update sess (Api.sessions db)) in
  Api.set_sessions
    (Api.set_personal_bests db1 (Api.merge_logs o sess logs (Api.personal_bests db1)))
    (db_update sess (Api.sessions db1)) = db1.
Proof.
  intros Hnd. destruct db. unfold Api.set_sessions, Api.set_personal_bests. simpl in *.
  by rewrite merge_logs_idempotent, db_update_idem.
Qed.

(** C10.  The derive-and-merge pass is idempotent: run a second time with the
    same owner, session and sets on the store the first run produced, it
    returns that store unchanged.  Hence finishing a session a second time,
    when nothing was logged in between, commits the very store of the first
    finish. *)
Theorem derive_personal_bests_idempotent :
  (∀ owner_id session logs db,
     unique_ids (Api.personal_bests db) →
     Api.derive_personal_bests owner_id session logs
       (Api.derive_personal_bests owner_id session logs db) =
     Api.derive_personal_bests owner_id session logs db) ∧
  (∀ session_id user db db1 response,
     unique_ids (Api.personal_bests db) →
     Api.finish_session session_id user db = Ok (db1, response) →
     Api.finish_session session_id user db1 = Ok (db1, response)).
Proof.
  split.
  - intros o sess logs db Hnd. rewrite !derive_personal_bests_spec.
    destruct db. unfold Api.set_personal_bests. simpl in *.
    by rewrite merge_logs_idempotent.
  - intros sid user db db1 response Hnd Hfin.
    destruct (db_get sid (Api.sessions db)) as [sess|] eqn:Hget;
      [|by unfold Api.finish_session in Hfin; rewrite Hget in Hfin].
    destruct (decide (Api.Session.owner_id sess = Api.User.id user)) as [Hown|Hown];
      [|unfold Api.finish_session, Api.ensure_owner in Hfin; rewrite Hget in Hfin;
        simpl in Hfin; by rewrite decide_True in Hfin].
    rewrite (finish_session_unfold _ _ _ sess Hget Hown) in Hfin.
    cbv zeta in Hfin. injection Hfin as <- <-.
    set (sess' := Api.set_status sess "done").
    set (logs := filter (λ l, Api.SetLog.session_id l = Api.Session.id sess') (Api.set_logs db)).
    set (db1 := Api.set_sessions _ _).
    pose proof (refinish_store (Api.User.id user) sess' logs db Hnd) as Hre.
    cbv zeta in Hre. fold db1 in Hre.
    assert (db_get sid (Api.sessions db1) = Some sess') as Hget1.
    { unfold db1, Api.set_sessions. cbn [Api.sessions].
      rewrite db_get_update, Hget. cbn [fmap option_fmap option_map].
      by rewrite decide_True. }
    rewrite (finish_session_unfold _ _ _ sess' Hget1 Hown). cbv zeta.
    exact (f_equal (λ d, Ok (d, Api.serialize_session d sess')) Hre).
Qed.

Lemma derive_personal_bests_idempotent_witness :
  ∃ db1 response,
    Api.finish_session 1 Sample.alice Sample.db1 = Ok (db1, response) ∧
    length (Api.personal_bests db1) = 3%nat ∧
    Api.finish_session 1 Sample.alice db1 = Ok (db1, response).
Proof.
  eexists _, _. split; [reflexivity|]. split; [reflexivity|].
  apply (proj2 derive_personal_bests_idempotent 1 Sample.alice Sample.db1).
  - by apply (bool_decide_unpack _).
  - reflexivity.
Defined.

(** ** C2: deleting a program *)

Lemma foldl_preserves {A B C} (f : A → B → A) (proj : A → C) (l : list B) (a : A) :
  (∀ a b, proj (f a b) = proj a) → proj (foldl f a l) = proj a.
Proof.
  intros Hf. revert a. induction l as [|b l IH]; intros a; [done|].
  simpl. by rewrite IH.
Qed.

(** [delete_program] writes to four tables only: a column of the store that
    their setters leave alone is as it was. *)
Lemma delete_program_preserves {C} (proj : Api.DB → C) program_id user db db' r :
  (∀ d l, proj (Api.set_template_exercises d l) = proj d) →
  (∀ d l, proj (Api.set_workout_templates d l) = proj d) →
  (∀ d l, proj (Api.set_sessions d l) = proj d) →
  (∀ d l, proj (Api.set_programs d l) = proj d) →
  Api.delete_program program_id user db = Ok (db', r) →
  proj db' = proj db.
Proof.
  intros Hrows Htpls Hsess Hprogs. unfold Api.delete_program.
  destruct (db_get program_id (Api.programs db)) as [pr|]; [|done].
  simpl. destruct (Api.ensure_owner _ _); [|done]. simpl. intros [= <- _].
  rewrite Hprogs.
  rewrite (foldl_preserves _ proj) by (intros d x; apply Hsess).
  rewrite (foldl_preserves _ proj); [done|].
  intros d tpl. rewrite Htpls.
  by rewrite (foldl_preserves _ proj) by (intros d' x; apply Hrows).
Qed.

Lemma delete_program_untouched program_id user db db' r :
  Api.delete_program program_id user db = Ok (db', r) →
  Api.set_logs db' = Api.set_logs db ∧
  Api.personal_bests db' = Api.personal_bests db ∧
  Api.exercises db' = Api.exercises db.
Proof.
  intros Hdel.
  split_and!.
  - by apply (delete_program_preserves Api.set_logs program_id user db db' r).
  - by apply (delete_program_preserves Api.personal_bests program_id user db db' r).
  - by apply (delete_program_preserves Api.exercises program_id user db db' r).
Qed.

(** C2 (code defect).  On a program with a session and a logged set,
    [delete_program] of the service removes the program, its templates, their
    rows and the session, and leaves the personal bests as they were, but the
    session's set log stays behind, whereas [delete_session] on the same store
    removes it.  The prototype's [/api/programs/delete] removes the program
    and its templates and keeps the session itself. *)
Theorem delete_program_leaves_set_logs :
  (∃ db', Api.delete_program 1 Sample.alice Sample.db_with_best = Ok (db', 1) ∧
          Api.programs db' = [] ∧
          Api.workout_templates db' = [] ∧
          Api.template_exercises db' = [] ∧
          Api.sessions db' = [] ∧
          Api.personal_bests db' = [Sample.old_best] ∧
          Api.set_logs db' = [Sample.set_100x5; Sample.set_90x8]) ∧
  (∃ db', Api.delete_session 1 Sample.alice Sample.db_with_best = Ok (db', 1) ∧
          Api.sessions db' = [] ∧
          Api.set_logs db' = []) ∧
  (∃ db', Server.programs_delete (Some 1%nat) GymSample.db0 = Ok (db', 1%nat) ∧
          Gym.programs db' = [GymSample.other_program] ∧
          Gym.workout_templates db' = [GymSample.other_day] ∧
          Gym.sessions db' = [GymSample.monday]).
Proof. split_and!; eexists; split_and!; reflexivity. Qed.

(** ** C3: the key of a personal best *)

(** In the prototype a record of a kind other than ["max_weight_reps"] is
    found whatever its rep count. *)
Lemma gym_pb_match_ignores_reps exercise_id kind reps reps' pb :
  kind ≠ "max_weight_reps" →
  Gym.pb_match exercise_id kind reps pb ↔ Gym.pb_match exercise_id kind reps' pb.
Proof. unfold Gym.pb_match. intuition congruence. Qed.

(** In the service only ["est_1rm"] is looked up without its rep count. *)
Lemma api_pb_where_reps owner_id exercise_id kind reps pb :
  kind ≠ "est_1rm" →
  Api.pb_where owner_id exercise_id kind reps pb → Api.PersonalBest.reps pb = reps.
Proof. unfold Api.pb_where. intros Hk (_ & _ & _ & Hr). by rewrite decide_True in Hr. Qed.

(** C3 (code defect).  Alice finishes a session with 100 for 5 and 90 for 8
    on the bench.  The service keeps one ["max_weight_reps"] record per rep
    count, as claimed, but also one ["max_volume"] record per rep count
    (500 at 5 and 720 at 8): its lookup leaves the rep count out of the key
    for ["est_1rm"] only.  The prototype on the same sets keeps the two
    ["max_weight_reps"] records and a single ["max_volume"] record, which the
    higher volume replaced. *)
Theorem max_volume_keyed_by_reps :
  (∃ db' response,
     Api.finish_session 1 Sample.alice Sample.db2 = Ok (db', response) ∧
     (λ pb, (Api.PersonalBest.value pb, Api.PersonalBest.reps pb)) <$>
       filter (λ pb, Api.PersonalBest.kind pb = "max_weight_reps") (Api.personal_bests db')
       = [(100%Q, 5); (90%Q, 8)] ∧
     (λ pb, (Api.PersonalBest.value pb, Api.PersonalBest.reps pb)) <$>
       filter (λ pb, Api.PersonalBest.kind pb = "max_volume") (Api.personal_bests db')
       = [(500%Q, 5); (720%Q, 8)]) ∧
  (∀ draw,
     let pbs := (Gym.update_personal_bests draw [] 20 GymSample.monday).1 in
     (λ pb, (Gym.PB.value pb, Gym.PB.reps pb)) <$>
       filter (λ pb, Gym.PB.kind pb = "max_weight_reps") pbs = [(Num 100, 5); (Num 90, 8)] ∧
     (λ pb, (Gym.PB.value pb, Gym.PB.reps pb)) <$>
       filter (λ pb, Gym.PB.kind pb = "max_volume") pbs = [(Num 720, 8)]).
Proof. split; [eexists _, _|intros draw]; split_and!; reflexivity. Qed.

(** ** C4: finishing a finished session *)

(** The command-line [finish_session] turns a finished session away and
    saves nothing. *)
Lemma gym_finish_session_done draw session_id db k i session :
  Gym.find_item (Gym.sessions db) session_id = Some (i, session) →
  Gym.Session.status session = "done" →
  Gym.finish_session draw session_id db k = Ok (db, k, "Session already finished.").
Proof.
  intros Hfind Hdone. unfold Gym.finish_session, Gym.require_id. rewrite Hfind. simpl.
  by rewrite decide_True.
Qed.

(** C4 (code defect).  Alice finishes Monday's session (three records are
    derived), logs one more set into the finished session and finishes it
    again: the service accepts the second finish and derives again, which
    adds two records.  The command-line [finish_session] of the prototype, run
    again on a finished session, answers that it is already finished and
    saves nothing; the prototype's HTTP handler, like the service, has no such
    test. *)
Theorem refinish_runs_derivation_again :
  (∃ db_a resp_a db_b log_b db_c resp_c,
     Api.finish_session 1 Sample.alice Sample.db1 = Ok (db_a, resp_a) ∧
     Api.Session.status <$> db_get 1 (Api.sessions db_a) = Some "done" ∧
     length (Api.personal_bests db_a) = 3%nat ∧
     Api.log_set 1 Sample.payload_90x8 Sample.alice db_a = Ok (db_b, log_b) ∧
     Api.finish_session 1 Sample.alice db_b = Ok (db_c, resp_c) ∧
     length (Api.personal_bests db_c) = 5%nat) ∧
  (∀ draw,
     ∃ db_a k_a msg,
       Gym.finish_session draw 12%nat GymSample.db0 20 = Ok (db_a, k_a, msg) ∧
       Gym.finish_session draw 12%nat db_a k_a =
         Ok (db_a, k_a, "Session already finished.")) ∧
  (∀ draw,
     ∃ db_a k_a s_a db_b k_b s_b,
       Server.sessions_finish draw 12%nat GymSample.db0 20 = Ok (db_a, k_a, s_a) ∧
       Gym.Session.status s_a = "done" ∧
       Server.sessions_finish draw 12%nat db_a k_a = Ok (db_b, k_b, s_b)).
Proof.
  split_and!.
  - eexists _, _, _, _, _, _. split_and!; reflexivity.
  - intros draw. eexists _, _, _. split_and!; reflexivity.
  - intros draw. eexists _, _, _, _, _, _. split_and!; reflexivity.
Qed.

(** ** C8: logging a set *)

(** Alice finishes Monday's session and logs a set into it; she cancels the
    session instead and logs a set into it: both sets are stored. *)
Lemma log_set_accepted_after_finish :
  (∃ db_a resp_a db_b log_b,
     Api.finish_session 1 Sample.alice Sample.db1 = Ok (db_a, resp_a) ∧
     Api.Session.status <$> db_get 1 (Api.sessions db_a) = Some "done" ∧
     Api.log_set 1 Sample.payload_90x8 Sample.alice db_a = Ok (db_b, log_b) ∧
     Api.SetLog.session_id log_b = 1 ∧
     Api.set_logs db_b = Api.set_logs db_a ++ [log_b]) ∧
  (∃ db_a resp_a db_b log_b,
     Api.cancel_session 1 Sample.alice Sample.db1 = Ok (db_a, resp_a) ∧
     Api.Session.status <$> db_get 1 (Api.sessions db_a) = Some "cancelled" ∧
     Api.log_set 1 Sample.payload_90x8 Sample.alice db_a = Ok (db_b, log_b) ∧
     Api.SetLog.session_id log_b = 1 ∧
     Api.set_logs db_b = Api.set_logs db_a ++ [log_b]).
Proof. split; eexists _, _, _, _; split_and!; reflexivity. Qed.

(** C8 (as amended).  [log_set] never reads the status of the session.
    Service: for a session that exists and belongs to the caller, whatever
    its status, a payload whose integers fit 64 bits and whose floats are
    numbers is stored as one new set of that session, and the sessions are
    left as they are (part 1); an integer out of range is refused by the
    driver and a NaN by the table, and nothing is stored (part 2).  The
    outcome is the same on the store in which the session has any other
    status (part 3).  Prototype: the set is appended to the session that is
    found, whatever its status, given that the exercise exists; the status is
    left as it is (part 4). *)
Theorem log_set_ignores_status :
  (∀ session_id log user db sess weight rpe,
     db_get session_id (Api.sessions db) = Some sess →
     Api.Session.owner_id sess = Api.User.id user →
     int64 (Api.p_exercise_id log) = true →
     int64 (Api.p_set_number log) = true →
     int64 (Api.p_reps log) = true →
     Api.p_weight log = Num weight →
     Api.p_rpe log = Num rpe →
     ∃ db' db_log,
       Api.log_set session_id log user db = Ok (db', db_log) ∧
       db_log = Api.SetLog.mk (db_fresh (Api.set_logs db)) session_id
                  (Api.p_exercise_id log) (Api.p_set_number log) weight
                  (Api.p_reps log) rpe (Api.p_comment log) ∧
       Api.set_logs db' = Api.set_logs db ++ [db_log] ∧
       Api.sessions db' = Api.sessions db) ∧
  (∀ session_id log user db sess,
     db_get session_id (Api.sessions db) = Some sess →
     Api.Session.owner_id sess = Api.User.id user →
     (int64 (Api.p_exercise_id log) = false ∨ int64 (Api.p_set_number log) = false ∨
      int64 (Api.p_reps log) = false →
      Api.log_set session_id log user db = Raise OverflowError) ∧
     (int64 (Api.p_exercise_id log) = true → int64 (Api.p_set_number log) = true →
      int64 (Api.p_reps log) = true →
      isnan (Api.p_weight log) = true ∨ isnan (Api.p_rpe log) = true →
      Api.log_set session_id log user db = Raise IntegrityError)) ∧
  (∀ session_id log user db sess status,
     db_get session_id (Api.sessions db) = Some sess →
     let sess2 :=
       Api.Session.mk (Api.Session.id sess) (Api.Session.owner_id sess)
         (Api.Session.template_id sess) (Api.Session.program_id sess)
         (Api.Session.template_name sess) (Api.Session.program_name sess)
         (Api.Session.date sess) status in
     let restatus := λ d, Api.set_sessions d (db_update sess2 (Api.sessions d)) in
     match Api.log_set session_id log user db with
     | Ok (db', db_log) =>
         Api.log_set session_id log user (restatus db) = Ok (restatus db', db_log)
     | Raise e => Api.log_set session_id log user (restatus db) = Raise e
     end) ∧
  (∀ draw args db k i session j exercise,
     Gym.find_item (Gym.sessions db) (Gym.a_session_id args) = Some (i, session) →
     Gym.find_item (Gym.exercises db) (Gym.a_exercise_id args) = Some (j, exercise) →
     ∃ msg,
       Gym.log_set draw args db k =
       Ok (Gym.set_sessions db
             (<[i := Gym.Session.mk (Gym.Session.id session) (Gym.Session.template_id session)
                       (Gym.Session.program_id session) (Gym.Session.template_name session)
                       (Gym.Session.program_name session) (Gym.Session.date session)
                       (Gym.Session.set_logs session ++
                        [Gym.SetLog.mk (draw k) (Gym.a_exercise_id args)
                           (Gym.a_set_number args) (Gym.a_weight args) (Gym.a_reps args)
                           (Gym.a_rpe args) (Gym.a_comment args)])
                       (Gym.Session.status session)]> (Gym.sessions db)),
           S k, msg)).
Proof.
  split_and!.
  - intros sid log user db sess weight rpe Hget Hown He Hn Hr Hweight Hrpe.
    unfold Api.log_set, Api.ensure_owner.
    rewrite Hget. simpl. rewrite decide_False by (by intros []). simpl.
    rewrite He, Hn, Hr, Hweight, Hrpe. simpl. eexists _, _. by split_and!.
  - intros sid log user db sess Hget Hown. unfold Api.log_set, Api.ensure_owner.
    rewrite Hget. simpl. rewrite decide_False by (by intros []). simpl. split.
    + intros Hout.
      destruct (int64 (Api.p_exercise_id log)), (int64 (Api.p_set_number log)),
        (int64 (Api.p_reps log)); try done; by destruct Hout as [|[|]].
    + intros -> -> -> Hnan. simpl.
      destruct (Api.p_weight log), (Api.p_rpe log); try done; by destruct Hnan.
  - intros sid log user db sess status Hget. cbv zeta.
    set (sess2 := Api.Session.mk _ _ _ _ _ _ _ status).
    assert (db_get sid (Api.sessions
              (Api.set_sessions db (db_update sess2 (Api.sessions db)))) = Some sess2) as Hget2.
    { cbn [Api.set_sessions Api.sessions]. rewrite db_get_update, Hget.
      cbn [fmap option_fmap option_map]. by rewrite decide_True. }
    unfold Api.log_set. rewrite Hget, Hget2. cbn [or_raise mbind result_bind].
    change (Api.Session.owner_id sess2) with (Api.Session.owner_id sess).
    destruct (Api.ensure_owner (Api.Session.owner_id sess) user); [|done].
    cbn [mbind result_bind]. destruct (negb _); [done|].
    by destruct (Api.p_weight log), (Api.p_rpe log).
  - intros draw args db k i session j exercise Hs He. unfold Gym.log_set, Gym.require_id.
    rewrite Hs, He. simpl. eexists. reflexivity.
Qed.

Lemma log_set_ignores_status_witness :
  ∃ db_a resp_a,
    Api.finish_session 1 Sample.alice Sample.db1 = Ok (db_a, resp_a) ∧
    Api.Session.status <$> db_get 1 (Api.sessions db_a) = Some "done" ∧
    ∃ db_b log_b,
      Api.log_set 1 Sample.payload_90x8 Sample.alice db_a = Ok (db_b, log_b) ∧
      log_b = Api.SetLog.mk 2 1 7 2 90 8 9 "" ∧
      Api.set_logs db_b = Api.set_logs db_a ++ [log_b] ∧
      Api.sessions db_b = Api.sessions db_a.
Proof.
  eexists _, _. split; [reflexivity|]. split; [reflexivity|].
  eapply (proj1 log_set_ignores_status 1 Sample.payload_90x8 Sample.alice); reflexivity.
Defined.

(** ** C6 and C7: friend requests *)

Section friends_facts.
Import Api.

Lemma friendship_key_min_max a b : friendship_key a b = (Z.min a b, Z.max a b).
Proof. unfold friendship_key. case_decide; f_equal; lia. Qed.

Lemma friendship_key_comm a b : friendship_key a b = friendship_key b a.
Proof. rewrite !friendship_key_min_max. f_equal; lia. Qed.

Lemma friendship_exists_comm db a b : friendship_exists db a b = friendship_exists db b a.
Proof. unfold friendship_exists. by rewrite (friendship_key_comm a b). Qed.

Lemma friendship_exists_true db a b : friendship_exists db a b = true ↔ friends db a b.
Proof.
  unfold friendship_exists, friends. rewrite friendship_key_min_max.
  destruct (head (filter _ (friendships db))) as [f|] eqn:Hh.
  - split; [intros _|done]. exists f. apply head_Some_elem_of in Hh.
    apply list_elem_of_filter in Hh. tauto.
  - split; [done|]. intros (f & Hin & Hu & Hf). apply head_None in Hh.
    exfalso. by apply (filter_nil_not_elem_of _ _ f Hh).
Qed.

Lemma friendship_exists_false db a b : friendship_exists db a b = false ↔ ¬ friends db a b.
Proof. rewrite <- friendship_exists_true. by destruct (friendship_exists db a b). Qed.

Lemma pending_head db a b :
  head (filter (λ fr,
      ((FriendRequest.from_user_id fr = a ∧ FriendRequest.to_user_id fr = b) ∨
       (FriendRequest.from_user_id fr = b ∧ FriendRequest.to_user_id fr = a)) ∧
      FriendRequest.status fr = "pending") (friend_requests db)) = None
  ↔ ¬ pending_between db a b.
Proof.
  unfold pending_between. rewrite head_None. split.
  - intros Hnil (fr & Hin & Hst & Hdir).
    by apply (filter_nil_not_elem_of _ _ fr Hnil).
  - intros Hno. destruct (filter _ _) as [|fr l] eqn:Hf; [done|]. exfalso. apply Hno.
    assert (fr ∈ fr :: l) as Hin by left. rewrite <- Hf in Hin.
    apply list_elem_of_filter in Hin. exists fr. tauto.
Qed.
End friends_facts.

Lemma send_friend_request_cases to_username user db to_user :
  Api.get_user_by_username db to_username = Some to_user →
  (Api.User.id to_user = Api.User.id user →
   Api.send_friend_request to_username user db =
   Raise (HTTPException 400 "Cannot send request to yourself")) ∧
  (Api.User.id to_user ≠ Api.User.id user →
   Api.friends db (Api.User.id user) (Api.User.id to_user) →
   Api.send_friend_request to_username user db =
   Raise (HTTPException 400 "You are already friends")) ∧
  (Api.User.id to_user ≠ Api.User.id user →
   ¬ Api.friends db (Api.User.id user) (Api.User.id to_user) →
   Api.pending_between db (Api.User.id user) (Api.User.id to_user) →
   Api.send_friend_request to_username user db =
   Raise (HTTPException 400 "Request already pending")) ∧
  (Api.User.id to_user ≠ Api.User.id user →
   ¬ Api.friends db (Api.User.id user) (Api.User.id to_user) →
   ¬ Api.pending_between db (Api.User.id user) (Api.User.id to_user) →
   Api.send_friend_request to_username user db =
   Ok (Api.set_friend_requests db
         (Api.friend_requests db ++
          [Api.FriendRequest.mk (db_fresh (Api.friend_requests db)) (Api.User.id user)
             (Api.User.id to_user) "pending"]),
       Api.FriendRequest.mk (db_fresh (Api.friend_requests db)) (Api.User.id user)
         (Api.User.id to_user) "pending")).
Proof.
  intros Hto. unfold Api.send_friend_request. rewrite Hto. simpl. split_and!.
  - intros Hself. by rewrite decide_True.
  - intros Hne Hfr. rewrite decide_False by done.
    apply friendship_exists_true in Hfr. by rewrite Hfr.
  - intros Hne Hfr Hpend. rewrite decide_False by done.
    apply friendship_exists_false in Hfr. rewrite Hfr.
    destruct (head _) as [fr|] eqn:Hh; [done|].
    by apply pending_head in Hh.
  - intros Hne Hfr Hpend. rewrite decide_False by done.
    apply friendship_exists_false in Hfr. rewrite Hfr.
    apply pending_head in Hpend. by rewrite Hpend.
Qed.

(** What a successful request tells and leaves behind. *)
Lemma send_friend_request_ok to_username user db to_user db' fr :
  Api.get_user_by_username db to_username = Some to_user →
  Api.send_friend_request to_username user db = Ok (db', fr) →
  Api.User.id to_user ≠ Api.User.id user ∧
  ¬ Api.friends db (Api.User.id user) (Api.User.id to_user) ∧
  fr = Api.FriendRequest.mk (db_fresh (Api.friend_requests db)) (Api.User.id user)
         (Api.User.id to_user) "pending" ∧
  db' = Api.set_friend_requests db (Api.friend_requests db ++ [fr]).
Proof.
  intros Hto. unfold Api.send_friend_request. rewrite Hto. simpl.
  case_decide as Hne; [done|].
  destruct (Api.friendship_exists db _ _) eqn:Hfr; [done|].
  destruct (head _) as [?|]; [done|]. intros [= <- <-].
  split_and!; try done. by apply friendship_exists_false.
Qed.

(** C6.  With the recipient found by name, [send_friend_request] fails with
    status 400 (the service's code for a conflict) when the recipient is the
    sender, when the canonical friendship edge of the pair is stored, and
    when a pending request stands between the two in either direction; in
    every other case it stores a new pending request from the sender to the
    recipient.  In particular, after a request from A to B has been stored, a
    request from B to A fails as already pending. *)
Theorem send_friend_request_conflicts :
  (∀ to_username user db to_user,
     Api.get_user_by_username db to_username = Some to_user →
     (Api.User.id to_user = Api.User.id user →
      Api.send_friend_request to_username user db =
      Raise (HTTPException 400 "Cannot send request to yourself")) ∧
     (Api.User.id to_user ≠ Api.User.id user →
      Api.friends db (Api.User.id user) (Api.User.id to_user) →
      Api.send_friend_request to_username user db =
      Raise (HTTPException 400 "You are already friends")) ∧
     (Api.User.id to_user ≠ Api.User.id user →
      ¬ Api.friends db (Api.User.id user) (Api.User.id to_user) →
      Api.pending_between db (Api.User.id user) (Api.User.id to_user) →
      Api.send_friend_request to_username user db =
      Raise (HTTPException 400 "Request already pending")) ∧
     (Api.User.id to_user ≠ Api.User.id user →
      ¬ Api.friends db (Api.User.id user) (Api.User.id to_user) →
      ¬ Api.pending_between db (Api.User.id user) (Api.User.id to_user) →
      Api.send_friend_request to_username user db =
      Ok (Api.set_friend_requests db
            (Api.friend_requests db ++
             [Api.FriendRequest.mk (db_fresh (Api.friend_requests db)) (Api.User.id user)
                (Api.User.id to_user) "pending"]),
          Api.FriendRequest.mk (db_fresh (Api.friend_requests db)) (Api.User.id user)
            (Api.User.id to_user) "pending"))) ∧
  (∀ a b db db' fr,
     Api.get_user_by_username db (Api.User.username a) = Some a →
     Api.get_user_by_username db (Api.User.username b) = Some b →
     Api.send_friend_request (Api.User.username b) a db = Ok (db', fr) →
     Api.send_friend_request (Api.User.username a) b db' =
     Raise (HTTPException 400 "Request already pending")).
Proof.
  split; [apply send_friend_request_cases|].
  intros a b db db' fr Ha Hb Hsend.
  destruct (send_friend_request_ok _ _ _ _ _ _ Hb Hsend) as (Hne & Hfr & Hfr' & Hdb').
  assert (Api.get_user_by_username db' (Api.User.username a) = Some a) as Ha'
    by (by subst db').
  destruct (send_friend_request_cases (Api.User.username a) b db' a Ha')
    as (_ & _ & Hpending & _).
  apply Hpending; [done| |].
  - intros (f & Hin & Hu & Hf). apply Hfr. exists f. subst db'.
    split; [done|]. split; lia.
  - exists fr. subst db'. cbn [Api.set_friend_requests Api.friend_requests].
    split; [apply elem_of_app; right; by left|]. subst fr. by split; [|right].
Qed.

Lemma send_friend_request_conflicts_witness :
  ∃ db' fr,
    Api.send_friend_request "bob" Sample.alice Sample.db0 = Ok (db', fr) ∧
    fr = Api.FriendRequest.mk 1 1 2 "pending" ∧
    Api.send_friend_request "alice" Sample.bob db' =
    Raise (HTTPException 400 "Request already pending").
Proof.
  eexists _, _. split; [reflexivity|]. split; [reflexivity|].
  eapply (proj2 send_friend_request_conflicts Sample.alice Sample.bob Sample.db0);
    reflexivity.
Defined.

Section accept_facts.
Import Api.

Lemma friendship_exists_canon db a b :
  friendship_exists db (Z.min a b) (Z.max a b) = friendship_exists db a b.
Proof.
  unfold friendship_exists. rewrite !friendship_key_min_max.
  by replace (Z.min (Z.min a b) (Z.max a b)) with (Z.min a b) by lia;
     replace (Z.max (Z.min a b) (Z.max a b)) with (Z.max a b) by lia.
Qed.

(** [ensure_friendship] between two different users stores the canonical
    edge unless it is there. *)
Lemma ensure_friendship_spec db a b :
  a ≠ b →
  (friends db a b ∧ ensure_friendship db a b = Ok db) ∨
  (¬ friends db a b ∧
   ensure_friendship db a b =
   Ok (set_friendships db
         (friendships db ++ [Friendship.mk (db_fresh (friendships db)) (Z.min a b) (Z.max a b)]))).
Proof.
  intros Hne. unfold ensure_friendship. rewrite friendship_key_min_max.
  rewrite decide_False by lia. rewrite friendship_exists_canon.
  destruct (friendship_exists db a b) eqn:Hfr; simpl.
  - left. split; [by apply friendship_exists_true|done].
  - right. split; [by apply friendship_exists_false|done].
Qed.

Lemma ensure_friendship_self db a :
  ensure_friendship db a a = Raise (HTTPException 400 "Cannot friend yourself").
Proof.
  unfold ensure_friendship. rewrite friendship_key_min_max. by rewrite decide_True by lia.
Qed.

(** A request that is no longer pending can be neither accepted nor
    rejected: the addressee is told it was handled, anybody else that they
    are not allowed. *)
Lemma respond_handled request_id db fr caller :
  db_get request_id (friend_requests db) = Some fr →
  FriendRequest.status fr ≠ "pending" →
  accept_friend_request request_id caller db =
    Raise (if decide (FriendRequest.to_user_id fr = User.id caller)
           then HTTPException 400 "Request already handled"
           else HTTPException 403 "Not allowed") ∧
  reject_friend_request request_id caller db =
    Raise (if decide (FriendRequest.to_user_id fr = User.id caller)
           then HTTPException 400 "Request already handled"
           else HTTPException 403 "Not allowed").
Proof.
  intros Hget Hst. unfold accept_friend_request, reject_friend_request.
  rewrite Hget. simpl.
  destruct (decide (FriendRequest.to_user_id fr = User.id caller)); split.
  - rewrite decide_False by (by intros []). by rewrite decide_True.
  - rewrite decide_False by (by intros []). by rewrite decide_True.
  - by rewrite decide_True.
  - by rewrite decide_True.
Qed.
Lemma ensure_friendship_requests db a b db2 :
  ensure_friendship db a b = Ok db2 → friend_requests db2 = friend_requests db.
Proof.
  unfold ensure_friendship. destruct (friendship_key a b) as [u1 u2].
  case_decide; [done|]. by destruct (negb _); intros [= <-].
Qed.

Lemma accept_friend_request_inv request_id user db db1 fr1 :
  accept_friend_request request_id user db = Ok (db1, fr1) →
  ∃ fr db2,
    db_get request_id (friend_requests db) = Some fr ∧
    FriendRequest.to_user_id fr = User.id user ∧
    FriendRequest.status fr = "pending" ∧
    FriendRequest.from_user_id fr ≠ FriendRequest.to_user_id fr ∧
    fr1 = set_fr_status fr "accepted" ∧
    ensure_friendship db (FriendRequest.from_user_id fr) (FriendRequest.to_user_id fr) = Ok db2 ∧
    db1 = set_friend_requests db2 (db_update fr1 (friend_requests db)) ∧
    db_get request_id (friend_requests db1) = Some fr1.
Proof.
  unfold accept_friend_request.
  destruct (db_get request_id (friend_requests db)) as [fr|] eqn:Hget; [|done].
  cbn [mbind result_bind or_raise]. case_decide as Hto; [done|].
  case_decide as Hst; [done|].
  cbn [set_fr_status FriendRequest.from_user_id FriendRequest.to_user_id].
  destruct (decide (FriendRequest.from_user_id fr = FriendRequest.to_user_id fr))
    as [Hself|Hne]; [by rewrite Hself, ensure_friendship_self|].
  destruct (ensure_friendship db _ _) as [db2|] eqn:Hens; [|done].
  cbn [mbind result_bind]. intros [= <- <-].
  rewrite (ensure_friendship_requests _ _ _ _ Hens).
  exists fr, db2. split_and!; try done.
  cbn [set_friend_requests friend_requests].
  rewrite db_get_update, Hget. cbn [fmap option_fmap option_map].
  by rewrite decide_True.
Qed.
(** Friends are listed with each other by [list_friends]. *)
Lemma friends_listed db a b user :
  a ≠ b → friends db a b → User.id user = a → b ∈ friend_ids user db.
Proof.
  intros Hne (f & Hin & Hu & Hf) Ha. unfold friend_ids.
  apply list_elem_of_fmap. exists f. split.
  - case_decide; lia.
  - apply list_elem_of_filter. split; [lia|done].
Qed.
End accept_facts.

(** C7.  [accept_friend_request] succeeds exactly when the request exists,
    the caller is its [to] party, its status is pending and the two parties
    differ.  It then sets the status to accepted: the request it returns, and
    the one stored under the key from then on, has the status accepted and
    the key and the two parties it had, and no other request is touched.  It
    stores the canonical edge [(min, max)] of the pair, once: the table of
    friendships is left as it was when the edge was there and grows by that
    one row otherwise.  From then on every accept or reject of the request
    fails and changes nothing: for its addressee with status 400 (the
    service's code for a conflict), for any other caller, as before the
    acceptance, with 403. *)
Theorem accept_friend_request_once :
  (∀ request_id user db db1 fr1,
     Api.accept_friend_request request_id user db = Ok (db1, fr1) →
     ∃ fr,
       db_get request_id (Api.friend_requests db) = Some fr ∧
       Api.FriendRequest.to_user_id fr = Api.User.id user ∧
       Api.FriendRequest.status fr = "pending" ∧
       Api.FriendRequest.status fr1 = "accepted" ∧
       fr1 = Api.FriendRequest.mk (Api.FriendRequest.id fr) (Api.FriendRequest.from_user_id fr)
               (Api.FriendRequest.to_user_id fr) "accepted" ∧
       db_get request_id (Api.friend_requests db1) = Some fr1 ∧
       Api.friend_requests db1 =
         (λ r, if decide (Api.FriendRequest.id r = Api.FriendRequest.id fr) then fr1 else r)
         <$> Api.friend_requests db ∧
       ((Api.friends db (Api.FriendRequest.from_user_id fr) (Api.FriendRequest.to_user_id fr) ∧
         Api.friendships db1 = Api.friendships db) ∨
        (¬ Api.friends db (Api.FriendRequest.from_user_id fr) (Api.FriendRequest.to_user_id fr) ∧
         Api.friendships db1 =
         Api.friendships db ++
         [Api.Friendship.mk (db_fresh (Api.friendships db))
            (Z.min (Api.FriendRequest.from_user_id fr) (Api.FriendRequest.to_user_id fr))
            (Z.max (Api.FriendRequest.from_user_id fr) (Api.FriendRequest.to_user_id fr))])) ∧
       Api.friends db1 (Api.FriendRequest.from_user_id fr) (Api.FriendRequest.to_user_id fr) ∧
       (∀ caller,
          Api.User.id caller = Api.FriendRequest.to_user_id fr →
          Api.accept_friend_request request_id caller db1 =
            Raise (HTTPException 400 "Request already handled") ∧
          Api.reject_friend_request request_id caller db1 =
            Raise (HTTPException 400 "Request already handled")) ∧
       (∀ caller,
          is_ok (Api.accept_friend_request request_id caller db1) = false ∧
          is_ok (Api.reject_friend_request request_id caller db1) = false)) ∧
  (∀ request_id user db fr,
     db_get request_id (Api.friend_requests db) = Some fr →
     Api.FriendRequest.to_user_id fr = Api.User.id user →
     Api.FriendRequest.status fr = "pending" →
     Api.FriendRequest.from_user_id fr ≠ Api.FriendRequest.to_user_id fr →
     is_ok (Api.accept_friend_request request_id user db) = true).
Proof.
  split.
  - intros rid user db db1 fr1 Hacc.
    destruct (accept_friend_request_inv _ _ _ _ _ Hacc)
      as (fr & db2 & Hget & Hto & Hst & Hne & Hfr1 & Hens & Hdb1 & Hget1).
    assert (Api.FriendRequest.status fr1 ≠ "pending") as Hst1 by (by subst fr1).
    assert (Api.FriendRequest.to_user_id fr1 = Api.FriendRequest.to_user_id fr) as Hto1
      by (by subst fr1).
    exists fr. split_and!; try done.
    + by subst fr1.
    + by subst db1 fr1.
    + destruct (ensure_friendship_spec db _ _ Hne) as [[Hfr Heq]|[Hfr Heq]];
        rewrite Heq in Hens; injection Hens as <-; subst db1; [by left|by right].
    + destruct (ensure_friendship_spec db _ _ Hne) as [[Hfr Heq]|[Hfr Heq]];
        rewrite Heq in Hens; injection Hens as <-; subst db1; [done|].
      eexists. split.
      { cbn [Api.set_friend_requests Api.set_friendships Api.friendships].
        apply elem_of_app. right. by left. }
      done.
    + intros caller Hcaller.
      destruct (respond_handled rid db1 fr1 caller Hget1 Hst1) as [Ha Hr].
      rewrite Ha, Hr. rewrite decide_True by congruence. done.
    + intros caller.
      destruct (respond_handled rid db1 fr1 caller Hget1 Hst1) as [Ha Hr].
      by rewrite Ha, Hr.
  - intros rid user db fr Hget Hto Hst Hne. unfold Api.accept_friend_request.
    rewrite Hget. simpl. rewrite decide_False by (by intros []).
    rewrite decide_False by (by intros []).
    cbn [Api.set_fr_status Api.FriendRequest.from_user_id Api.FriendRequest.to_user_id].
    by destruct (ensure_friendship_spec db _ _ Hne) as [[_ ->]|[_ ->]].
Qed.

Lemma accept_friend_request_once_witness :
  ∃ db1 fr1,
    Api.accept_friend_request 1 Sample.bob Sample.db_requested = Ok (db1, fr1) ∧
    fr1 = Api.FriendRequest.mk 1 1 2 "accepted" ∧
    Api.friend_requests db1 = [fr1] ∧
    Api.friendships db1 = [Api.Friendship.mk 1 1 2] ∧
    Api.accept_friend_request 1 Sample.bob db1 =
      Raise (HTTPException 400 "Request already handled") ∧
    Api.reject_friend_request 1 Sample.bob db1 =
      Raise (HTTPException 400 "Request already handled").
Proof.
  eexists _, _. split; [reflexivity|]. split; [reflexivity|]. split; [reflexivity|].
  split; [reflexivity|].
  destruct (proj1 accept_friend_request_once 1 Sample.bob Sample.db_requested _ _ eq_refl)
    as (fr & Hget & _ & _ & _ & _ & _ & _ & _ & _ & Hagain & _).
  injection Hget as <-. apply Hagain. reflexivity.
Defined.

(** ** Copying a program in the prototype *)

Section copy_program_facts.
Import Gym.
Variable draw : nat → Id.
Implicit Types (rows : list ExerciseRow.t) (templates rest acc : list Template.t).
Implicit Types (k fuel : nat) (pid npid : Id).

Lemma copy_rows_from rows rows0 k :
  foldl (λ '(rows', k) row,
           let '(row_id, k) := gen_id draw k in (rows' ++ [with_id row row_id], k))
        (rows0, k) rows =
  (rows0 ++ zip_with with_id rows (draw <$> seq k (length rows)), (k + length rows)%nat).
Proof.
  revert rows0 k. induction rows as [|row rows IH]; intros rows0 k.
  - simpl. by rewrite app_nil_r, Nat.add_0_r.
  - cbn [foldl gen_id length seq]. rewrite IH, <- app_assoc, fmap_cons. simpl.
    do 2 f_equal. lia.
Qed.

Lemma copy_rows_spec rows k :
  copy_rows draw rows k =
  (zip_with with_id rows (draw <$> seq k (length rows)), (k + length rows)%nat).
Proof. unfold copy_rows. by rewrite copy_rows_from. Qed.

Lemma rows_copied rows (ids : list Id) :
  length ids = length rows →
  Forall2 row_copied rows (zip_with with_id rows ids) ∧
  ExerciseRow.id <$> zip_with with_id rows ids = ids.
Proof.
  revert ids. induction rows as [|row rows IH]; intros [|id ids] Hlen; try done.
  simpl in Hlen. destruct (IH ids) as [Hc Hids]; [lia|].
  split; [by constructor|]. cbn [zip_with]. by rewrite fmap_cons, Hids.
Qed.

(** Past the templates it started with, the loop only meets its own copies
    and passes them by. *)
Lemma copy_templates_skip pid npid acc done k fuel :
  Forall (λ t, Template.program_id t ≠ pid) acc →
  (length acc < fuel)%nat →
  copy_templates draw fuel (length done) pid npid (done ++ acc) k = Some (done ++ acc, k).
Proof.
  revert done fuel. induction acc as [|a acc IH]; intros done fuel Hacc Hfuel;
    (destruct fuel as [|fuel]; [simpl in Hfuel; lia|]); simpl.
  - by rewrite app_nil_r, lookup_ge_None_2.
  - rewrite list_lookup_middle by done. apply Forall_cons in Hacc as [Ha Hacc].
    rewrite decide_True by done.
    replace (S (length done)) with (length (done ++ [a])) by (rewrite length_app; simpl; lia).
    rewrite (cons_middle a done acc), app_assoc.
    apply IH; [done|]. simpl in Hfuel. lia.
Qed.

(** The loop computes [copied_templates] and appends it. *)
Lemma copy_templates_refines pid npid rest done acc k fuel :
  npid ≠ pid →
  Forall (λ t, Template.program_id t ≠ pid) acc →
  (length rest + length acc + length (copied_templates draw pid npid rest k).1 < fuel)%nat →
  copy_templates draw fuel (length done) pid npid (done ++ rest ++ acc) k =
  Some (done ++ rest ++ acc ++ (copied_templates draw pid npid rest k).1,
        (copied_templates draw pid npid rest k).2).
Proof.
  intros Hne. revert done acc k fuel.
  induction rest as [|tpl rest IH]; intros done acc k fuel Hacc Hfuel.
  - simpl. rewrite app_nil_r. apply copy_templates_skip; [done|]. simpl in Hfuel. lia.
  - destruct fuel as [|fuel]; [lia|].
    cbn [copy_templates]. rewrite <- app_comm_cons, list_lookup_middle by done.
    cbn [copied_templates] in *.
    replace (S (length done)) with (length (done ++ [tpl])) by (rewrite length_app; simpl; lia).
    destruct (decide (Template.program_id tpl ≠ pid)) as [Hp|Hp].
    + rewrite (cons_middle tpl done (rest ++ acc)), app_assoc.
      rewrite (IH (done ++ [tpl]) acc k fuel); [|done|simpl in Hfuel; lia].
      by rewrite <- app_assoc.
    + cbn [gen_id]. rewrite copy_rows_spec.
      destruct (copied_templates draw pid npid rest (S k + length (Template.exercises tpl)))
        as [copies k'] eqn:Hcopies.
      set (new_tpl := Template.mk (draw k) npid (Template.name tpl) _).
      replace ((done ++ tpl :: rest ++ acc) ++ [new_tpl])
        with ((done ++ [tpl]) ++ rest ++ (acc ++ [new_tpl]))
        by (rewrite <- !app_assoc; simpl; by rewrite <- !app_assoc).
      rewrite (IH (done ++ [tpl]) (acc ++ [new_tpl]) (S k + length (Template.exercises tpl))%nat
                 fuel).
      * rewrite Hcopies. cbn [fst snd]. by rewrite <- !app_assoc.
      * apply Forall_app. split; [done|]. by apply Forall_singleton.
      * rewrite Hcopies. rewrite length_app. simpl in *. lia.
Qed.

Lemma copied_templates_length pid npid rest k :
  (length (copied_templates draw pid npid rest k).1 ≤ length rest)%nat.
Proof.
  revert k. induction rest as [|tpl rest IH]; intros k; [done|].
  cbn [copied_templates]. case_decide.
  - specialize (IH k). simpl. lia.
  - specialize (IH (S k + length (Template.exercises tpl))%nat).
    destruct (copied_templates _ _ _ rest _). simpl in *. lia.
Qed.

Lemma copied_templates_spec pid npid rest k :
  Forall2 (template_copied npid) (filter (λ t, Template.program_id t = pid) rest)
          (copied_templates draw pid npid rest k).1 ∧
  (copied_templates draw pid npid rest k).1 ≫= template_ids =
    draw <$> seq k ((copied_templates draw pid npid rest k).2 - k) ∧
  (k ≤ (copied_templates draw pid npid rest k).2)%nat.
Proof.
  revert k. induction rest as [|tpl rest IH]; intros k.
  - simpl. rewrite Nat.sub_diag. split_and!; [constructor|done|done].
  - cbn [copied_templates]. destruct (decide (Template.program_id tpl ≠ pid)) as [Hp|Hp].
    + rewrite filter_cons_False by done. apply IH.
    + apply dec_stable in Hp. rewrite filter_cons_True by done.
      specialize (IH (S k + length (Template.exercises tpl))%nat).
      destruct (copied_templates _ _ _ rest _) as [copies k'].
      cbn [fst snd] in *. destruct IH as (Hc & Hids & Hle).
      destruct (rows_copied (Template.exercises tpl)
                  (draw <$> seq (S k) (length (Template.exercises tpl)))) as [Hrows Hrids];
        [by rewrite length_fmap, length_seq|].
      split_and!.
      * constructor; [|done]. by split_and!.
      * rewrite bind_cons. unfold template_ids at 1. cbn [Template.id Template.exercises].
        rewrite Hrids, Hids.
        replace (k' - k)%nat
          with (S (length (Template.exercises tpl)) +
                (k' - (S k + length (Template.exercises tpl))))%nat by lia.
        rewrite (seq_app (S (length (Template.exercises tpl)))), fmap_app. simpl.
        by rewrite Nat.add_succ_r.
      * lia.
Qed.

(** When the identifier drawn for the new program is that of the source,
    every copy is a template of the source again: as long as a template of
    the source lies ahead, the walk over the growing list does not end. *)
Lemma copy_templates_runs_on pid fuel i templates k j tpl :
  (i ≤ j)%nat → templates !! j = Some tpl → Template.program_id tpl = pid →
  copy_templates draw fuel i pid pid templates k = None.
Proof.
  revert i templates k j tpl.
  induction fuel as [|fuel IH]; intros i templates k j tpl Hij Hj Hpid; [done|].
  cbn [copy_templates].
  destruct (templates !! i) as [tpl_i|] eqn:Hi.
  - destruct (decide (Template.program_id tpl_i ≠ pid)) as [Hp|Hp].
    + apply (IH _ _ _ j tpl); [|done|done].
      destruct (decide (i = j)) as [->|]; [|lia]. congruence.
    + cbn [gen_id]. destruct (copy_rows draw (Template.exercises tpl_i) (S k)) as [rows k'].
      eapply (IH _ _ _ (length templates)); [|by apply list_lookup_middle|done].
      apply lookup_lt_Some in Hi. lia.
  - apply lookup_ge_None in Hi. apply lookup_lt_Some in Hj. lia.
Qed.
End copy_program_facts.

(** ** C5: forking a program *)

Section fork_facts.
Import Api.
Implicit Types (db : DB) (user : User.t) (m : gmap Z Z) (ids : gset Z).

Lemma db_fresh_app {A} `{Row A} (l l' : list A) : db_fresh l ≤ db_fresh (l ++ l').
Proof.
  induction l as [|a l IH].
  - pose proof (db_fresh_pos l') as Hpos. unfold db_fresh in *. simpl. lia.
  - unfold db_fresh in *. rewrite <- app_comm_cons, !fmap_cons. cbn [foldr]. lia.
Qed.

(** *** The scan of the source *)

Lemma collect_exercise_ids (rows : list TemplateExercise.t) ids :
  foldl (λ ids r, {[TemplateExercise.exercise_id r]} ∪ ids) ids rows =
  list_to_set (TemplateExercise.exercise_id <$> rows) ∪ ids.
Proof.
  revert ids. induction rows as [|r rows IH]; intros ids; simpl.
  - set_solver.
  - rewrite IH. set_solver.
Qed.

Lemma scan_templates_snoc db templates tpl :
  scan_templates db (templates ++ [tpl]) =
  ((<[WorkoutTemplate.id tpl := template_rows db (WorkoutTemplate.id tpl)]>
      (scan_templates db templates).1),
   list_to_set (TemplateExercise.exercise_id <$> template_rows db (WorkoutTemplate.id tpl))
     ∪ (scan_templates db templates).2).
Proof.
  unfold scan_templates at 1. rewrite foldl_app. fold (scan_templates db templates).
  destruct (scan_templates db templates) as [rows_by_tpl exercise_ids].
  cbn [foldl fst snd]. by rewrite collect_exercise_ids.
Qed.

Lemma scan_templates_spec db templates :
  (∀ tpl, tpl ∈ templates →
     (scan_templates db templates).1 !! WorkoutTemplate.id tpl =
     Some (template_rows db (WorkoutTemplate.id tpl))) ∧
  (scan_templates db templates).2 =
    list_to_set (TemplateExercise.exercise_id <$>
                 (templates ≫= λ tpl, template_rows db (WorkoutTemplate.id tpl))).
Proof.
  induction templates as [|tpl templates [IHm IHs]] using rev_ind.
  - split; [by intros tpl Hin; inversion Hin|done].
  - rewrite scan_templates_snoc. cbn [fst snd]. split.
    + intros t Hin.
      destruct (decide (WorkoutTemplate.id tpl = WorkoutTemplate.id t)) as [Heq|Hne].
      * rewrite Heq. by rewrite lookup_insert_eq.
      * rewrite lookup_insert_ne by done. apply IHm.
        apply elem_of_app in Hin as [Hin|Hin]; [done|].
        apply list_elem_of_singleton in Hin. by subst.
    + rewrite IHs, bind_app, fmap_app, list_to_set_app_L. simpl.
      rewrite app_nil_r. set_solver.
Qed.

(** *** The exercises to copy *)

Lemma filter_in_set_length (exs : list Exercise.t) ids :
  unique_ids exs →
  length (filter (λ ex, Exercise.id ex ∈ ids) exs) =
  size (ids ∩ list_to_set (Exercise.id <$> exs)).
Proof.
  unfold unique_ids. induction exs as [|ex exs IH]; intros Hnd.
  - rewrite fmap_nil, filter_nil. cbn [list_to_set length].
    replace (ids ∩ ∅) with (∅ : gset Z) by set_solver. by rewrite size_empty.
  - rewrite fmap_cons in Hnd. apply NoDup_cons in Hnd as [Hex Hnd].
    rewrite fmap_cons. cbn [list_to_set].
    assert (row_id ex ∉ (list_to_set (Exercise.id <$> exs) : gset Z)) as Hex'
      by (by rewrite elem_of_list_to_set).
    change (row_id ex) with (Exercise.id ex) in *.
    destruct (decide (Exercise.id ex ∈ ids)) as [Hin|Hout].
    + rewrite filter_cons_True by done. cbn [length]. rewrite IH by done.
      replace (ids ∩ ({[Exercise.id ex]} ∪ list_to_set (Exercise.id <$> exs)))
        with ({[Exercise.id ex]} ∪ (ids ∩ list_to_set (Exercise.id <$> exs)) : gset Z)
        by set_solver.
      rewrite (size_union (C:=gset Z) {[Exercise.id ex]}) by set_solver.
      by rewrite size_singleton.
    + rewrite filter_cons_False by done. rewrite IH by done. f_equal. set_solver.
Qed.

Lemma exercises_to_copy (exs : list Exercise.t) ids :
  (if decide (ids ≠ ∅) then filter (λ ex, Exercise.id ex ∈ ids) exs else []) =
  filter (λ ex, Exercise.id ex ∈ ids) exs.
Proof.
  case_decide as Hids; [done|]. subst ids.
  induction exs as [|ex exs IH]; [done|]. by rewrite filter_cons_False by set_solver.
Qed.
(** *** The copies *)

Ltac db_simpl :=
  unfold set_exercises, set_programs, set_workout_templates, set_template_exercises;
  cbn [users exercises programs workout_templates template_exercises sessions set_logs
       personal_bests friend_requests friendships].

Lemma fork_exercises_snoc user exs ex db :
  copy_exercises user (exs ++ [ex]) db =
  (let db' := (copy_exercises user exs db).1 in
   set_exercises db'
     (exercises db' ++
      [Exercise.mk (db_fresh (exercises db')) (User.id user) (Exercise.name ex)
         (Exercise.muscle_group ex) (Exercise.type ex) (Exercise.equipment ex)
         (Exercise.notes ex)]),
   <[Exercise.id ex := db_fresh (exercises (copy_exercises user exs db).1)]>
     (copy_exercises user exs db).2).
Proof.
  unfold copy_exercises at 1. rewrite foldl_app. fold (copy_exercises user exs db).
  by destruct (copy_exercises user exs db) as [db' m].
Qed.

Lemma fork_exercises_spec user exs db :
  ∃ news,
    (copy_exercises user exs db).1 = set_exercises db (exercises db ++ news) ∧
    Forall2 (exercise_forked (User.id user)) exs news ∧
    Forall (λ ex', db_fresh (exercises db) ≤ Exercise.id ex') news ∧
    (∀ old new, (copy_exercises user exs db).2 !! old = Some new →
       ∃ ex ex', ex ∈ exs ∧ ex' ∈ news ∧ Exercise.id ex = old ∧ Exercise.id ex' = new ∧
                 exercise_forked (User.id user) ex ex') ∧
    (∀ ex, ex ∈ exs → is_Some ((copy_exercises user exs db).2 !! Exercise.id ex)).
Proof.
  induction exs as [|ex exs (news & Hdb & Hforked & Hfresh & Hmap & Hdom)] using rev_ind.
  - exists []. split_and!; try done.
    + db_simpl. rewrite app_nil_r. by destruct db.
    + intros ex Hin. inversion Hin.
  - rewrite fork_exercises_snoc. cbn [fst snd]. cbv zeta. rewrite Hdb.
    set (new_ex := Exercise.mk _ _ _ _ _ _ _).
    exists (news ++ [new_ex]). split_and!.
    + db_simpl. by rewrite <- app_assoc.
    + apply Forall2_app; [done|]. by repeat constructor.
    + apply Forall_app. split; [done|]. apply Forall_singleton.
      subst new_ex. cbn [Exercise.id]. db_simpl. apply db_fresh_app.
    + intros old new. destruct (decide (Exercise.id ex = old)) as [<-|Hne].
      * rewrite lookup_insert_eq. intros [= <-]. exists ex, new_ex.
        split_and!; first [done | set_solver | by repeat split].
      * rewrite lookup_insert_ne by done. intros Hold.
        destruct (Hmap old new Hold) as (e & e' & ? & ? & ? & ? & ?).
        exists e, e'. split_and!; try done; set_solver.
    + intros e Hin. destruct (decide (Exercise.id ex = Exercise.id e)) as [Heq|Hne].
      * rewrite Heq, lookup_insert_eq. by eexists.
      * rewrite lookup_insert_ne by done. apply Hdom.
        apply elem_of_app in Hin as [Hin|Hin]; [done|].
        apply list_elem_of_singleton in Hin. by subst.
Qed.

Lemma fork_rows_snoc new_tpl m rows row db :
  copy_rows new_tpl m (rows ++ [row]) db =
  (let '(db', new_rows) := copy_rows new_tpl m rows db in
   match m !! TemplateExercise.exercise_id row with
   | Some mapped_ex_id =>
       if decide (mapped_ex_id = 0) then (db', new_rows)
       else
         let new_row := TemplateExercise.mk (db_fresh (template_exercises db'))
                          (WorkoutTemplate.id new_tpl) mapped_ex_id
                          (TemplateExercise.planned_sets row) (TemplateExercise.reps row)
                          (TemplateExercise.planned_weight row) (TemplateExercise.rpe row)
                          (TemplateExercise.rest row) (TemplateExercise.comment row) in
         (set_template_exercises db' (template_exercises db' ++ [new_row]),
          new_rows ++ [new_row])
   | None => (db', new_rows)
   end).
Proof.
  unfold copy_rows at 1. rewrite foldl_app. fold (copy_rows new_tpl m rows db).
  by destruct (copy_rows new_tpl m rows db) as [db' new_rows].
Qed.

(** With every exercise of the rows in the table, each row is copied. *)
Lemma fork_rows_spec new_tpl m rows db :
  (∀ row, row ∈ rows →
     ∃ v, m !! TemplateExercise.exercise_id row = Some v ∧ v ≠ 0) →
  ∃ new_rows,
    copy_rows new_tpl m rows db =
      (set_template_exercises db (template_exercises db ++ new_rows), new_rows) ∧
    Forall2 (row_forked m) rows new_rows.
Proof.
  induction rows as [|row rows IH] using rev_ind; intros Hmapped.
  - exists []. split; [|constructor]. unfold copy_rows. cbn [foldl]. db_simpl.
    rewrite app_nil_r. by destruct db.
  - destruct IH as (new_rows & Hcopy & Hforked); [intros r Hr; apply Hmapped; set_solver|].
    rewrite fork_rows_snoc, Hcopy.
    destruct (Hmapped row) as (v & Hv & Hv0); [set_solver|].
    rewrite Hv, decide_False by done. cbv zeta.
    eexists. split.
    + db_simpl. by rewrite <- app_assoc.
    + apply Forall2_app; [done|]. by repeat constructor.
Qed.

Lemma fork_templates_snoc user np rbt m templates tpl db :
  copy_templates user np rbt m (templates ++ [tpl]) db =
  (let '(db', new_templates) := copy_templates user np rbt m templates db in
   let new_tpl := WorkoutTemplate.mk (db_fresh (workout_templates db'))
                    (Program.id np) (User.id user) (WorkoutTemplate.name tpl) in
   let db' := set_workout_templates db' (workout_templates db' ++ [new_tpl]) in
   let '(db', new_rows) :=
     copy_rows new_tpl m (default [] (rbt !! WorkoutTemplate.id tpl)) db' in
   (db', new_templates ++ [(new_tpl, new_rows)])).
Proof.
  unfold copy_templates at 1. rewrite foldl_app. fold (copy_templates user np rbt m templates db).
  by destruct (copy_templates user np rbt m templates db) as [db' new_templates].
Qed.

Lemma fork_templates_spec user np rbt m (rows_of : Z → list TemplateExercise.t) templates db :
  (∀ tpl, tpl ∈ templates →
     rbt !! WorkoutTemplate.id tpl = Some (rows_of (WorkoutTemplate.id tpl))) →
  (∀ tpl row, tpl ∈ templates → row ∈ rows_of (WorkoutTemplate.id tpl) →
     ∃ v, m !! TemplateExercise.exercise_id row = Some v ∧ v ≠ 0) →
  ∃ new_tpls new_rows,
    (copy_templates user np rbt m templates db).1 =
      set_template_exercises
        (set_workout_templates db (workout_templates db ++ new_tpls))
        (template_exercises db ++ new_rows) ∧
    length new_tpls = length templates ∧
    Forall (λ t, WorkoutTemplate.program_id t = Program.id np ∧
                 WorkoutTemplate.owner_id t = User.id user) new_tpls ∧
    Forall2 (row_forked m) (templates ≫= λ tpl, rows_of (WorkoutTemplate.id tpl)) new_rows.
Proof.
  induction templates as [|tpl templates IH] using rev_ind; intros Hrbt Hmapped.
  - exists [], []. split_and!; [|done|constructor|constructor].
    unfold copy_templates. cbn [foldl fst]. db_simpl. rewrite !app_nil_r. by destruct db.
  - destruct IH as (new_tpls & new_rows & Hdb & Hlen & Hown & Hforked).
    { intros t Ht. apply Hrbt. set_solver. }
    { intros t row Ht. apply Hmapped. set_solver. }
    rewrite fork_templates_snoc.
    destruct (copy_templates user np rbt m templates db) as [db' new_templates].
    cbn [fst] in Hdb. subst db'. cbv zeta.
    rewrite Hrbt by set_solver. cbn [default].
    match goal with
    | |- context [copy_rows ?t m ?r ?d] =>
        destruct (fork_rows_spec t m r d) as (rows' & Hrows & Hforked');
        [intros row Hrow; apply (Hmapped tpl); [set_solver|done]|];
        set (new_tpl := t) in *
    end.
    rewrite Hrows. cbn [fst].
    exists (new_tpls ++ [new_tpl]), (new_rows ++ rows'). split_and!.
    + db_simpl. by rewrite <- !app_assoc.
    + rewrite !length_app. simpl. lia.
    + apply Forall_app. split; [done|]. by apply Forall_singleton.
    + rewrite bind_app. apply Forall2_app; [done|]. simpl. by rewrite app_nil_r.
Qed.
End fork_facts.

(** C5.  A user forks a public program of somebody else whose rows all point
    at exercises that are in the table (the primary key of the exercises
    being unique).  With N the number of rows of the program's templates and
    M the number of distinct exercises they point at, the fork succeeds and

    - adds one program, owned by the forker, with visibility private,
      [is_public] false and version 1, whatever the source has;
    - adds exactly M exercises, all owned by the forker and each under an
      identifier no exercise had before;
    - adds exactly N rows, one per source row and in their order, with the
      planning fields of the source row and, as exercise, what the remap
      table gives for the source row's exercise, which is one of the M new
      exercises;
    - the remap table sends the identifier of a source exercise to the
      identifier of its copy. *)
Theorem fork_deep_copies_exercises :
  ∀ program_id user db source,
    db_get program_id (Api.programs db) = Some source →
    Api.Program.owner_id source ≠ Api.User.id user →
    Api.Program.is_public source = true →
    unique_ids (Api.exercises db) →
    (∀ row, row ∈ Api.program_rows db (Api.Program.id source) →
       ∃ ex, ex ∈ Api.exercises db ∧
             Api.Exercise.id ex = Api.TemplateExercise.exercise_id row) →
    ∃ db' new_program new_templates new_exercises new_rows (new_ex_map : gmap Z Z),
      Api.copy_program_from_public program_id user db =
        Ok (db', (new_program, new_templates)) ∧
      Api.programs db' = Api.programs db ++ [new_program] ∧
      Api.Program.owner_id new_program = Api.User.id user ∧
      Api.Program.visibility new_program = "private" ∧
      Api.Program.is_public new_program = false ∧
      Api.Program.version new_program = 1 ∧
      Api.exercises db' = Api.exercises db ++ new_exercises ∧
      length new_exercises =
        size (list_to_set (Api.TemplateExercise.exercise_id <$>
                           Api.program_rows db (Api.Program.id source)) : gset Z) ∧
      Forall (λ ex', Api.Exercise.owner_id ex' = Api.User.id user ∧
                     ∀ ex, ex ∈ Api.exercises db → Api.Exercise.id ex ≠ Api.Exercise.id ex')
             new_exercises ∧
      Api.template_exercises db' = Api.template_exercises db ++ new_rows ∧
      length new_rows = length (Api.program_rows db (Api.Program.id source)) ∧
      Forall2 (Api.row_forked new_ex_map)
              (Api.program_rows db (Api.Program.id source)) new_rows ∧
      Forall (λ row', ∃ ex', ex' ∈ new_exercises ∧
                             Api.TemplateExercise.exercise_id row' = Api.Exercise.id ex')
             new_rows ∧
      (∀ old new, new_ex_map !! old = Some new →
         ∃ ex ex', ex ∈ Api.exercises db ∧ ex' ∈ new_exercises ∧
                   Api.Exercise.id ex = old ∧ Api.Exercise.id ex' = new ∧
                   Api.exercise_forked (Api.User.id user) ex ex').
Proof.
  intros pid user db source Hget Hother Hpublic Hnd Hexist.
  unfold Api.copy_program_from_public. rewrite Hget. cbn [mbind result_bind or_raise].
  rewrite decide_False by (rewrite Hpublic; by intros [_ ?]).
  fold (Api.program_templates db (Api.Program.id source)).
  destruct (scan_templates_spec db (Api.program_templates db (Api.Program.id source)))
    as [Hrbt Hids].
  destruct (Api.scan_templates db _) as [rows_by_tpl exercise_ids].
  cbn [fst snd] in Hrbt, Hids. fold (Api.program_rows db (Api.Program.id source)) in Hids.
  rewrite exercises_to_copy.
  set (exs := filter (λ ex, Api.Exercise.id ex ∈ exercise_ids) (Api.exercises db)).
  set (new_program := Api.Program.mk _ _ _ _ _ _ _ _ _ _).
  set (db_p := Api.set_programs db (Api.programs db ++ [new_program])).
  destruct (fork_exercises_spec user exs db_p)
    as (news & Hdb_e & Hforked & Hfresh & Hmap & Hdom).
  destruct (Api.copy_exercises user exs db_p) as [db_e new_ex_map].
  cbn [fst snd] in Hdb_e, Hmap, Hdom. subst db_e.
  assert (∀ ex, ex ∈ exs → ex ∈ Api.exercises db) as Hexs.
  { intros ex Hex. by apply list_elem_of_filter in Hex as [_ ?]. }
  assert (∀ tpl row, tpl ∈ Api.program_templates db (Api.Program.id source) →
            row ∈ Api.template_rows db (Api.WorkoutTemplate.id tpl) →
            ∃ v, new_ex_map !! Api.TemplateExercise.exercise_id row = Some v ∧ v ≠ 0)
    as Hmapped.
  { intros tpl row Htpl Hrow.
    assert (row ∈ Api.program_rows db (Api.Program.id source)) as Hrow'.
    { unfold Api.program_rows. apply list_elem_of_bind. by exists tpl. }
    destruct (Hexist row Hrow') as (ex & Hex & Hid).
    destruct (Hdom ex) as [v Hv].
    { apply list_elem_of_filter. split; [|done]. rewrite Hid, Hids.
      apply elem_of_list_to_set. by apply list_elem_of_fmap_2. }
    exists v. rewrite <- Hid. split; [done|].
    destruct (Hmap _ _ Hv) as (_ & ex' & _ & Hex' & _ & <- & _).
    rewrite Forall_forall in Hfresh. specialize (Hfresh ex' Hex').
    pose proof (db_fresh_pos (Api.exercises db_p)). lia. }
  destruct (fork_templates_spec user new_program rows_by_tpl new_ex_map
              (Api.template_rows db) (Api.program_templates db (Api.Program.id source))
              (Api.set_exercises db_p (Api.exercises db_p ++ news)) Hrbt Hmapped)
    as (new_tpls & new_rows & Hdb_t & Hlen & Hown & Hrows).
  destruct (Api.copy_templates user new_program rows_by_tpl new_ex_map
              (Api.program_templates db (Api.Program.id source))
              (Api.set_exercises db_p (Api.exercises db_p ++ news)))
    as [db_t new_templates].
  cbn [fst] in Hdb_t. subst db_t.
  fold (Api.program_rows db (Api.Program.id source)) in Hrows.
  eexists _, new_program, new_templates, news, new_rows, new_ex_map.
  split; [reflexivity|]. split_and!; try done.
  - assert (exercise_ids ∩ list_to_set (Api.Exercise.id <$> Api.exercises db) = exercise_ids)
      as Hsub.
    { apply set_eq. intros k. rewrite elem_of_intersection, elem_of_list_to_set.
      split; [tauto|]. intros Hk. split; [done|].
      rewrite Hids in Hk. apply elem_of_list_to_set in Hk.
      apply list_elem_of_fmap in Hk as (row & -> & Hrow).
      destruct (Hexist row Hrow) as (ex & Hex & <-). by apply list_elem_of_fmap_2. }
    rewrite <- (Forall2_length _ _ _ Hforked). unfold exs.
    rewrite filter_in_set_length by done. by rewrite Hsub, Hids.
  - rewrite Forall_forall in *. intros ex' Hex'. split.
    + assert (∃ ex, Api.exercise_forked (Api.User.id user) ex ex') as [ex Hf].
      { apply list_elem_of_lookup in Hex' as [i Hi].
        destruct (Forall2_lookup_r _ _ _ _ _ Hforked Hi) as (ex & _ & Hf). by exists ex. }
      by destruct Hf.
    + intros ex Hex. specialize (Hfresh ex' Hex').
      pose proof (db_fresh_gt (Api.exercises db) ex Hex) as Hlt.
      change (row_id ex) with (Api.Exercise.id ex) in Hlt.
      assert (db_fresh (Api.exercises db) = db_fresh (Api.exercises db_p)) as Heq by done.
      lia.
  - symmetry. by apply (Forall2_length _ _ _ Hrows).
  - rewrite Forall_forall. intros row' Hrow'.
    apply list_elem_of_lookup in Hrow' as [i Hi].
    destruct (Forall2_lookup_r _ _ _ _ _ Hrows Hi) as (row & _ & Hrow & _).
    destruct (Hmap _ _ Hrow) as (_ & ex' & _ & Hex' & _ & Hid & _). by exists ex'.
  - intros old new Hold. destruct (Hmap _ _ Hold) as (ex & ex' & Hex & Hex' & ? & ? & ?).
    exists ex, ex'. split_and!; try done. by apply Hexs.
Qed.

Lemma fork_deep_copies_exercises_witness :
  ∃ db' new_program new_templates new_exercises new_rows,
    Api.copy_program_from_public 1 Sample.bob Sample.db0 =
      Ok (db', (new_program, new_templates)) ∧
    Api.Program.version new_program = 1 ∧
    Api.exercises db' = Api.exercises Sample.db0 ++ new_exercises ∧
    length new_exercises = 2%nat ∧
    Api.template_exercises db' = Api.template_exercises Sample.db0 ++ new_rows ∧
    length new_rows = 3%nat.
Proof.
  destruct (fork_deep_copies_exercises 1 Sample.bob Sample.db0 Sample.base_program)
    as (db' & np & nts & nex & nrows & m & Hcopy & _ & _ & _ & _ & Hv & Hex & Hm & _
        & Hrows & Hn & _).
  - reflexivity.
  - simpl. lia.
  - reflexivity.
  - by apply (bool_decide_unpack _).
  - intros row Hrow.
    change (Api.program_rows Sample.db0 (Api.Program.id Sample.base_program))
      with Sample.push_rows in Hrow.
    unfold Sample.push_rows in Hrow.
    apply elem_of_cons in Hrow as [->|Hrow]; [exists Sample.bench; split; [by left|done]|].
    apply elem_of_cons in Hrow as [->|Hrow]; [exists Sample.bench; split; [by left|done]|].
    apply list_elem_of_singleton in Hrow as ->.
    exists Sample.squat. split; [right; by left|done].
  - exists db', np, nts, nex, nrows. split_and!; try done.
Defined.

(** The copy drops a row whose exercise is gone: of the four rows of the
    source three are copied, for its two exercises that are left. *)
Example fork_drops_dangling_rows :
  ∃ db' response,
    Api.copy_program_from_public 1 Sample.bob Sample.db_dangling = Ok (db', response) ∧
    length (Api.program_rows Sample.db_dangling 1) = 4%nat ∧
    length (Api.template_exercises db') = (4 + 3)%nat ∧
    length (Api.exercises db') = (2 + 2)%nat.
Proof. eexists _, _. split_and!; reflexivity. Qed.

(** ** C9: copying a program *)

Section owner_copy_facts.
Import Api.

Lemma foldl_fst_preserves {A B C D} (f : A * C → B → A * C) (proj : A → D)
    (l : list B) (a : A) (c : C) :
  (∀ a c b, proj (f (a, c) b).1 = proj a) → proj (foldl f (a, c) l).1 = proj a.
Proof.
  intros Hf. revert a c. induction l as [|b l IH]; intros a c; [done|].
  cbn [foldl]. specialize (Hf a c b). destruct (f (a, c) b) as [a' c'].
  by rewrite IH.
Qed.

(** The copy of the templates and of their rows adds no exercise. *)
Lemma copy_templates_exercises user np rbt m templates db :
  exercises (copy_templates user np rbt m templates db).1 = exercises db.
Proof.
  unfold copy_templates. apply (foldl_fst_preserves _ exercises).
  intros d new_templates tpl. cbv zeta.
  match goal with
  | |- context [copy_rows ?t m ?r ?d'] =>
      assert (exercises (copy_rows t m r d').1 = exercises d) as Hrows;
      [|by destruct (copy_rows t m r d')]
  end.
  unfold copy_rows. rewrite (foldl_fst_preserves _ exercises); [done|].
  intros d' new_rows row.
  destruct (m !! TemplateExercise.exercise_id row) as [v|]; [|done].
  by case_decide.
Qed.

Lemma owner_copy_spec program_id user db source :
  db_get program_id (programs db) = Some source →
  Program.owner_id source = User.id user →
  ∃ db' new_program new_templates new_exercises,
    copy_program_from_public program_id user db = Ok (db', (new_program, new_templates)) ∧
    new_program =
      Program.mk (db_fresh (programs db)) (User.id user)
        (Program.name source) (Program.description source)
        (Program.start_date source) (Program.end_date source)
        (Program.status source) 1 "private" false ∧
    exercises db' = exercises db ++ new_exercises ∧
    Forall2 (exercise_forked (User.id user))
      (filter (λ ex, Exercise.id ex ∈
                       TemplateExercise.exercise_id <$> program_rows db (Program.id source))
              (exercises db))
      new_exercises.
Proof.
  intros Hget Hown.
  unfold copy_program_from_public. rewrite Hget. cbn [mbind result_bind or_raise].
  rewrite decide_False by (by intros [? _]).
  fold (program_templates db (Program.id source)).
  destruct (scan_templates_spec db (program_templates db (Program.id source)))
    as [_ Hids].
  destruct (scan_templates db _) as [rows_by_tpl exercise_ids].
  cbn [snd] in Hids. fold (program_rows db (Program.id source)) in Hids.
  rewrite exercises_to_copy. rewrite (decide_False (P := _ ≠ _)) by (by intros ?).
  set (exs := filter (λ ex, Exercise.id ex ∈ exercise_ids) (exercises db)).
  set (new_program := Program.mk _ _ _ _ _ _ _ _ _ _).
  set (db_p := set_programs db (programs db ++ [new_program])).
  destruct (fork_exercises_spec user exs db_p) as (news & Hdb_e & Hforked & _).
  destruct (copy_exercises user exs db_p) as [db_e new_ex_map].
  cbn [fst] in Hdb_e. subst db_e.
  pose proof (copy_templates_exercises user new_program rows_by_tpl new_ex_map
                (program_templates db (Program.id source))
                (set_exercises db_p (exercises db_p ++ news))) as Hexs.
  destruct (copy_templates user new_program rows_by_tpl new_ex_map _ _)
    as [db_t new_templates].
  cbn [fst] in Hexs. eexists db_t, new_program, new_templates, news.
  split_and!; [done|done|by rewrite Hexs|].
  replace (filter _ (exercises db)) with exs; [done|].
  unfold exs. apply list_filter_iff. intros ex. by rewrite Hids, elem_of_list_to_set.
Qed.
End owner_copy_facts.

(** The service has one copy, [copy_program_from_public].  Called by the
    owner of the program it copies the exercises as well (the three new rows
    point at the copies 9 and 10 of the exercises 7 and 8) and keeps the
    status of the source.  In the prototype a drawn identifier can be one that
    is in use (here every draw returns 3, the identifier of a template), and a
    draw that returns the identifier of the source program keeps
    [copy_program] from returning, whatever the fuel. *)
Lemma copy_duplicates_exercises_or_identifiers :
  (∃ db' new_program new_templates,
     Api.Program.owner_id Sample.base_program = Api.User.id Sample.alice ∧
     Api.copy_program_from_public 1 Sample.alice Sample.db0 =
       Ok (db', (new_program, new_templates)) ∧
     Api.Program.status Sample.base_program = "archived" ∧
     Api.Program.status new_program = "archived" ∧
     Api.exercises db' =
       Api.exercises Sample.db0 ++
       [Api.Exercise.mk 9 1 "Bench press" "Chest" "strength" "barbell" "";
        Api.Exercise.mk 10 1 "Squat" "Legs" "strength" "barbell" ""] ∧
     Api.TemplateExercise.exercise_id <$> Api.template_exercises Sample.db0 = [7; 7; 8] ∧
     Api.TemplateExercise.exercise_id <$> Api.template_exercises db' = [7; 7; 8; 9; 9; 10]) ∧
  (∃ db' k',
     Gym.copy_program (λ _, 3%nat) 7 (Gym.mkCopyArgs 1%nat (Some "Base II") 5 "2024-04-01" "")
       GymSample.db0 20 = Some (Ok (db', k')) ∧
     Gym.Template.id <$> Gym.workout_templates GymSample.db0 = [3; 10; 6]%nat ∧
     Gym.Template.id <$> Gym.workout_templates db' = [3; 10; 6; 3; 3]%nat) ∧
  (∀ fuel,
     Gym.copy_program (λ _, 1%nat) fuel
       (Gym.mkCopyArgs 1%nat (Some "Base II") 5 "2024-04-01" "") GymSample.db0 20 = None).
Proof.
  split_and!.
  - eexists _, _, _. split_and!; reflexivity.
  - eexists _, _. split_and!; reflexivity.
  - intros fuel.
    pose proof (copy_templates_runs_on (λ _, 1%nat) 1%nat fuel 0
                  (Gym.workout_templates GymSample.db0) 21 0%nat GymSample.push_day
                  (le_n 0) eq_refl eq_refl) as Hloop.
    unfold Gym.copy_program.
    match goal with
    | |- context [Gym.require_id ?l ?i ?s] =>
        change (Gym.require_id l i s)
          with (Ok (0%nat, GymSample.base_program) : result system_exit (nat * Gym.Program.t))
    end.
    cbn -[Gym.copy_templates].
    match goal with
    | |- context [Gym.copy_templates ?d ?f ?i ?p ?n ?t ?k] =>
        replace (Gym.copy_templates d f i p n t k)
          with (@None (list Gym.Template.t * nat)) by (symmetry; exact Hloop)
    end.
    done.
Qed.

(** C9 (as amended).  [copy_program] of the prototype, given a program of
    the document, a draw for the new program that is not the identifier of
    the source and enough fuel for the walk over the templates (twice their
    number is enough), returns, and the document it saves is the old one with
    one more program and the copies of that program's templates appended;
    exercises, sessions and personal bests are those of the old document, so
    no exercise is added.  The new program has the drawn identifier, the
    caller's name (or the old one with " (copy)"), version and dates, the old
    description and status active.  The copies are, in order, those of the
    templates of the source program: each belongs to the new program and has
    the name of its source and its rows one by one, every field of a row
    equal to that of the source row but the identifier, the exercise
    included.  The identifiers of the new program, of the copies and of their
    rows are the next draws, in this order: they are as new as the draws
    are (part 1).  The service has no copy of this kind:
    [copy_program_from_public] called by the owner of the program succeeds
    whatever the program's visibility, keeps the name and the status of the
    source, and appends a copy of every stored exercise that a row of the
    program points at (part 2). *)
Theorem copy_program_shares_exercises :
  (∀ draw fuel args db k i program,
    Gym.find_item (Gym.programs db) (Gym.a_program_id args) = Some (i, program) →
    draw k ≠ Gym.Program.id program →
    (2 * length (Gym.workout_templates db) < fuel)%nat →
    ∃ new_program copies k',
      Gym.copy_program draw fuel args db k =
        Some (Ok (Gym.mkDB (Gym.exercises db) (Gym.programs db ++ [new_program])
                    (Gym.workout_templates db ++ copies) (Gym.sessions db)
                    (Gym.personal_bests db), k')) ∧
      new_program =
        Gym.Program.mk (draw k)
          (match Gym.a_name args with
           | Some (String c s) => String c s
           | _ => (Gym.Program.name program ++ " (copy)")%string
           end)
          (Gym.Program.description program) (Gym.a_start_date args) (Gym.a_end_date args)
          "active" (Gym.a_version args) ∧
      Forall2 (λ tpl tpl',
                 Gym.Template.program_id tpl' = draw k ∧
                 Gym.Template.name tpl' = Gym.Template.name tpl ∧
                 Forall2 (λ row row',
                            Gym.ExerciseRow.exercise_id row' = Gym.ExerciseRow.exercise_id row ∧
                            Gym.ExerciseRow.planned_sets row' = Gym.ExerciseRow.planned_sets row ∧
                            Gym.ExerciseRow.reps row' = Gym.ExerciseRow.reps row ∧
                            Gym.ExerciseRow.planned_weight row' =
                              Gym.ExerciseRow.planned_weight row ∧
                            Gym.ExerciseRow.rpe row' = Gym.ExerciseRow.rpe row ∧
                            Gym.ExerciseRow.rest row' = Gym.ExerciseRow.rest row ∧
                            Gym.ExerciseRow.comment row' = Gym.ExerciseRow.comment row)
                   (Gym.Template.exercises tpl) (Gym.Template.exercises tpl'))
        (filter (λ t, Gym.Template.program_id t = Gym.Program.id program)
                (Gym.workout_templates db))
        copies ∧
      Gym.Program.id new_program :: (copies ≫= Gym.template_ids) = draw <$> seq k (k' - k) ∧
      (k < k')%nat) ∧
  (∀ program_id user db source,
     db_get program_id (Api.programs db) = Some source →
     Api.Program.owner_id source = Api.User.id user →
     ∃ db' new_program new_templates new_exercises,
       Api.copy_program_from_public program_id user db =
         Ok (db', (new_program, new_templates)) ∧
       new_program =
         Api.Program.mk (db_fresh (Api.programs db)) (Api.User.id user)
           (Api.Program.name source) (Api.Program.description source)
           (Api.Program.start_date source) (Api.Program.end_date source)
           (Api.Program.status source) 1 "private" false ∧
       Api.exercises db' = Api.exercises db ++ new_exercises ∧
       Forall2 (λ ex ex',
                  Api.Exercise.owner_id ex' = Api.User.id user ∧
                  Api.Exercise.name ex' = Api.Exercise.name ex ∧
                  Api.Exercise.muscle_group ex' = Api.Exercise.muscle_group ex ∧
                  Api.Exercise.type ex' = Api.Exercise.type ex ∧
                  Api.Exercise.equipment ex' = Api.Exercise.equipment ex ∧
                  Api.Exercise.notes ex' = Api.Exercise.notes ex)
         (filter (λ ex, Api.Exercise.id ex ∈
                          Api.TemplateExercise.exercise_id <$>
                            Api.program_rows db (Api.Program.id source))
                 (Api.exercises db))
         new_exercises).
Proof.
  split; [|apply owner_copy_spec].
  intros draw fuel args db k i program Hfind Hne Hfuel.
  unfold Gym.copy_program, Gym.require_id. rewrite Hfind.
  cbn [or_raise Gym.gen_id Gym.Program.id].
  pose proof (copy_templates_refines draw (Gym.Program.id program) (draw k)
                (Gym.workout_templates db) [] [] (S k) fuel Hne) as Href.
  pose proof (copied_templates_length draw (Gym.Program.id program) (draw k)
                (Gym.workout_templates db) (S k)) as Hlen.
  destruct (copied_templates_spec draw (Gym.Program.id program) (draw k)
              (Gym.workout_templates db) (S k)) as (Hcopied & Hids & Hle).
  destruct (Gym.copied_templates draw (Gym.Program.id program) (draw k)
              (Gym.workout_templates db) (S k)) as [copies k'].
  cbn [fst snd length app] in *. rewrite app_nil_r in Href.
  rewrite Href; [|constructor|lia]. cbn [mbind option_bind].
  eexists _, copies, k'. split_and!; [reflexivity|reflexivity|exact Hcopied| |lia].
  cbn [Gym.Program.id]. rewrite Hids.
  replace (k' - k)%nat with (S (k' - S k)) by lia. done.
Qed.

Lemma copy_program_shares_exercises_witness :
  ∃ new_program copies k',
    Gym.copy_program GymSample.draw 7
      (Gym.mkCopyArgs 1%nat (Some "Base II") 5 "2024-04-01" "") GymSample.db0 20 =
      Some (Ok (Gym.mkDB (Gym.exercises GymSample.db0)
                  (Gym.programs GymSample.db0 ++ [new_program])
                  (Gym.workout_templates GymSample.db0 ++ copies)
                  (Gym.sessions GymSample.db0) (Gym.personal_bests GymSample.db0), k')) ∧
    new_program = Gym.Program.mk 120%nat "Base II" "Three days" "2024-04-01" "" "active" 5 ∧
    (λ tpl : Gym.Template.t, Gym.ExerciseRow.exercise_id <$> Gym.Template.exercises tpl)
      <$> copies = [[7; 7]; [8]]%nat ∧
    (20 < k')%nat.
Proof.
  destruct (proj1 copy_program_shares_exercises GymSample.draw 7%nat
              (Gym.mkCopyArgs 1%nat (Some "Base II") 5 "2024-04-01" "") GymSample.db0
              20%nat 0%nat GymSample.base_program eq_refl ltac:(vm_compute; lia) ltac:(simpl; lia))
    as (new_program & copies & k' & Hcopy & Hnew & _ & _ & Hlt).
  exists new_program, copies, k'. split; [exact Hcopy|]. split; [exact Hnew|].
  split; [|exact Hlt].
  vm_compute in Hcopy. injection Hcopy as _ Hcopies _. by subst copies.
Defined.

(** ** Lists *)

Lemma filter_none {A} (P : A → Prop) `{∀ x, Decision (P x)} (l : list A) :
  (∀ x, x ∈ l → ¬ P x) → filter P l = [].
Proof.
  induction l as [|a l IH]; intros Hno; [done|].
  rewrite filter_cons_False by (apply Hno; left).
  apply IH. intros x Hx. apply Hno. by right.
Qed.

Lemma filter_contradiction {A} (P Q : A → Prop) `{∀ x, Decision (P x)} `{∀ x, Decision (Q x)}
    (l : list A) :
  (∀ x, P x → Q x → False) → filter P (filter Q l) = [].
Proof.
  intros Hpq. apply filter_none. intros x Hx Hp.
  apply list_elem_of_filter in Hx as [Hq _]. by apply (Hpq x).
Qed.

(** ** Deleting rows *)

Section delete_facts.
Context {A : Type} `{Row A}.
Implicit Types (l xs : list A) (x y : A).

Lemma filter_ext_elem_of (P Q : A → Prop) `{∀ x, Decision (P x)} `{∀ x, Decision (Q x)} l :
  (∀ x, x ∈ l → P x ↔ Q x) → filter P l = filter Q l.
Proof.
  induction l as [|a l IH]; intros Hext; [done|].
  assert (P a ↔ Q a) as Ha by (apply Hext; left).
  assert (filter P l = filter Q l) as IH' by (apply IH; intros x Hx; apply Hext; by right).
  destruct (decide (P a)) as [Hp|Hp].
  - rewrite (filter_cons_True P), (filter_cons_True Q); [by f_equal|tauto..].
  - rewrite (filter_cons_False P), (filter_cons_False Q); [done|tauto..].
Qed.

Lemma filter_all (P : A → Prop) `{∀ x, Decision (P x)} l :
  (∀ x, x ∈ l → P x) → filter P l = l.
Proof.
  induction l as [|a l IH]; intros Hall; [done|].
  rewrite filter_cons_True by (apply Hall; left).
  f_equal. apply IH. intros x Hx. apply Hall. by right.
Qed.

(** Deleting the rows [xs] one by one leaves the rows whose key is none of
    theirs. *)
Lemma db_delete_all xs l :
  foldl (λ t x, db_delete (row_id x) t) l xs = filter (λ y, row_id y ∉ row_id <$> xs) l.
Proof.
  revert l. induction xs as [|x xs IH]; intros l; simpl.
  - symmetry. apply filter_all. intros y _. apply not_elem_of_nil.
  - rewrite IH. unfold db_delete. rewrite list_filter_filter.
    apply list_filter_iff. intros y. rewrite not_elem_of_cons. tauto.
Qed.

(** With a unique key, deleting the rows a query selected leaves the rows
    the query did not select. *)
Lemma db_delete_selected (P : A → Prop) `{∀ x, Decision (P x)} l :
  unique_ids l →
  filter (λ y, row_id y ∉ row_id <$> filter P l) l = filter (λ y, ¬ P y) l.
Proof.
  intros Hnd. apply filter_ext_elem_of. intros y Hy. split.
  - intros Hnot Hp. apply Hnot. apply list_elem_of_fmap_2. by apply list_elem_of_filter.
  - intros Hnp Hin. apply list_elem_of_fmap in Hin as (z & Hid & Hz).
    apply list_elem_of_filter in Hz as [Hpz Hz].
    assert (y = z) as -> by by apply (unique_ids_eq l). done.
Qed.

Lemma unique_ids_filter (P : A → Prop) `{∀ x, Decision (P x)} l :
  unique_ids l → unique_ids (filter P l).
Proof.
  unfold unique_ids. induction l as [|a l IH]; intros Hnd; [done|].
  rewrite fmap_cons in Hnd. apply NoDup_cons in Hnd as [Ha Hnd].
  destruct (decide (P a)).
  - rewrite filter_cons_True by done. rewrite fmap_cons. apply NoDup_cons. split; [|by apply IH].
    intros Hin. apply Ha. apply list_elem_of_fmap in Hin as (z & -> & Hz).
    apply list_elem_of_filter in Hz as [_ Hz]. by apply list_elem_of_fmap_2.
  - rewrite filter_cons_False by done. by apply IH.
Qed.

Lemma db_get_None k l : db_get k l = None ↔ ∀ x, x ∈ l → row_id x ≠ k.
Proof.
  unfold db_get. rewrite head_None. split.
  - intros Hnil x Hx Hk. by apply (filter_nil_not_elem_of _ _ x Hnil).
  - intros Hno. destruct (filter _ l) as [|x l'] eqn:Hf; [done|]. exfalso.
    assert (x ∈ x :: l') as Hin by left. rewrite <- Hf in Hin.
    apply list_elem_of_filter in Hin as [Hk Hin]. by apply (Hno x).
Qed.

Lemma db_get_deleted k l : db_get k (db_delete k l) = None.
Proof.
  apply db_get_None. intros x Hx. unfold db_delete in Hx.
  by apply list_elem_of_filter in Hx as [Hk _].
Qed.

(** A row appended under the next key is found under it. *)
Lemma db_get_fresh l x : row_id x = db_fresh l → db_get (row_id x) (l ++ [x]) = Some x.
Proof.
  intros Hx. apply head_filter_snoc_None; [|done].
  apply (db_get_None (row_id x) l). intros y Hy. apply db_fresh_gt in Hy. lia.
Qed.

Lemma db_delete_fresh l x : row_id x = db_fresh l → db_delete (row_id x) (l ++ [x]) = l.
Proof.
  intros Hx. unfold db_delete. rewrite filter_app.
  rewrite filter_cons_False by (by intros Hne).
  rewrite filter_nil, app_nil_r. apply filter_all.
  intros y Hy. apply db_fresh_gt in Hy. lia.
Qed.
End delete_facts.

(** ** Sessions of the service: cancelling, deleting, clearing *)

Section session_facts.
Import Api.
Implicit Types (db : DB) (user : User.t) (logs : list SetLog.t) (ss : list Session.t).

Lemma delete_logs_spec logs db :
  foldl (λ db log, set_set_logs db (db_delete (SetLog.id log) (set_logs db))) db logs =
  set_set_logs db (filter (λ l, SetLog.id l ∉ SetLog.id <$> logs) (set_logs db)).
Proof.
  transitivity (set_set_logs db (foldl (λ t x, db_delete (row_id x) t) (set_logs db) logs)).
  - revert db. induction logs as [|log logs IH]; intros db; simpl.
    + by destruct db.
    + rewrite IH. by destruct db.
  - by rewrite db_delete_all.
Qed.

(** The sets of a session are deleted, those of the other sessions stay. *)
Lemma delete_session_logs (sid : Z) db :
  unique_ids (set_logs db) →
  foldl (λ db log, set_set_logs db (db_delete (SetLog.id log) (set_logs db))) db
        (filter (λ l, SetLog.session_id l = sid) (set_logs db)) =
  set_set_logs db (filter (λ l, SetLog.session_id l ≠ sid) (set_logs db)).
Proof.
  intros Hnd. rewrite delete_logs_spec. f_equal.
  exact (db_delete_selected (λ l, SetLog.session_id l = sid) (set_logs db) Hnd).
Qed.

Lemma ensure_owner_Ok owner user : ensure_owner owner user = Ok () ↔ owner = User.id user.
Proof.
  unfold ensure_owner. case_decide as Hne; split; done.
Qed.

(** One turn of the loop of [clear_active_sessions], and the whole loop. *)
Lemma clear_active_loop ss db (cleared : Z) :
  unique_ids (set_logs db) →
  foldl (λ '(db, cleared) sess,
        let logs := filter (λ l, SetLog.session_id l = Session.id sess) (set_logs db) in
        let db := foldl (λ db log, set_set_logs db (db_delete (SetLog.id log) (set_logs db)))
                        db logs in
        let db := set_sessions db (db_delete (Session.id sess) (sessions db)) in
        (db, cleared + 1))
      (db, cleared) ss =
  (set_sessions
     (set_set_logs db (filter (λ l, SetLog.session_id l ∉ Session.id <$> ss) (set_logs db)))
     (filter (λ s, Session.id s ∉ Session.id <$> ss) (sessions db)),
   cleared + Z.of_nat (length ss)).
Proof.
  revert db cleared. induction ss as [|s ss IH]; intros db cleared Hnd.
  - simpl. f_equal; [|lia]. destruct db. unfold set_sessions, set_set_logs. simpl.
    f_equal; symmetry; apply filter_all; intros ? _; apply not_elem_of_nil.
  - cbn [foldl]. cbv zeta. rewrite (delete_session_logs (Session.id s) db Hnd).
    rewrite IH.
    + f_equal; [|rewrite length_cons; lia].
      destruct db. unfold set_sessions, set_set_logs, db_delete. cbn.
      rewrite !list_filter_filter. f_equal.
      * apply list_filter_iff. intros y. rewrite not_elem_of_cons.
        change (row_id y) with (Session.id y). tauto.
      * apply list_filter_iff. intros y. rewrite not_elem_of_cons. tauto.
    + destruct db. cbn. by apply unique_ids_filter.
Qed.
End session_facts.

(** X1.  Cancelling a session of one's own marks it cancelled, deletes its
    sets and nothing else: the sets of the other sessions, the personal bests
    and every other table are as before, and the session is returned with no
    sets. *)
Theorem cancel_session_drops_sets :
  ∀ session_id user db db' sess logs,
    unique_ids (Api.set_logs db) →
    Api.cancel_session session_id user db = Ok (db', (sess, logs)) →
    Api.Session.id sess = session_id ∧
    Api.Session.owner_id sess = Api.User.id user ∧
    Api.Session.status sess = "cancelled" ∧
    logs = [] ∧
    db' = Api.mkDB (Api.users db) (Api.exercises db) (Api.programs db)
            (Api.workout_templates db) (Api.template_exercises db)
            (db_update sess (Api.sessions db))
            (filter (λ l, Api.SetLog.session_id l ≠ session_id) (Api.set_logs db))
            (Api.personal_bests db) (Api.friend_requests db) (Api.friendships db).
Proof.
  intros sid user db db' sess logs Hnd. unfold Api.cancel_session.
  destruct (db_get sid (Api.sessions db)) as [s0|] eqn:Hget; [|done].
  cbn [mbind result_bind or_raise].
  destruct (Api.ensure_owner _ user) as [[]|e] eqn:Hown; [|done].
  apply ensure_owner_Ok in Hown. apply db_get_Some in Hget as [_ Hid].
  change (row_id s0) with (Api.Session.id s0) in Hid.
  cbn [mbind result_bind]. cbv zeta.
  replace (Api.Session.id (Api.set_status s0 "cancelled")) with sid by done.
  rewrite (delete_session_logs sid db Hnd).
  unfold Api.serialize_session. intros [= <- <- <-].
  split_and!; try done.
  rewrite Hid. apply filter_contradiction. tauto.
Qed.

Lemma cancel_session_drops_sets_witness :
  ∃ db' sess,
    Api.cancel_session 1 Sample.alice Sample.db2 = Ok (db', (sess, [])) ∧
    Api.Session.status sess = "cancelled" ∧
    Api.set_logs db' = [] ∧
    Api.sessions db' = [sess].
Proof.
  eexists _, _. split; [reflexivity|].
  destruct (cancel_session_drops_sets 1 Sample.alice Sample.db2 _ _ _
              ltac:(by apply (bool_decide_unpack _)) eq_refl) as (_ & _ & Hst & _ & Hdb).
  split; [exact Hst|]. split; reflexivity.
Defined.

(** X2.  Deleting a session of one's own removes the session and its sets
    and nothing else; the personal bests earned in it stay.  The session is
    gone afterwards: deleting it again, cancelling it, finishing it or
    logging a set to it is answered with 404. *)
Theorem delete_session_removes_sets :
  ∀ session_id user db db' r,
    unique_ids (Api.set_logs db) →
    Api.delete_session session_id user db = Ok (db', r) →
    r = session_id ∧
    db' = Api.mkDB (Api.users db) (Api.exercises db) (Api.programs db)
            (Api.workout_templates db) (Api.template_exercises db)
            (filter (λ s, Api.Session.id s ≠ session_id) (Api.sessions db))
            (filter (λ l, Api.SetLog.session_id l ≠ session_id) (Api.set_logs db))
            (Api.personal_bests db) (Api.friend_requests db) (Api.friendships db) ∧
    (∀ caller log,
       Api.delete_session session_id caller db' = Raise (HTTPException 404 "Session not found") ∧
       Api.cancel_session session_id caller db' = Raise (HTTPException 404 "Session not found") ∧
       Api.finish_session session_id caller db' = Raise (HTTPException 404 "Session not found") ∧
       Api.log_set session_id log caller db' = Raise (HTTPException 404 "Session not found")).
Proof.
  intros sid user db db' r Hnd. unfold Api.delete_session at 1.
  destruct (db_get sid (Api.sessions db)) as [s0|] eqn:Hget; [|done].
  cbn [mbind result_bind or_raise].
  destruct (Api.ensure_owner _ user) as [[]|e] eqn:Hown; [|done].
  apply db_get_Some in Hget as [_ Hid].
  change (row_id s0) with (Api.Session.id s0) in Hid.
  cbn [mbind result_bind]. cbv zeta.
  rewrite (delete_session_logs sid db Hnd). rewrite Hid.
  set (db1 := Api.set_sessions _ _). intros [= <- <-].
  assert (db_get sid (Api.sessions db1) = None) as Hgone.
  { unfold db1. destruct db. cbn. apply db_get_deleted. }
  split_and!; [done|by destruct db|].
  intros caller log.
  unfold Api.delete_session, Api.cancel_session, Api.finish_session, Api.log_set.
  by rewrite Hgone.
Qed.

Lemma delete_session_removes_sets_witness :
  ∃ db',
    Api.delete_session 1 Sample.alice Sample.db_with_best = Ok (db', 1) ∧
    Api.sessions db' = [] ∧ Api.set_logs db' = [] ∧
    Api.personal_bests db' = [Sample.old_best] ∧
    Api.delete_session 1 Sample.alice db' = Raise (HTTPException 404 "Session not found").
Proof.
  eexists. split; [reflexivity|]. split; [reflexivity|]. split; [reflexivity|].
  split; [reflexivity|].
  destruct (delete_session_removes_sets 1 Sample.alice Sample.db_with_best _ _
              ltac:(by apply (bool_decide_unpack _)) eq_refl) as (_ & _ & Hgone).
  exact (proj1 (Hgone Sample.alice Sample.payload_100x5)).
Defined.

(** X3.  [clear_active_sessions] never fails.  It deletes the caller's
    sessions that are in progress together with their sets, and returns their
    number; the caller's other sessions, the sessions of everybody else and
    all their sets stay, as does every other table.  Called again at once it
    finds nothing to clear and returns 0. *)
Theorem clear_active_sessions_clears :
  ∀ user db,
    unique_ids (Api.sessions db) →
    unique_ids (Api.set_logs db) →
    let active := λ s, Api.Session.owner_id s = Api.User.id user ∧
                       Api.Session.status s = "in_progress" in
    let db' := Api.mkDB (Api.users db) (Api.exercises db) (Api.programs db)
                 (Api.workout_templates db) (Api.template_exercises db)
                 (filter (λ s, ¬ active s) (Api.sessions db))
                 (filter (λ l, Api.SetLog.session_id l ∉
                                 Api.Session.id <$> filter active (Api.sessions db))
                         (Api.set_logs db))
                 (Api.personal_bests db) (Api.friend_requests db) (Api.friendships db) in
    Api.clear_active_sessions user db =
      Ok (db', Z.of_nat (length (filter active (Api.sessions db)))) ∧
    Api.clear_active_sessions user db' = Ok (db', 0).
Proof.
  intros user db Hs Hl active db'. split.
  - unfold Api.clear_active_sessions. fold active.
    rewrite (clear_active_loop _ db 0 Hl). f_equal. f_equal. unfold db'.
    destruct db. unfold Api.set_sessions, Api.set_set_logs. cbn. f_equal.
    exact (db_delete_selected active _ Hs).
  - unfold Api.clear_active_sessions. fold active.
    replace (filter active (Api.sessions db')) with (@nil Api.Session.t); [by destruct db|].
    symmetry. unfold db'. cbn. apply filter_contradiction. tauto.
Qed.

Lemma clear_active_sessions_clears_witness :
  ∃ db',
    Api.clear_active_sessions Sample.alice Sample.db2 = Ok (db', 1) ∧
    Api.sessions db' = [] ∧ Api.set_logs db' = [] ∧
    Api.clear_active_sessions Sample.alice db' = Ok (db', 0).
Proof.
  eexists. split; [reflexivity|]. split; [reflexivity|]. split; [reflexivity|].
  exact (proj2 (clear_active_sessions_clears Sample.alice Sample.db2
                  ltac:(by apply (bool_decide_unpack _))
                  ltac:(by apply (bool_decide_unpack _)))).
Defined.

(** ** Programs and templates of the service: deleting *)

Section template_facts.
Import Api.
Implicit Types (db : DB) (user : User.t) (rows : list TemplateExercise.t).
Implicit Types (ts : list WorkoutTemplate.t) (ss : list Session.t).

Lemma delete_rows_spec rows db :
  foldl (λ db row,
      set_template_exercises db (db_delete (TemplateExercise.id row) (template_exercises db)))
    db rows =
  set_template_exercises db
    (filter (λ r, TemplateExercise.id r ∉ TemplateExercise.id <$> rows) (template_exercises db)).
Proof.
  transitivity (set_template_exercises db
                  (foldl (λ t x, db_delete (row_id x) t) (template_exercises db) rows)).
  - revert db. induction rows as [|row rows IH]; intros db; simpl.
    + by destruct db.
    + rewrite IH. by destruct db.
  - by rewrite db_delete_all.
Qed.

(** The rows of a template are deleted, those of the other templates stay. *)
Lemma delete_template_rows (tid : Z) db :
  unique_ids (template_exercises db) →
  foldl (λ db row,
      set_template_exercises db (db_delete (TemplateExercise.id row) (template_exercises db)))
    db (filter (λ r, TemplateExercise.template_id r = tid) (template_exercises db)) =
  set_template_exercises db
    (filter (λ r, TemplateExercise.template_id r ≠ tid) (template_exercises db)).
Proof.
  intros Hnd. rewrite delete_rows_spec. f_equal.
  exact (db_delete_selected (λ r, TemplateExercise.template_id r = tid) (template_exercises db) Hnd).
Qed.

Lemma delete_sessions_spec ss db :
  foldl (λ db s, set_sessions db (db_delete (Session.id s) (sessions db))) db ss =
  set_sessions db (filter (λ s, Session.id s ∉ Session.id <$> ss) (sessions db)).
Proof.
  transitivity (set_sessions db (foldl (λ t x, db_delete (row_id x) t) (sessions db) ss)).
  - revert db. induction ss as [|s ss IH]; intros db; simpl.
    + by destruct db.
    + rewrite IH. by destruct db.
  - by rewrite db_delete_all.
Qed.

(** The loop of [delete_program] over the templates of the program. *)
Lemma delete_templates_loop ts db :
  unique_ids (template_exercises db) →
  foldl (λ db tpl,
      let rows := filter (λ r, TemplateExercise.template_id r = WorkoutTemplate.id tpl)
                         (template_exercises db) in
      let db := foldl (λ db row,
          set_template_exercises db (db_delete (TemplateExercise.id row) (template_exercises db)))
          db rows in
      set_workout_templates db (db_delete (WorkoutTemplate.id tpl) (workout_templates db)))
    db ts =
  set_workout_templates
    (set_template_exercises db
       (filter (λ r, TemplateExercise.template_id r ∉ WorkoutTemplate.id <$> ts)
               (template_exercises db)))
    (filter (λ t, WorkoutTemplate.id t ∉ WorkoutTemplate.id <$> ts) (workout_templates db)).
Proof.
  revert db. induction ts as [|tpl ts IH]; intros db Hnd.
  - simpl. destruct db. unfold set_workout_templates, set_template_exercises. simpl.
    f_equal; symmetry; apply filter_all; intros ? _; apply not_elem_of_nil.
  - cbn [foldl]. cbv zeta. rewrite (delete_template_rows (WorkoutTemplate.id tpl) db Hnd).
    rewrite IH.
    + destruct db. unfold set_workout_templates, set_template_exercises, db_delete. cbn.
      rewrite !list_filter_filter. f_equal.
      * apply list_filter_iff. intros y. rewrite not_elem_of_cons. tauto.
      * apply list_filter_iff. intros y. rewrite not_elem_of_cons.
        change (row_id y) with (WorkoutTemplate.id y). tauto.
    + destruct db. cbn. by apply unique_ids_filter.
Qed.
End template_facts.

(** X4.  Deleting a program of one's own removes the program, every
    template filed under it with the rows of those templates, and every
    session started from it, whoever owns them; users, exercises, personal
    bests and friends are untouched, and so are the logged sets, also those
    of the deleted sessions. *)
Theorem delete_program_cascade :
  ∀ program_id user db db' r,
    unique_ids (Api.workout_templates db) →
    unique_ids (Api.template_exercises db) →
    unique_ids (Api.sessions db) →
    Api.delete_program program_id user db = Ok (db', r) →
    r = program_id ∧
    db' = Api.mkDB (Api.users db) (Api.exercises db)
            (filter (λ p, Api.Program.id p ≠ program_id) (Api.programs db))
            (filter (λ t, Api.WorkoutTemplate.program_id t ≠ program_id)
                    (Api.workout_templates db))
            (filter (λ row, Api.TemplateExercise.template_id row ∉
                              Api.WorkoutTemplate.id <$>
                                filter (λ t, Api.WorkoutTemplate.program_id t = program_id)
                                       (Api.workout_templates db))
                    (Api.template_exercises db))
            (filter (λ s, Api.Session.program_id s ≠ program_id) (Api.sessions db))
            (Api.set_logs db) (Api.personal_bests db) (Api.friend_requests db)
            (Api.friendships db).
Proof.
  intros pid user db db' r Ht Hr Hs. unfold Api.delete_program.
  destruct (db_get pid (Api.programs db)) as [pr|] eqn:Hget; [|done].
  cbn [mbind result_bind or_raise].
  destruct (Api.ensure_owner _ user) as [[]|e]; [|done].
  apply db_get_Some in Hget as [_ Hid]. change (row_id pr) with (Api.Program.id pr) in Hid.
  cbn [mbind result_bind]. cbv zeta.
  rewrite (delete_templates_loop _ db Hr). rewrite delete_sessions_spec. rewrite Hid.
  intros [= <- <-]. split; [done|].
  destruct db. unfold Api.set_programs, Api.set_sessions, Api.set_workout_templates,
    Api.set_template_exercises. cbn in *. f_equal.
  - exact (db_delete_selected (λ t, Api.WorkoutTemplate.program_id t = pid) _ Ht).
  - exact (db_delete_selected (λ s, Api.Session.program_id s = pid) _ Hs).
Qed.

Lemma delete_program_cascade_witness :
  ∃ db',
    Api.delete_program 1 Sample.alice Sample.db2 = Ok (db', 1) ∧
    Api.programs db' = [] ∧ Api.workout_templates db' = [] ∧
    Api.template_exercises db' = [] ∧ Api.sessions db' = [] ∧
    Api.set_logs db' = Api.set_logs Sample.db2.
Proof.
  eexists. split; [reflexivity|].
  destruct (delete_program_cascade 1 Sample.alice Sample.db2 _ _
              ltac:(by apply (bool_decide_unpack _)) ltac:(by apply (bool_decide_unpack _))
              ltac:(by apply (bool_decide_unpack _)) eq_refl) as [_ Hdb].
  split_and!; reflexivity.
Defined.

(** X5.  Deleting a template of one's own removes the template and its rows
    and nothing else: the sessions started from it stay, with their sets.
    The template is gone afterwards, so that deleting it again or adding a
    row to it is answered with 404. *)
Theorem delete_template_removes_rows :
  ∀ template_id user db db' r,
    unique_ids (Api.template_exercises db) →
    Api.delete_template template_id user db = Ok (db', r) →
    r = template_id ∧
    db' = Api.mkDB (Api.users db) (Api.exercises db) (Api.programs db)
            (filter (λ t, Api.WorkoutTemplate.id t ≠ template_id) (Api.workout_templates db))
            (filter (λ row, Api.TemplateExercise.template_id row ≠ template_id)
                    (Api.template_exercises db))
            (Api.sessions db) (Api.set_logs db) (Api.personal_bests db)
            (Api.friend_requests db) (Api.friendships db) ∧
    (∀ caller row,
       Api.delete_template template_id caller db' =
         Raise (HTTPException 404 "Template not found") ∧
       Api.add_exercise_to_template template_id row caller db' =
         Raise (HTTPException 404 "Template not found")).
Proof.
  intros tid user db db' r Hr. unfold Api.delete_template at 1.
  destruct (db_get tid (Api.workout_templates db)) as [tpl|] eqn:Hget; [|done].
  cbn [mbind result_bind or_raise].
  destruct (Api.ensure_owner _ user) as [[]|e]; [|done].
  apply db_get_Some in Hget as [_ Hid].
  change (row_id tpl) with (Api.WorkoutTemplate.id tpl) in Hid.
  cbn [mbind result_bind]. cbv zeta.
  rewrite (delete_template_rows tid db Hr). rewrite Hid.
  set (db1 := Api.set_workout_templates _ _). intros [= <- <-].
  assert (db_get tid (Api.workout_templates db1) = None) as Hgone.
  { unfold db1. destruct db. cbn. apply db_get_deleted. }
  split_and!; [done|by destruct db|].
  intros caller row. unfold Api.delete_template, Api.add_exercise_to_template.
  by rewrite Hgone.
Qed.

Lemma delete_template_removes_rows_witness :
  ∃ db',
    Api.delete_template 1 Sample.alice Sample.db2 = Ok (db', 1) ∧
    Api.workout_templates db' = [Sample.leg_day] ∧
    length (Api.template_exercises db') = 1%nat ∧
    Api.sessions db' = [Sample.monday] ∧
    Api.delete_template 1 Sample.alice db' = Raise (HTTPException 404 "Template not found").
Proof.
  eexists. split; [reflexivity|]. split; [reflexivity|]. split; [reflexivity|].
  split; [reflexivity|].
  destruct (delete_template_removes_rows 1 Sample.alice Sample.db2 _ _
              ltac:(by apply (bool_decide_unpack _)) eq_refl) as (_ & _ & Hgone).
  exact (proj1 (Hgone Sample.alice (Api.mkTemplateExerciseCreate 7 "" "" "" "" "" ""))).
Defined.

(** X6.  A row added to a template of one's own is stored under that
    template with a key no row had, and removing it through the same template
    restores the store exactly.  Through any other template the removal
    fails. *)
Theorem add_then_remove_row :
  ∀ template_id row user db db1 row_db,
    Api.add_exercise_to_template template_id row user db = Ok (db1, row_db) →
    Api.TemplateExercise.template_id row_db = template_id ∧
    Api.TemplateExercise.exercise_id row_db = Api.c_exercise_id row ∧
    (∀ r, r ∈ Api.template_exercises db →
          Api.TemplateExercise.id r ≠ Api.TemplateExercise.id row_db) ∧
    Api.template_exercises db1 = Api.template_exercises db ++ [row_db] ∧
    Api.remove_exercise_from_template template_id (Api.TemplateExercise.id row_db) user db1 =
      Ok (db, Api.TemplateExercise.id row_db) ∧
    (∀ other caller,
       other ≠ template_id →
       is_ok (Api.remove_exercise_from_template other (Api.TemplateExercise.id row_db)
                caller db1) = false).
Proof.
  intros tid row user db db1 row_db. unfold Api.add_exercise_to_template.
  destruct (db_get tid (Api.workout_templates db)) as [tpl|] eqn:Hget; [|done].
  cbn [mbind result_bind or_raise].
  destruct (Api.ensure_owner _ user) as [[]|e] eqn:Hown; [|done].
  pose proof (db_get_Some _ _ _ Hget) as [_ Hid].
  change (row_id tpl) with (Api.WorkoutTemplate.id tpl) in Hid.
  cbn [mbind result_bind]. destruct (int64 (Api.c_exercise_id row)); [|done].
  cbn [negb]. cbv zeta. intros [= <- <-].
  set (row_db := Api.TemplateExercise.mk _ _ _ _ _ _ _ _ _).
  assert (row_id row_db = db_fresh (Api.template_exercises db)) as Hfresh by done.
  assert (db_get (Api.TemplateExercise.id row_db)
            (Api.template_exercises db ++ [row_db]) = Some row_db) as Hrow
    by exact (db_get_fresh _ _ Hfresh).
  split_and!; try done.
  - intros r Hr. apply db_fresh_gt in Hr.
    change (row_id r) with (Api.TemplateExercise.id r) in Hr.
    change (Api.TemplateExercise.id row_db) with (db_fresh (Api.template_exercises db)). lia.
  - unfold Api.remove_exercise_from_template.
    replace (Api.workout_templates (Api.set_template_exercises db _))
      with (Api.workout_templates db) by (by destruct db).
    rewrite Hget. cbn [mbind result_bind or_raise]. rewrite Hown. cbn [mbind result_bind].
    replace (Api.template_exercises (Api.set_template_exercises db _))
      with (Api.template_exercises db ++ [row_db]) by (by destruct db).
    rewrite Hrow. rewrite decide_False by (by intros []).
    change (Api.TemplateExercise.id row_db) with (row_id row_db).
    rewrite (db_delete_fresh _ _ Hfresh). by destruct db.
  - intros other caller Hother. unfold Api.remove_exercise_from_template.
    replace (Api.workout_templates (Api.set_template_exercises db _))
      with (Api.workout_templates db) by (by destruct db).
    destruct (db_get other (Api.workout_templates db)) as [tpl2|] eqn:Hget2; [|done].
    cbn [mbind result_bind or_raise].
    destruct (Api.ensure_owner _ caller) as [[]|e]; [|done].
    cbn [mbind result_bind].
    replace (Api.template_exercises (Api.set_template_exercises db _))
      with (Api.template_exercises db ++ [row_db]) by (by destruct db).
    rewrite Hrow. rewrite decide_True; [done|].
    apply db_get_Some in Hget2 as [_ Hid2].
    change (row_id tpl2) with (Api.WorkoutTemplate.id tpl2) in Hid2.
    cbn. congruence.
Qed.

Lemma add_then_remove_row_witness :
  ∃ db1 row_db,
    Api.add_exercise_to_template 2 (Api.mkTemplateExerciseCreate 7 "3" "10" "40kg" "" "" "")
      Sample.alice Sample.db0 = Ok (db1, row_db) ∧
    Api.TemplateExercise.id row_db = 4 ∧
    Api.remove_exercise_from_template 2 (Api.TemplateExercise.id row_db) Sample.alice db1 =
      Ok (Sample.db0, Api.TemplateExercise.id row_db).
Proof.
  eexists _, _. split; [reflexivity|]. split; [reflexivity|].
  exact (proj1 (proj2 (proj2 (proj2 (proj2
    (add_then_remove_row 2 (Api.mkTemplateExerciseCreate 7 "3" "10" "40kg" "" "" "")
       Sample.alice Sample.db0 _ _ eq_refl)))))).
Defined.

(** ** Personal bests of the service: what a merge leaves alone *)

Section pb_frame.
Import Api.
Implicit Types (pbs olds news : list PersonalBest.t) (pb : PersonalBest.t) (o : Z).

Lemma pb_merged_refl o pb : pb_merged o pb pb.
Proof. split_and!; [by left|done..]. Qed.

Lemma pb_merged_trans o pb1 pb2 pb3 :
  pb_merged o pb1 pb2 → pb_merged o pb2 pb3 → pb_merged o pb1 pb3.
Proof.
  intros (Hk1 & Hp1 & Ho1) (Hk2 & Hp2 & Ho2). split_and!.
  - by apply (pb_kept_or_raised_trans _ pb2).
  - congruence.
  - intros Hne. rewrite (Ho1 Hne) in *. by apply Ho2.
Qed.

Lemma pb_kept_or_raised_owner pb pb' :
  pb_kept_or_raised pb pb' → PersonalBest.owner_id pb' = PersonalBest.owner_id pb.
Proof. by intros [->|(_ & ? & _)]. Qed.

Lemma pbs_merged_refl o pbs : pbs_merged o pbs pbs.
Proof.
  exists pbs, []. rewrite app_nil_r. split_and!; [done| |constructor].
  apply Forall2_same_length_lookup. split; [done|].
  intros i x y Hx Hy. rewrite Hx in Hy. injection Hy as <-. apply pb_merged_refl.
Qed.

Lemma pbs_merged_trans o pbs1 pbs2 pbs3 :
  pbs_merged o pbs1 pbs2 → pbs_merged o pbs2 pbs3 → pbs_merged o pbs1 pbs3.
Proof.
  intros (olds & news & -> & Hold & Hnew) (olds2 & news2 & -> & Hold2 & Hnew2).
  apply Forall2_app_inv_l in Hold2 as (o2a & o2b & Ha & Hb & ->).
  exists o2a, (o2b ++ news2). rewrite <- app_assoc. split_and!; [done| |].
  - clear -Hold Ha. revert o2a Ha. induction Hold as [|x y l l' Hxy _ IH]; intros o2a Ha.
    + by apply Forall2_nil_inv_l in Ha as ->.
    + apply Forall2_cons_inv_l in Ha as (z & l2 & Hyz & Hrest & ->).
      constructor; [by apply (pb_merged_trans _ _ y)|by apply IH].
  - apply Forall_app. split; [|done].
    clear -Hnew Hb. revert o2b Hb. induction Hnew as [|n l [Hp Ho] _ IH]; intros o2b Hb.
    + by apply Forall2_nil_inv_l in Hb as ->.
    + apply Forall2_cons_inv_l in Hb as (z & l2 & (Hk & Hpz & _) & Hrest & ->).
      constructor; [|by apply IH]. split; [congruence|].
      by rewrite (pb_kept_or_raised_owner _ _ Hk).
Qed.

Lemma merge_entry_merged o sess log pbs entry :
  unique_ids pbs → pbs_merged o pbs (merge_entry o sess log pbs entry).
Proof.
  intros Hnd. destruct entry as [[kind label] value]. unfold merge_entry.
  destruct (find_pb o _ kind _ pbs) as [existing|] eqn:Hex.
  - destruct (Qlt_le_dec _ _) as [Hlt|Hle]; [|apply pbs_merged_refl].
    pose proof (head_Some_elem_of _ _ Hex) as Hin.
    apply list_elem_of_filter in Hin as [(Howner & _) Hin].
    eexists _, []. rewrite app_nil_r. split_and!; [done| |constructor].
    unfold db_update. apply Forall2_fmap_r. apply Forall2_same_length_lookup.
    split; [done|]. intros i x y Hx Hy. rewrite Hx in Hy. injection Hy as <-.
    unfold compose. case_decide as Hid; [|apply pb_merged_refl]. simpl in Hid.
    assert (x = existing) as ->.
    { apply (unique_ids_eq pbs); try done. by eapply list_elem_of_lookup_2. }
    split_and!; [by right|done|]. intros Hne. by rewrite Howner in Hne.
  - eexists pbs, [_]. split_and!; [done| |by repeat constructor].
    destruct (pbs_merged_refl o pbs) as (olds & news & Heq & Hold & _).
    apply Forall2_same_length_lookup. split; [done|].
    intros i x y Hx Hy. rewrite Hx in Hy. injection Hy as <-. apply pb_merged_refl.
Qed.

Lemma merge_entries_merged o sess log entries pbs :
  unique_ids pbs → pbs_merged o pbs (foldl (merge_entry o sess log) pbs entries).
Proof.
  revert pbs. induction entries as [|entry entries IH]; intros pbs Hnd;
    [apply pbs_merged_refl|].
  simpl. apply (pbs_merged_trans _ _ (merge_entry o sess log pbs entry)).
  - by apply merge_entry_merged.
  - apply IH. by apply merge_entry_unique.
Qed.

Lemma merge_logs_merged o sess logs pbs :
  unique_ids pbs → pbs_merged o pbs (merge_logs o sess logs pbs).
Proof.
  revert pbs. induction logs as [|log logs IH]; intros pbs Hnd; [apply pbs_merged_refl|].
  rewrite merge_logs_cons.
  apply (pbs_merged_trans _ _ (foldl (merge_entry o sess log) pbs (pb_entries log))).
  - by apply merge_entries_merged.
  - apply IH. by apply merge_entries_unique.
Qed.

(** A query that asks for a column a merge keeps selects the same records
    before and after, each kept or raised. *)
Lemma filter_merged o (P : PersonalBest.t → Prop) `{∀ pb, Decision (P pb)} pbs olds :
  (∀ pb pb', pb_merged o pb pb' → P pb ↔ P pb') →
  Forall2 (pb_merged o) pbs olds →
  Forall2 (pb_merged o) (filter P pbs) (filter P olds).
Proof.
  intros HP. induction 1 as [|x y l l' Hxy _ IH]; [constructor|].
  destruct (decide (P x)) as [Hp|Hp].
  - rewrite !filter_cons_True; [by constructor| |done]. by apply (HP x y).
  - rewrite !filter_cons_False; [done| |done]. intros Hy. by apply Hp, (HP x y).
Qed.

Lemma filter_others o pbs olds :
  Forall2 (pb_merged o) pbs olds →
  filter (λ pb, PersonalBest.owner_id pb ≠ o) olds =
  filter (λ pb, PersonalBest.owner_id pb ≠ o) pbs.
Proof.
  induction 1 as [|x y l l' (Hk & _ & Ho) _ IH]; [done|].
  destruct (decide (PersonalBest.owner_id x ≠ o)) as [Hne|He].
  - rewrite (Ho Hne). rewrite !filter_cons_True by done. by f_equal.
  - rewrite !filter_cons_False; [done..|].
    by rewrite (pb_kept_or_raised_owner _ _ Hk).
Qed.
End pb_frame.

Lemma finish_session_inv session_id user db db' r :
  Api.finish_session session_id user db = Ok (db', r) →
  ∃ sess,
    db_get session_id (Api.sessions db) = Some sess ∧
    Api.Session.id sess = session_id ∧
    Api.Session.owner_id sess = Api.User.id user ∧
    let sess' := Api.set_status sess "done" in
    let logs := filter (λ l, Api.SetLog.session_id l = session_id) (Api.set_logs db) in
    db' = Api.set_sessions
            (Api.set_personal_bests db
               (Api.merge_logs (Api.User.id user) sess' logs (Api.personal_bests db)))
            (db_update sess' (Api.sessions db)) ∧
    r = (sess', logs).
Proof.
  intros Hfin.
  destruct (db_get session_id (Api.sessions db)) as [sess|] eqn:Hget;
    [|by unfold Api.finish_session in Hfin; rewrite Hget in Hfin].
  destruct (decide (Api.Session.owner_id sess = Api.User.id user)) as [Hown|Hown];
    [|unfold Api.finish_session, Api.ensure_owner in Hfin; rewrite Hget in Hfin;
      simpl in Hfin; by rewrite decide_True in Hfin].
  rewrite (finish_session_unfold _ _ _ sess Hget Hown) in Hfin.
  cbv zeta in Hfin. injection Hfin as <- <-.
  pose proof (db_get_Some _ _ _ Hget) as [_ Hid].
  change (row_id sess) with (Api.Session.id sess) in Hid.
  exists sess. split_and!; try done. cbv zeta. split; [by rewrite <- Hid|].
  unfold Api.serialize_session. f_equal. destruct db. cbn. by rewrite <- Hid.
Qed.



Section publish_facts.
Import Api.

Lemma public_view_merged o (exercise_id : option Z) (owner : Z) pbs olds news :
  Forall2 (pb_merged o) pbs olds →
  Forall (λ n, PersonalBest.is_public n = false ∧ PersonalBest.owner_id n = o) news →
  let view := λ l : list PersonalBest.t,
    filter (λ pb, PersonalBest.is_public pb = true)
      (let q := filter (λ pb, PersonalBest.owner_id pb = owner) l in
       match exercise_id with
       | Some e => if decide (e = 0) then q
                   else filter (λ pb, PersonalBest.exercise_id pb = e) q
       | None => q
       end) in
  Forall2 pb_kept_or_raised (view pbs) (view (olds ++ news)).
Proof.
  intros Hold Hnew view.
  assert (∀ pb pb', pb_merged o pb pb' →
            PersonalBest.owner_id pb' = PersonalBest.owner_id pb ∧
            PersonalBest.exercise_id pb' = PersonalBest.exercise_id pb ∧
            PersonalBest.is_public pb' = PersonalBest.is_public pb) as Hcols.
  { intros pb pb' ([->|(_ & ? & ? & _)] & ? & _); by split_and!. }
  assert (view news = []) as Hnone.
  { unfold view. apply filter_none. intros n Hn Hpub.
    assert (n ∈ news) as Hin.
    { destruct exercise_id as [e|]; [case_decide|];
        repeat (apply list_elem_of_filter in Hn as [_ Hn]); done. }
    rewrite Forall_forall in Hnew. destruct (Hnew n Hin) as [Hp _]. congruence. }
  assert (view (olds ++ news) = view olds) as ->.
  { transitivity (view olds ++ view news); [|by rewrite Hnone, app_nil_r].
    unfold view. destruct exercise_id as [e|]; [case_decide|]; by rewrite !filter_app. }
  apply (Forall2_impl (pb_merged o)); [|by intros ?? (? & _)].
  unfold view. apply (filter_merged o).
  { intros pb pb' Hm. destruct (Hcols _ _ Hm) as (_ & _ & ->). done. }
  assert (Forall2 (pb_merged o)
            (filter (λ pb, PersonalBest.owner_id pb = owner) pbs)
            (filter (λ pb, PersonalBest.owner_id pb = owner) olds)) as Hq.
  { apply (filter_merged o); [|done].
    intros pb pb' Hm. destruct (Hcols _ _ Hm) as (-> & _). done. }
  destruct exercise_id as [e|]; [case_decide|]; try done.
  apply (filter_merged o); [|done].
  intros pb pb' Hm. destruct (Hcols _ _ Hm) as (_ & -> & _). done.
Qed.
End publish_facts.

(** X8.  Finishing a session merges into the caller's personal bests only,
    and publishes nothing: the records of every other owner are as before,
    a stored record keeps its publication flag when its value is raised, and
    the records added are private.  So what another user is served of an
    owner's bests by [list_user_public_pbs] is, before and after, the same
    records one by one, each kept or raised. *)
Theorem finish_session_publishes_nothing :
  ∀ session_id user db db' r,
    unique_ids (Api.personal_bests db) →
    Api.finish_session session_id user db = Ok (db', r) →
    Api.pbs_merged (Api.User.id user) (Api.personal_bests db) (Api.personal_bests db') ∧
    filter (λ pb, Api.PersonalBest.owner_id pb ≠ Api.User.id user) (Api.personal_bests db') =
    filter (λ pb, Api.PersonalBest.owner_id pb ≠ Api.User.id user) (Api.personal_bests db) ∧
    ∀ username exercise_id viewer owner,
      Api.get_user_by_username db username = Some owner →
      Api.User.id viewer ≠ Api.User.id owner →
      ∃ l l',
        Api.list_user_public_pbs username exercise_id viewer db = Ok l ∧
        Api.list_user_public_pbs username exercise_id viewer db' = Ok l' ∧
        Forall2 Api.pb_kept_or_raised l l'.
Proof.
  intros sid user db db' r Hnd Hfin.
  destruct (finish_session_inv _ _ _ _ _ Hfin) as (s0 & _ & _ & _ & Hdb & _).
  cbv zeta in Hdb. set (logs := filter _ _) in Hdb.
  assert (Api.personal_bests db' =
          Api.merge_logs (Api.User.id user) (Api.set_status s0 "done") logs
            (Api.personal_bests db)) as Hpbs by (subst db'; by destruct db).
  assert (Api.users db' = Api.users db) as Husers by (subst db'; by destruct db).
  pose proof (merge_logs_merged (Api.User.id user) (Api.set_status s0 "done") logs
                (Api.personal_bests db) Hnd) as Hm.
  rewrite <- Hpbs in Hm. split; [done|].
  destruct Hm as (olds & news & Heq & Hold & Hnew). split.
  - rewrite Heq, filter_app. rewrite (filter_others _ _ _ Hold).
    rewrite (filter_none _ news); [by rewrite app_nil_r|].
    intros n Hn Hne. rewrite Forall_forall in Hnew. by destruct (Hnew n Hn).
  - intros username exercise_id viewer owner Howner Hviewer.
    unfold Api.list_user_public_pbs, Api._get_owner_or_404, Api.get_user_by_username.
    rewrite Husers. fold (Api.get_user_by_username db username). rewrite Howner.
    cbn [mbind result_bind or_raise]. rewrite bool_decide_eq_false_2 by done.
    eexists _, _. split; [reflexivity|]. split; [reflexivity|]. rewrite Heq.
    exact (public_view_merged (Api.User.id user) exercise_id (Api.User.id owner)
             _ _ _ Hold Hnew).
Qed.

Lemma finish_session_publishes_nothing_witness :
  ∃ db' r,
    Api.finish_session 1 Sample.alice Sample.db_with_best = Ok (db', r) ∧
    length (Api.personal_bests db') = 5%nat ∧
    ∃ l', Api.list_user_public_pbs "alice" None Sample.bob db' = Ok l' ∧
          Forall2 Api.pb_kept_or_raised [Sample.old_best] l'.
Proof.
  eexists _, _. split; [reflexivity|]. split; [reflexivity|].
  destruct (finish_session_publishes_nothing 1 Sample.alice Sample.db_with_best _ _
              ltac:(by apply (bool_decide_unpack _)) eq_refl) as (_ & _ & Hview).
  destruct (Hview "alice" None Sample.bob Sample.alice eq_refl ltac:(simpl; lia))
    as (l & l' & Hl & Hl' & Hk).
  injection Hl as <-. by exists l'.
Defined.

(** ** Publishing a program *)

Lemma db_update_elem_of {A} `{Row A} (r x : A) (l : list A) :
  x ∈ l → row_id x = row_id r → r ∈ db_update r l.
Proof.
  intros Hx Hid. unfold db_update. apply list_elem_of_fmap. exists x.
  by rewrite decide_True.
Qed.

Lemma db_update_same_id {A} `{Row A} (r x : A) (l : list A) :
  x ∈ db_update r l → row_id x = row_id r → x = r.
Proof.
  unfold db_update. intros Hx Hid. apply list_elem_of_fmap in Hx as (y & -> & _).
  by case_decide.
Qed.

(** X9.  [publish_program] by the owner rewrites the flag [is_public] of
    the program and nothing else (its [visibility] text included).  The flag
    decides what another user gets: with the flag set, the program is in the
    owner's public list, its full view is served and it can be copied; with
    the flag cleared it is in no list served to the other user, and its full
    view and its copy are refused with 403. *)
Theorem publish_program_controls_access :
  ∀ program_id flag user db db' pr viewer,
    Api.publish_program program_id flag user db = Ok (db', pr) →
    Api.get_user_by_username db (Api.User.username user) = Some user →
    Api.User.id viewer ≠ Api.User.id user →
    (∃ p0, db_get program_id (Api.programs db) = Some p0 ∧
           Api.Program.owner_id p0 = Api.User.id user ∧
           pr = Api.set_program_public p0 flag) ∧
    db' = Api.set_programs db (db_update pr (Api.programs db)) ∧
    db_get program_id (Api.programs db') = Some pr ∧
    (∃ l, Api.list_user_programs (Api.User.username user) viewer db' = Ok l ∧
          if flag then pr ∈ l else Forall (λ p, Api.Program.id p ≠ program_id) l) ∧
    (if flag
     then is_ok (Api.get_user_program_full (Api.User.username user) program_id viewer db') = true ∧
          is_ok (Api.copy_program_from_public program_id viewer db') = true
     else Api.get_user_program_full (Api.User.username user) program_id viewer db' =
            Raise (HTTPException 403 "Program is not public") ∧
          Api.copy_program_from_public program_id viewer db' =
            Raise (HTTPException 403 "Program is not public")).
Proof.
  intros pid flag user db db' pr viewer Hpub Huser Hviewer.
  unfold Api.publish_program in Hpub.
  destruct (db_get pid (Api.programs db)) as [p0|] eqn:Hget; [|done].
  cbn [mbind result_bind or_raise] in Hpub.
  destruct (Api.ensure_owner _ user) as [[]|e] eqn:Hown; [|done].
  apply ensure_owner_Ok in Hown. cbn [mbind result_bind] in Hpub. injection Hpub as <- <-.
  pose proof (db_get_Some _ _ _ Hget) as [Hin Hid].
  change (row_id p0) with (Api.Program.id p0) in Hid.
  set (pr := Api.set_program_public p0 flag).
  set (db' := Api.set_programs db _).
  assert (Api.programs db' = db_update pr (Api.programs db)) as Hprogs by (by destruct db).
  assert (Api.get_user_by_username db' (Api.User.username user) = Some user) as Huser'
    by (by destruct db).
  assert (db_get pid (Api.programs db') = Some pr) as Hget'.
  { rewrite Hprogs, db_get_update, Hget. cbn [fmap option_fmap option_map].
    by rewrite decide_True. }
  split; [by exists p0|]. split; [done|]. split; [done|]. split.
  - unfold Api.list_user_programs, Api._get_owner_or_404. rewrite Huser'.
    cbn [mbind result_bind or_raise]. rewrite bool_decide_eq_false_2 by done.
    eexists. split; [reflexivity|]. rewrite Hprogs. destruct flag.
    + apply list_elem_of_filter. split; [done|]. apply list_elem_of_filter.
      split; [done|]. by apply (db_update_elem_of pr p0).
    + apply Forall_forall. intros p Hp Hpid.
      apply list_elem_of_filter in Hp as [Hpublic Hp].
      apply list_elem_of_filter in Hp as [_ Hp].
      apply (db_update_same_id pr p) in Hp;
        [|change (Api.Program.id p = Api.Program.id p0); congruence].
      by subst p.
  - unfold Api.get_user_program_full, Api.copy_program_from_public, Api._get_owner_or_404.
    rewrite Huser', Hget'. cbn [mbind result_bind or_raise].
    rewrite (decide_False (P := Api.Program.owner_id pr ≠ Api.User.id user))
      by (by intros []).
    rewrite bool_decide_eq_false_2 by done. destruct flag; cbn.
    + split; [done|]. rewrite decide_False by (by intros [_ ?]).
      by repeat match goal with |- context [let '(_, _) := ?x in _] => destruct x end.
    + split; [done|]. rewrite decide_True; [done|]. split; [|done].
      cbn. rewrite Hown. congruence.
Qed.

Lemma publish_program_controls_access_witness :
  ∃ db' pr,
    Api.publish_program 1 false Sample.alice Sample.db0 = Ok (db', pr) ∧
    Api.Program.visibility pr = "public" ∧
    Api.list_user_programs "alice" Sample.bob db' = Ok [] ∧
    Api.copy_program_from_public 1 Sample.bob db' =
      Raise (HTTPException 403 "Program is not public").
Proof.
  eexists _, _. split; [reflexivity|]. split; [reflexivity|]. split; [reflexivity|].
  exact (proj2 (proj2 (proj2 (proj2 (proj2
    (publish_program_controls_access 1 false Sample.alice Sample.db0 _ _ Sample.bob
       eq_refl eq_refl ltac:(simpl; lia))))))).
Defined.

(** ** Dictionaries built from rows *)

Section dict_facts.
Context {A : Type} (key : A → Z).
Implicit Types (l : list A) (m : gmap Z A).

Lemma foldl_insert_other l m (k : Z) :
  k ∉ key <$> l → foldl (λ m x, <[key x := x]> m) m l !! k = m !! k.
Proof.
  revert m. induction l as [|x l IH]; intros m Hk; [done|].
  rewrite fmap_cons, not_elem_of_cons in Hk. destruct Hk as [Hne Hk].
  simpl. rewrite IH by done. by rewrite lookup_insert_ne.
Qed.

(** The dictionary [{x.id: x for x in l}] gives each row under its key,
    the keys being unique. *)
Lemma foldl_insert_lookup l m x :
  NoDup (key <$> l) → x ∈ l → foldl (λ m x, <[key x := x]> m) m l !! key x = Some x.
Proof.
  revert m. induction l as [|y l IH]; intros m Hnd Hx; [by apply elem_of_nil in Hx|].
  rewrite fmap_cons in Hnd. apply NoDup_cons in Hnd as [Hy Hnd].
  apply elem_of_cons in Hx as [->|Hx]; simpl.
  - rewrite foldl_insert_other by done. by rewrite lookup_insert_eq.
  - by apply IH.
Qed.
End dict_facts.

(** ** Friends: the lists *)

Section friend_list_facts.
Import Api.
Implicit Types (db : DB) (user u : User.t).

Lemma list_friends_elem user db u :
  unique_ids (users db) → u ∈ users db → User.id u ∈ friend_ids user db →
  (User.id u, User.username u, User.display_name u) ∈ list_friends user db.
Proof.
  intros Hnd Hu Hfid. unfold list_friends.
  destruct (friend_ids user db) as [|fid fids] eqn:Hids; [by apply elem_of_nil in Hfid|].
  rewrite <- Hids in *. apply list_elem_of_omap. exists (User.id u). split; [done|].
  rewrite (foldl_insert_lookup User.id); [done| |by apply list_elem_of_filter].
  exact (unique_ids_filter (λ u, User.id u ∈ friend_ids user db) (users db) Hnd).
Qed.

Lemma friends_comm db a b : friends db a b ↔ friends db b a.
Proof. unfold friends. by rewrite (Z.min_comm a b), (Z.max_comm a b). Qed.

(** A stored edge has its two ends in each other's list. *)
Lemma friends_in_lists db a b :
  unique_ids (users db) → a ∈ users db → b ∈ users db →
  User.id a ≠ User.id b → friends db (User.id a) (User.id b) →
  (User.id b, User.username b, User.display_name b) ∈ list_friends a db ∧
  (User.id a, User.username a, User.display_name a) ∈ list_friends b db.
Proof.
  intros Hnd Ha Hb Hne Hfr. split.
  - apply list_friends_elem; [done..|]. by apply (friends_listed db (User.id a)).
  - apply list_friends_elem; [done..|].
    apply (friends_listed db (User.id b)); [done| |done]. by apply friends_comm.
Qed.

Lemma get_user_by_username_elem db username u :
  get_user_by_username db username = Some u → u ∈ users db ∧ User.username u = username.
Proof.
  unfold get_user_by_username. intros Hh. apply head_Some_elem_of in Hh.
  apply list_elem_of_filter in Hh. tauto.
Qed.

(** The ends of a canonical table differ, and a pair names one row. *)
Lemma friend_ids_NoDup db user :
  canonical_friendships db →
  NoDup (friend_ids user db) ∧ User.id user ∉ friend_ids user db.
Proof.
  intros [Hlt Hnd]. rewrite Forall_forall in Hlt. unfold friend_ids. split.
  - apply NoDup_fmap_2_strong.
    + intros f g Hf Hg Heq.
      apply list_elem_of_filter in Hf as [Hfu Hf]. apply list_elem_of_filter in Hg as [Hgu Hg].
      pose proof (Hlt f Hf). pose proof (Hlt g Hg).
      assert ((Friendship.user_id f, Friendship.friend_id f) =
              (Friendship.user_id g, Friendship.friend_id g)) as Hpair.
      { repeat case_decide; f_equal; lia. }
      apply list_elem_of_lookup in Hf as [i Hi]. apply list_elem_of_lookup in Hg as [j Hj].
      assert (i = j) as ->; [|congruence].
      apply (NoDup_lookup _ i j (Friendship.user_id f, Friendship.friend_id f) Hnd);
        rewrite list_lookup_fmap.
      * by rewrite Hi.
      * by rewrite Hj, Hpair.
    + apply NoDup_filter. by apply NoDup_fmap_1 in Hnd.
  - intros Hin. apply list_elem_of_fmap in Hin as (f & Heq & Hf).
    apply list_elem_of_filter in Hf as [_ Hf]. pose proof (Hlt f Hf).
    case_decide; lia.
Qed.
End friend_list_facts.

(** X10.  A request sent by A to B shows in B's incoming and in A's
    outgoing list under the other's name; B can accept it, and from then on
    each of the two is in the other's list of friends, with identifier, name
    and display name, and the request is in neither list of pending
    requests. *)
Theorem friend_request_round_trip :
  ∀ a b db db1 fr,
    unique_ids (Api.users db) →
    a ∈ Api.users db →
    Api.get_user_by_username db (Api.User.username b) = Some b →
    Api.send_friend_request (Api.User.username b) a db = Ok (db1, fr) →
    (Api.FriendRequest.id fr, Some (Api.User.username a), Some (Api.User.display_name a),
     "pending") ∈ Api.list_incoming_requests b db1 ∧
    (Api.FriendRequest.id fr, Some (Api.User.username b), Some (Api.User.display_name b),
     "pending") ∈ Api.list_outgoing_requests a db1 ∧
    ∃ db2 fr2,
      Api.accept_friend_request (Api.FriendRequest.id fr) b db1 = Ok (db2, fr2) ∧
      (Api.User.id b, Api.User.username b, Api.User.display_name b) ∈ Api.list_friends a db2 ∧
      (Api.User.id a, Api.User.username a, Api.User.display_name a) ∈ Api.list_friends b db2 ∧
      Forall (λ entry, entry.1.1.1 ≠ Api.FriendRequest.id fr)
             (Api.list_incoming_requests b db2 ++ Api.list_outgoing_requests a db2).
Proof.
  intros a b db db1 fr Hnd Ha Hb Hsend.
  destruct (send_friend_request_ok _ _ _ _ _ _ Hb Hsend) as (Hne & Hnofr & Hfr & Hdb1).
  pose proof (get_user_by_username_elem _ _ _ Hb) as [Hbin _].
  assert (db_get (Api.User.id a) (Api.users db) = Some a) as Hga
    by exact (db_get_elem_of _ _ Hnd Ha).
  assert (db_get (Api.User.id b) (Api.users db) = Some b) as Hgb
    by exact (db_get_elem_of _ _ Hnd Hbin).
  assert (Api.users db1 = Api.users db) as Hu1 by (subst db1; by destruct db).
  assert (Api.friend_requests db1 = Api.friend_requests db ++ [fr]) as Hfrs
    by (subst db1; by destruct db).
  assert (Api.friendships db1 = Api.friendships db) as Hfs by (subst db1; by destruct db).
  assert (row_id fr = db_fresh (Api.friend_requests db)) as Hfresh by (by subst fr).
  split_and!.
  - unfold Api.list_incoming_requests. rewrite Hfrs, Hu1. apply list_elem_of_fmap.
    exists fr. split; [by subst fr; cbn; rewrite Hga|].
    apply list_elem_of_filter. split; [by subst fr|]. apply elem_of_app. right. by left.
  - unfold Api.list_outgoing_requests. rewrite Hfrs, Hu1. apply list_elem_of_fmap.
    exists fr. split; [by subst fr; cbn; rewrite Hgb|].
    apply list_elem_of_filter. split; [by subst fr|]. apply elem_of_app. right. by left.
  - assert (Api.FriendRequest.from_user_id fr = Api.User.id a) as Hfrom by (by subst fr).
    assert (Api.FriendRequest.to_user_id fr = Api.User.id b) as Hto by (by subst fr).
    assert (Api.FriendRequest.status fr = "pending") as Hst by (by subst fr).
    unfold Api.accept_friend_request. rewrite Hfrs.
    change (Api.FriendRequest.id fr) with (row_id fr).
    rewrite (db_get_fresh _ _ Hfresh). cbn [mbind result_bind or_raise].
    rewrite decide_False by (by intros []). rewrite decide_False by (by intros []).
    cbn [Api.set_fr_status Api.FriendRequest.from_user_id Api.FriendRequest.to_user_id].
    rewrite Hfrom, Hto.
    assert (¬ Api.friends db1 (Api.User.id a) (Api.User.id b)) as Hnofr1.
    { unfold Api.friends. by rewrite Hfs. }
    destruct (ensure_friendship_spec db1 (Api.User.id a) (Api.User.id b)) as [[? _]|[_ ->]];
      [congruence|done|].
    cbn [mbind result_bind]. eexists _, _. split; [reflexivity|].
    set (db2 := Api.set_friend_requests _ _).
    assert (Api.users db2 = Api.users db) as Hu2 by (by rewrite <- Hu1).
    assert (Api.friends db2 (Api.User.id a) (Api.User.id b)) as Hfr2.
    { exists (Api.Friendship.mk (db_fresh (Api.friendships db1))
                (Z.min (Api.User.id a) (Api.User.id b)) (Z.max (Api.User.id a) (Api.User.id b))).
      split; [|done]. unfold db2. cbn. apply elem_of_app. right. by left. }
    destruct (friends_in_lists db2 a b) as [? ?]; try (by rewrite Hu2); try congruence.
    split_and!; try done.
    apply Forall_forall. intros entry Hentry Hid.
    assert (∀ x, x ∈ Api.friend_requests db2 → Api.FriendRequest.id x = Api.FriendRequest.id fr →
                 Api.FriendRequest.status x ≠ "pending") as Hhandled.
    { intros x Hx Hx'. unfold db2, Api.set_friend_requests in Hx.
      cbn [Api.friend_requests] in Hx.
      apply (db_update_same_id _ x) in Hx; [by subst x|exact Hx']. }
    apply elem_of_app in Hentry as [Hentry|Hentry];
      apply list_elem_of_fmap in Hentry as (x & -> & Hx);
      apply list_elem_of_filter in Hx as [[_ Hpend] Hx];
      by apply (Hhandled x Hx Hid).
Qed.

Lemma friend_request_round_trip_witness :
  ∃ db1 fr db2 fr2,
    Api.send_friend_request "bob" Sample.alice Sample.db0 = Ok (db1, fr) ∧
    Api.list_incoming_requests Sample.bob db1 = [(1, Some "alice", Some "Alice", "pending")] ∧
    Api.accept_friend_request 1 Sample.bob db1 = Ok (db2, fr2) ∧
    (2, "bob", "Bob") ∈ Api.list_friends Sample.alice db2 ∧
    (1, "alice", "Alice") ∈ Api.list_friends Sample.bob db2.
Proof.
  eexists _, _.
  destruct (friend_request_round_trip Sample.alice Sample.bob Sample.db0 _ _
              ltac:(by apply (bool_decide_unpack _)) ltac:(by left) eq_refl eq_refl)
    as (_ & _ & db2 & fr2 & Hacc & Hab & Hba & _).
  exists db2, fr2. split; [reflexivity|]. split; [reflexivity|]. done.
Defined.

(** X11.  Rejecting a pending request addressed to oneself marks it rejected
    and stores no friendship; the request can then be neither accepted nor
    rejected again.  A rejection does not block the pair: when the two are
    not friends and no other request between them is pending, the sender can
    send a new request at once. *)
Theorem reject_allows_new_request :
  ∀ request_id user db db1 fr1,
    Api.reject_friend_request request_id user db = Ok (db1, fr1) →
    Api.FriendRequest.status fr1 = "rejected" ∧
    Api.FriendRequest.to_user_id fr1 = Api.User.id user ∧
    Api.friendships db1 = Api.friendships db ∧
    Api.friend_requests db1 = db_update fr1 (Api.friend_requests db) ∧
    (∀ caller,
       is_ok (Api.accept_friend_request request_id caller db1) = false ∧
       is_ok (Api.reject_friend_request request_id caller db1) = false) ∧
    (∀ sender,
       Api.User.id sender = Api.FriendRequest.from_user_id fr1 →
       Api.User.id sender ≠ Api.User.id user →
       Api.get_user_by_username db (Api.User.username user) = Some user →
       ¬ Api.friends db (Api.User.id sender) (Api.User.id user) →
       (∀ fr, fr ∈ Api.friend_requests db → Api.FriendRequest.status fr = "pending" →
              (Api.FriendRequest.from_user_id fr = Api.User.id sender ∧
               Api.FriendRequest.to_user_id fr = Api.User.id user) ∨
              (Api.FriendRequest.from_user_id fr = Api.User.id user ∧
               Api.FriendRequest.to_user_id fr = Api.User.id sender) →
              Api.FriendRequest.id fr = request_id) →
       is_ok (Api.send_friend_request (Api.User.username user) sender db1) = true).
Proof.
  intros rid user db db1 fr1 Hrej. unfold Api.reject_friend_request in Hrej.
  destruct (db_get rid (Api.friend_requests db)) as [fr|] eqn:Hget; [|done].
  cbn [mbind result_bind or_raise] in Hrej.
  case_decide as Hto; [done|]. case_decide as Hst; [done|]. injection Hrej as <- <-.
  pose proof (db_get_Some _ _ _ Hget) as [Hin Hid].
  change (row_id fr) with (Api.FriendRequest.id fr) in Hid.
  set (fr1 := Api.set_fr_status fr "rejected").
  set (db1 := Api.set_friend_requests db _).
  assert (Api.friend_requests db1 = db_update fr1 (Api.friend_requests db)) as Hfrs
    by (by destruct db).
  assert (db_get rid (Api.friend_requests db1) = Some fr1) as Hget1.
  { rewrite Hfrs, db_get_update, Hget. cbn [fmap option_fmap option_map].
    by rewrite decide_True. }
  split_and!; try done.
  - intros caller.
    destruct (respond_handled rid db1 fr1 caller Hget1 ltac:(done)) as [-> ->]. done.
  - intros sender Hsender Hne Huser Hnofr Honly.
    assert (Api.get_user_by_username db1 (Api.User.username user) = Some user) as Huser1
      by (by destruct db).
    destruct (send_friend_request_cases (Api.User.username user) sender db1 user Huser1)
      as (_ & _ & _ & Hok).
    rewrite Hok; [done|congruence| |].
    + intros (f & Hf & Hu & Hv). apply Hnofr. exists f. split; [|done]. by destruct db.
    + intros (x & Hx & Hpend & Hdir). rewrite Hfrs in Hx. unfold db_update in Hx.
      apply list_elem_of_fmap in Hx as (y & -> & Hy).
      case_decide as Hy'; [done|]. apply Hy'.
      change (Api.FriendRequest.id y = Api.FriendRequest.id fr).
      rewrite Hid. by apply Honly.
Qed.

Lemma reject_allows_new_request_witness :
  ∃ db1 fr1,
    Api.reject_friend_request 1 Sample.bob Sample.db_requested = Ok (db1, fr1) ∧
    Api.friendships db1 = [] ∧
    is_ok (Api.send_friend_request "bob" Sample.alice db1) = true.
Proof.
  eexists _, _. split; [reflexivity|]. split; [reflexivity|].
  destruct (reject_allows_new_request 1 Sample.bob Sample.db_requested _ _ eq_refl)
    as (_ & _ & _ & _ & _ & Hsend).
  apply (Hsend Sample.alice); [reflexivity|simpl; lia|reflexivity| |].
  - intros (f & Hf & _). by apply elem_of_nil in Hf.
  - intros fr Hfr _ _. apply list_elem_of_singleton in Hfr. by subst fr.
Defined.

(** X12.  Accepting a request keeps the table of friendships canonical:
    every edge runs from the smaller to the larger identifier and no pair is
    stored twice.  On a canonical table nobody is listed twice among a user's
    friends, and nobody is their own friend. *)
Theorem friendships_stay_canonical :
  (∀ request_id user db db1 fr1,
     Api.canonical_friendships db →
     Api.accept_friend_request request_id user db = Ok (db1, fr1) →
     Api.canonical_friendships db1) ∧
  (∀ user db,
     Api.canonical_friendships db →
     NoDup (Api.friend_ids user db) ∧ Api.User.id user ∉ Api.friend_ids user db).
Proof.
  split; [|intros user db; apply friend_ids_NoDup].
  intros rid user db db1 fr1 [Hlt Hnd] Hacc.
  destruct (accept_friend_request_inv _ _ _ _ _ Hacc)
    as (fr & db2 & _ & _ & _ & Hne & _ & Hens & Hdb1 & _).
  unfold Api.canonical_friendships.
  assert (Api.friendships db1 = Api.friendships db2) as -> by (by subst db1).
  destruct (ensure_friendship_spec db _ _ Hne) as [[_ Heq]|[Hnofr Heq]];
    rewrite Heq in Hens; injection Hens as <-; [done|].
  cbn [Api.set_friendships Api.friendships]. split.
  - apply Forall_app. split; [done|]. apply Forall_singleton. cbn. lia.
  - rewrite fmap_app. apply NoDup_app. split; [done|]. split; [|apply NoDup_singleton].
    intros pair Hpair Hpair'. apply list_elem_of_singleton in Hpair'. subst pair.
    apply list_elem_of_fmap in Hpair as (f & Hf & Hin). cbn in Hf.
    apply Hnofr. exists f. split; [done|]. by injection Hf as <- <-.
Qed.

Lemma friendships_stay_canonical_witness :
  ∃ db1 fr1,
    Api.accept_friend_request 1 Sample.bob Sample.db_requested = Ok (db1, fr1) ∧
    Api.canonical_friendships db1 ∧
    NoDup (Api.friend_ids Sample.alice db1).
Proof.
  eexists _, _. split; [reflexivity|].
  assert (Api.canonical_friendships Sample.db_requested) as Hcanon
    by (split; [constructor|apply NoDup_nil_2]).
  pose proof (proj1 friendships_stay_canonical 1 Sample.bob Sample.db_requested _ _
                Hcanon eq_refl) as Hcanon1.
  split; [exact Hcanon1|].
  exact (proj1 (proj2 friendships_stay_canonical Sample.alice _ Hcanon1)).
Defined.

(** ** Registration and user names *)

Section username_facts.
Import Api.

Lemma word_prefix_spec s :
  ∃ body, s = (body ++ (word_prefix s).2)%string ∧
          String.length body = (word_prefix s).1 ∧
          all_word body = true ∧
          ((word_prefix s).2 = EmptyString ∨
           ∃ c r, (word_prefix s).2 = String c r ∧ word_char c = false).
Proof.
  induction s as [|c s (body & Heq & Hlen & Hall & Hrest)]; simpl.
  - exists EmptyString. split_and!; try done. by left.
  - destruct (word_char c) eqn:Hc.
    + destruct (word_prefix s) as [n rest]. cbn [fst snd] in *.
      exists (String c body). split_and!.
      * rewrite Heq at 1. reflexivity.
      * simpl. by rewrite Hlen.
      * simpl. by rewrite Hc.
      * done.
    + exists EmptyString. split_and!; try done. right. by exists c, s.
Qed.

Lemma word_prefix_app body rest :
  all_word body = true →
  (rest = EmptyString ∨ ∃ c r, rest = String c r ∧ word_char c = false) →
  word_prefix (body ++ rest) = (String.length body, rest).
Proof.
  intros Hall Hrest. induction body as [|c body IH]; simpl in *.
  - change (word_prefix rest = (O, rest)).
    destruct Hrest as [->|(c & r & -> & Hc)]; [done|]. simpl. by rewrite Hc.
  - apply andb_true_iff in Hall as [Hc Hall].
    change (word_prefix (String c (body ++ rest)%string) = (S (String.length body), rest)).
    simpl. rewrite Hc. by rewrite IH.
Qed.

Lemma string_app_nil_r (s : string) : (s ++ EmptyString)%string = s.
Proof.
  induction s as [|c s IH]; [done|].
  change (String c (s ++ EmptyString)%string = String c s). by rewrite IH.
Qed.

Lemma string_length_app (s1 s2 : string) :
  String.length (s1 ++ s2)%string = (String.length s1 + String.length s2)%nat.
Proof.
  induction s1 as [|c s1 IH]; [done|].
  change (S (String.length (s1 ++ s2)%string) = S (String.length s1 + String.length s2)).
  by rewrite IH.
Qed.
End username_facts.

(** X13.  [validate_username_or_400] accepts exactly the strings made of
    three to thirty letters, digits and underscores, and those strings
    followed by one line feed: the [$] of the pattern matches before a line
    feed that ends the string.  Every other name is refused with 400. *)
Theorem username_pattern :
  ∀ username,
    (Api.validate_username_or_400 username = Ok () ↔
     ∃ body, Api.all_word body = true ∧
             (3 ≤ String.length body ∧ String.length body ≤ 30)%nat ∧
             (username = body ∨ username = (body ++ String "010"%char EmptyString)%string)) ∧
    (Api.validate_username_or_400 username ≠ Ok () →
     Api.validate_username_or_400 username =
     Raise (HTTPException 400
              "Username must be 3-30 chars and contain only letters, numbers or _")).
Proof.
  intros username. split; [|unfold Api.validate_username_or_400;
                            by destruct (Api.username_re_match username)].
  unfold Api.validate_username_or_400, Api.username_re_match. split.
  - destruct (word_prefix_spec username) as (body & Heq & Hlen & Hall & _).
    destruct (Api.word_prefix username) as [n rest]. cbn [fst snd] in *.
    destruct (bool_decide (3 ≤ n ∧ n ≤ 30)%nat) eqn:Hn; [|done].
    destruct (bool_decide (rest = EmptyString ∨ _)) eqn:Hrest; [|done]. intros _.
    apply bool_decide_eq_true in Hn. apply bool_decide_eq_true in Hrest.
    exists body. split_and!; [done|lia|lia|].
    destruct Hrest as [->| ->]; [left|right]; [|done]. by rewrite string_app_nil_r in Heq.
  - intros (body & Hall & Hlen & Hname).
    assert (Api.word_prefix username =
            (String.length body,
             if decide (username = body) then EmptyString
             else String "010"%char EmptyString)) as ->.
    { destruct Hname as [->| ->].
      - rewrite decide_True by done. rewrite <- (string_app_nil_r body) at 1.
        apply word_prefix_app; [done|by left].
      - rewrite decide_False.
        + apply word_prefix_app; [done|]. right. by eexists _, _.
        + intros Heq. apply (f_equal String.length) in Heq.
          rewrite string_length_app in Heq. simpl in Heq. lia. }
    rewrite bool_decide_eq_true_2 by done.
    rewrite bool_decide_eq_true_2; [done|]. case_decide; [by left|by right].
Qed.

Section register_facts.
Import Api.

Lemma head_filter_None {A} (P : A → Prop) `{∀ x, Decision (P x)} (l : list A) :
  head (filter P l) = None ↔ ∀ x, x ∈ l → ¬ P x.
Proof.
  rewrite head_None. split.
  - intros Hnil x Hx Hp. by apply (filter_nil_not_elem_of _ _ x Hnil).
  - apply filter_none.
Qed.

End register_facts.

(** [len] counts characters, not bytes: a password of 100 letters of two
    bytes each is accepted, one of 129 letters of one byte is not. *)
Example register_counts_characters :
  len "éééééééééé" = 10%nat ∧ String.length "éééééééééé" = 20%nat ∧
  (let pw := String.concat "" (replicate 10 "éééééééééé") in
   len pw = 100%nat ∧ String.length pw = 200%nat ∧
   is_ok (Api.register (Api.mkRegisterPayload "dave@example.org" pw "Dave" "dave_1")
            Sample.db0) = true) ∧
  (let pw := String.concat "" (replicate 129 "a") in
   len pw = 129%nat ∧
   Api.register (Api.mkRegisterPayload "dave@example.org" pw "Dave" "dave_1") Sample.db0 =
   Raise (HTTPException 400 "Password too long (max 128 tecken)")).
Proof. cbv zeta. split_and!; reflexivity. Qed.

(** X14.  A successful [register] had a password of 1 to 128 characters
    and a user name that fits the pattern, and neither the email nor the user
    name was taken.  It appends the user under a new key, keeps emails, user
    names and keys unique, and the new user is the one found by that name.
    Registering the same email or the same user name again fails. *)
Theorem register_keeps_accounts_unique :
  ∀ payload db db' user,
    Api.unique_accounts db →
    Api.register payload db = Ok (db', user) →
    Api.unique_accounts db' ∧
    Api.users db' = Api.users db ++ [user] ∧
    user = Api.User.mk (db_fresh (Api.users db)) (Api.r_email payload)
             (Api.r_username payload) (Api.r_display_name payload) ∧
    (1 ≤ len (Api.r_password payload) ∧ len (Api.r_password payload) ≤ 128)%nat ∧
    Api.validate_username_or_400 (Api.r_username payload) = Ok () ∧
    Api.get_user_by_username db' (Api.r_username payload) = Some user ∧
    (∀ payload2,
       Api.r_email payload2 = Api.r_email payload ∨
       Api.r_username payload2 = Api.r_username payload →
       is_ok (Api.register payload2 db') = false).
Proof.
  intros payload db db' user (Hids & Hemails & Hnames) Hreg.
  unfold Api.register in Hreg.
  case_decide as Hempty; [done|]. case_decide as Hlong; [done|].
  destruct (Api.validate_username_or_400 _) as [[]|e] eqn:Hvalid; [|done].
  cbn [mbind result_bind] in Hreg.
  destruct (head (filter (λ u, Api.User.email u = _) _)) eqn:Hemail; [done|].
  destruct (head (filter (λ u, Api.User.username u = _) _)) eqn:Hname; [done|].
  injection Hreg as <- <-.
  set (user := Api.User.mk _ _ _ _).
  assert (Api.users (Api.set_users db (Api.users db ++ [user])) = Api.users db ++ [user])
    as Husers by (by destruct db).
  pose proof (proj1 (head_filter_None _ _) Hemail) as Hfree_email.
  pose proof (proj1 (head_filter_None _ _) Hname) as Hfree_name.
  split_and!; try done; try lia.
  - unfold Api.unique_accounts. rewrite Husers. split_and!.
    + by apply unique_ids_snoc.
    + rewrite fmap_app. apply NoDup_app. split; [done|]. split; [|apply NoDup_singleton].
      intros x Hx Hx'. apply list_elem_of_singleton in Hx'. subst x.
      apply list_elem_of_fmap in Hx as (u & Hu & Hin). by apply (Hfree_email u Hin).
    + rewrite fmap_app. apply NoDup_app. split; [done|]. split; [|apply NoDup_singleton].
      intros x Hx Hx'. apply list_elem_of_singleton in Hx'. subst x.
      apply list_elem_of_fmap in Hx as (u & Hu & Hin). by apply (Hfree_name u Hin).
  - unfold Api.get_user_by_username. rewrite Husers.
    by apply head_filter_snoc_None.
  - intros payload2 Hsame. unfold Api.register.
    case_decide; [done|]. case_decide; [done|].
    destruct (Api.validate_username_or_400 (Api.r_username payload2)) as [[]|e2]; [|done].
    cbn [mbind result_bind]. rewrite Husers.
    destruct (head (filter (λ u, Api.User.email u = Api.r_email payload2) _)) eqn:He2; [done|].
    destruct (head (filter (λ u, Api.User.username u = Api.r_username payload2) _)) eqn:Hn2;
      [done|].
    exfalso.
    assert (user ∈ Api.users db ++ [user]) as Hin by (apply elem_of_app; right; by left).
    destruct Hsame as [Hsame|Hsame].
    + by apply (proj1 (head_filter_None _ _) He2 user Hin).
    + by apply (proj1 (head_filter_None _ _) Hn2 user Hin).
Qed.

Lemma register_keeps_accounts_unique_witness :
  ∃ db' user,
    Api.register (Api.mkRegisterPayload "dave@example.org" "secret" "Dave" "dave_1")
      Sample.db0 = Ok (db', user) ∧
    Api.User.id user = 4 ∧
    Api.unique_accounts db' ∧
    is_ok (Api.register (Api.mkRegisterPayload "dave@example.org" "other" "D" "dave_2") db')
      = false.
Proof.
  eexists _, _. split; [reflexivity|]. split; [reflexivity|].
  assert (Api.unique_accounts Sample.db0) as Huniq
    by (split_and!; by apply (bool_decide_unpack _)).
  destruct (register_keeps_accounts_unique
              (Api.mkRegisterPayload "dave@example.org" "secret" "Dave" "dave_1")
              Sample.db0 _ _ Huniq eq_refl) as (Huniq' & _ & _ & _ & _ & _ & Hagain).
  split; [exact Huniq'|]. apply Hagain. by left.
Defined.

(** [uncons] splits a string that is not empty into its first character,
    one byte and the bytes that continue it, and the rest, which starts a
    character. *)
Lemma uncons_spec (s first rest : string) :
  uncons s = Some (first, rest) →
  s = (first ++ rest)%string ∧
  (∃ c bytes, first = String c bytes ∧ len bytes = O) ∧
  match rest with
  | String c _ => continuation c = false
  | EmptyString => True
  end.
Proof.
  destruct s as [|c s]; [done|]. cbn [uncons].
  assert (∀ t bytes tail, continuation_prefix t = (bytes, tail) →
            t = (bytes ++ tail)%string ∧ len bytes = O ∧
            match tail with
            | String c _ => continuation c = false
            | EmptyString => True
            end) as Hprefix.
  { induction t as [|d t IH]; intros bytes tail; cbn [continuation_prefix].
    - by intros [= <- <-].
    - destruct (continuation d) eqn:Hd.
      + destruct (continuation_prefix t) as [bytes' tail'].
        destruct (IH _ _ eq_refl) as (-> & Hlen & Htail). intros [= <- <-].
        split_and!; [done| |done]. cbn [len]. by rewrite Hd.
      + intros [= <- <-]. by split_and!. }
  destruct (continuation_prefix s) as [bytes tail] eqn:Hs.
  destruct (Hprefix _ _ _ Hs) as (-> & Hlen & Htail). intros [= <- <-].
  split_and!; [done| |done]. by exists c, bytes.
Qed.

(** With the upper case of one letter: the first character goes to upper
    case, be it one byte or two, and the name is left as it is when it
    starts in upper case or is empty. *)
Example clean_name_first_character :
  let upper := λ s : string,
    if decide (s = "ä") then "Ä" else if decide (s = "d") then "D" else s in
  Api.clean_name id upper "ärmhävning" = "Ärmhävning" ∧
  Api.clean_name id upper "deadlift" = "Deadlift" ∧
  Api.clean_name id upper "Ärmhävning" = "Ärmhävning" ∧
  Api.clean_name id upper "" = "".
Proof. cbv zeta. split_and!; reflexivity. Qed.

(** X15.  For any reading of [strip], [upper] and [lower]:
    [create_exercise] stores the cleaned name (the stripped name with its
    first character, of however many bytes, in upper case) under the caller
    and a new key, and keeps the names of an owner's exercises different up
    to case.  It refuses with 400 a name that an exercise of the caller has
    already, up to case; so creating the same exercise a second time
    fails. *)
Theorem create_exercise_keeps_names_unique :
  ∀ (strip upper lower : string → string) payload user db db' ex,
    Api.unique_names lower db →
    Api.create_exercise strip upper lower payload user db = Ok (db', ex) →
    Api.unique_names lower db' ∧
    Api.exercises db' = Api.exercises db ++ [ex] ∧
    ex = Api.Exercise.mk (db_fresh (Api.exercises db)) (Api.User.id user)
           (Api.clean_name strip upper (Api.c_name payload)) (Api.c_muscle_group payload)
           (Api.c_type payload) (Api.c_equipment payload) (Api.c_notes payload) ∧
    (strip (Api.c_name payload) = EmptyString → Api.Exercise.name ex = EmptyString) ∧
    (∀ first rest,
       uncons (strip (Api.c_name payload)) = Some (first, rest) →
       strip (Api.c_name payload) = (first ++ rest)%string ∧
       Api.Exercise.name ex = (upper first ++ rest)%string) ∧
    (∀ payload2,
       lower (Api.clean_name strip upper (Api.c_name payload2)) =
       lower (Api.Exercise.name ex) →
       Api.create_exercise strip upper lower payload2 user db' =
       Raise (HTTPException 400 "Exercise with this name already exists.")).
Proof.
  intros strip upper lower payload user db db' ex Huniq Hcreate.
  unfold Api.create_exercise in Hcreate.
  destruct (head (filter _ (Api.exercises db))) eqn:Hdup; [done|].
  injection Hcreate as <- <-. set (ex := Api.Exercise.mk _ _ _ _ _ _ _).
  assert (Api.exercises (Api.set_exercises db (Api.exercises db ++ [ex])) =
          Api.exercises db ++ [ex]) as Hexs by (by destruct db).
  pose proof (proj1 (head_filter_None _ _) Hdup) as Hfree.
  split_and!; try done.
  - unfold Api.unique_names. rewrite Hexs. intros i j ex1 ex2 Hi Hj Howner Hname.
    apply lookup_app_Some in Hi as [Hi|[Hi Hi']];
      apply lookup_app_Some in Hj as [Hj|[Hj Hj']].
    + by apply (Huniq i j ex1 ex2).
    + exfalso. apply list_lookup_singleton_Some in Hj' as [_ <-].
      apply (Hfree ex1); [by eapply list_elem_of_lookup_2|]. by split.
    + exfalso. apply list_lookup_singleton_Some in Hi' as [_ <-].
      apply (Hfree ex2); [by eapply list_elem_of_lookup_2|]. by split.
    + apply list_lookup_singleton_Some in Hi' as [Hi' _].
      apply list_lookup_singleton_Some in Hj' as [Hj' _]. lia.
  - intros Hempty. cbn. unfold Api.clean_name. by rewrite Hempty.
  - intros first rest Hsplit. split; [by apply uncons_spec in Hsplit as [? _]|].
    cbn. unfold Api.clean_name. by rewrite Hsplit.
  - intros payload2 Hsame. unfold Api.create_exercise. rewrite Hexs.
    destruct (head (filter _ (Api.exercises db ++ [ex]))) eqn:Hdup2; [done|].
    exfalso. apply (proj1 (head_filter_None _ _) Hdup2 ex).
    + apply elem_of_app. right. by left.
    + by split.
Qed.

Lemma create_exercise_keeps_names_unique_witness :
  ∃ db' ex,
    Api.create_exercise id id id (Api.mkExerciseCreate "Deadlift" "Back" "strength" "barbell" "")
      Sample.alice Sample.db0 = Ok (db', ex) ∧
    Api.Exercise.id ex = 9 ∧
    Api.unique_names id db' ∧
    Api.create_exercise id id id (Api.mkExerciseCreate "Deadlift" "" "" "" "")
      Sample.alice db' = Raise (HTTPException 400 "Exercise with this name already exists.").
Proof.
  eexists _, _. split; [reflexivity|]. split; [reflexivity|].
  assert (Api.unique_names id Sample.db0) as Huniq.
  { intros i j ex1 ex2 Hi Hj _ Hname.
    destruct i as [|[|i]], j as [|[|j]]; try done;
      simpl in Hi, Hj; injection Hi as <-; injection Hj as <-; done. }
  destruct (create_exercise_keeps_names_unique id id id
              (Api.mkExerciseCreate "Deadlift" "Back" "strength" "barbell" "")
              Sample.alice Sample.db0 _ _ Huniq eq_refl) as (Huniq' & _ & _ & _ & _ & Hagain).
  split; [exact Huniq'|]. by apply Hagain.
Defined.

(** ** A session from start to finish *)

(** X16.  [start_session] on a template of one's own stores a session in
    progress under a new key, owned by the caller, with the names of the
    template and of its program as they are at that moment (no program name
    when the program is gone) and the date given, or today's.  The caller can
    log to it a set whose integers fit 64 bits and whose floats are numbers,
    and finish it: the finished session is returned with the status done,
    its other fields as they were, and with that set.  Anybody else is refused
    with 403 whatever they try on it. *)
Theorem started_session_runs :
  ∀ today payload user db db1 sess logs1 log,
    Api.start_session today payload user db = Ok (db1, (sess, logs1)) →
    (∃ tpl,
       db_get (Api.s_template_id payload) (Api.workout_templates db) = Some tpl ∧
       Api.WorkoutTemplate.owner_id tpl = Api.User.id user ∧
       sess = Api.Session.mk (db_fresh (Api.sessions db)) (Api.User.id user)
                (Api.WorkoutTemplate.id tpl) (Api.WorkoutTemplate.program_id tpl)
                (Api.WorkoutTemplate.name tpl)
                (from_option Api.Program.name EmptyString
                   (db_get (Api.WorkoutTemplate.program_id tpl) (Api.programs db)))
                (match Api.s_date payload with
                 | Some (String c s) => String c s
                 | _ => today
                 end) "in_progress") ∧
    Api.sessions db1 = Api.sessions db ++ [sess] ∧
    (∀ weight rpe,
       int64 (Api.p_exercise_id log) = true →
       int64 (Api.p_set_number log) = true →
       int64 (Api.p_reps log) = true →
       Api.p_weight log = Num weight →
       Api.p_rpe log = Num rpe →
       ∃ db2 set_log db3 sess' logs3,
         Api.log_set (Api.Session.id sess) log user db1 = Ok (db2, set_log) ∧
         set_log = Api.SetLog.mk (db_fresh (Api.set_logs db)) (Api.Session.id sess)
                     (Api.p_exercise_id log) (Api.p_set_number log) weight
                     (Api.p_reps log) rpe (Api.p_comment log) ∧
         Api.finish_session (Api.Session.id sess) user db2 = Ok (db3, (sess', logs3)) ∧
         Api.Session.status sess' = "done" ∧
         sess' = Api.Session.mk (Api.Session.id sess) (Api.Session.owner_id sess)
                   (Api.Session.template_id sess) (Api.Session.program_id sess)
                   (Api.Session.template_name sess) (Api.Session.program_name sess)
                   (Api.Session.date sess) "done" ∧
         db_get (Api.Session.id sess) (Api.sessions db3) = Some sess' ∧
         set_log ∈ logs3) ∧
    (∀ other,
       Api.User.id other ≠ Api.User.id user →
       Api.log_set (Api.Session.id sess) log other db1 = Raise (HTTPException 403 "Not allowed") ∧
       Api.finish_session (Api.Session.id sess) other db1 =
         Raise (HTTPException 403 "Not allowed") ∧
       Api.cancel_session (Api.Session.id sess) other db1 =
         Raise (HTTPException 403 "Not allowed") ∧
       Api.delete_session (Api.Session.id sess) other db1 =
         Raise (HTTPException 403 "Not allowed")).
Proof.
  intros today payload user db db1 sess logs1 log Hstart.
  unfold Api.start_session in Hstart.
  destruct (db_get _ (Api.workout_templates db)) as [tpl|] eqn:Htpl; [|done].
  cbn [mbind result_bind or_raise] in Hstart.
  destruct (Api.ensure_owner _ user) as [[]|e] eqn:Hown; [|done].
  apply ensure_owner_Ok in Hown. cbn [mbind result_bind] in Hstart. cbv zeta in Hstart.
  injection Hstart as <- <- _.
  set (sess := Api.Session.mk _ _ _ _ _ _ _ _).
  set (db1 := Api.set_sessions db _).
  assert (Api.sessions db1 = Api.sessions db ++ [sess]) as Hsessions by (by destruct db).
  assert (db_get (Api.Session.id sess) (Api.sessions db1) = Some sess) as Hget.
  { rewrite Hsessions. by apply (db_get_fresh (Api.sessions db) sess). }
  split; [by exists tpl|]. split; [done|]. split.
  - intros weight rpe He Hn Hr Hweight Hrpe.
    unfold Api.log_set. rewrite Hget. cbn [mbind result_bind or_raise].
    rewrite (proj2 (ensure_owner_Ok (Api.Session.owner_id sess) user)) by done.
    cbn [mbind result_bind]. rewrite He, Hn, Hr, Hweight, Hrpe. cbn [negb andb]. cbv zeta.
    set (set_log := Api.SetLog.mk _ _ _ _ _ _ _ _).
    set (db2 := Api.set_set_logs db1 _).
    assert (db_get (Api.Session.id sess) (Api.sessions db2) = Some sess) as Hget2
      by (by destruct db).
    eexists db2, set_log, _, _, _. split; [done|]. split; [by destruct db|].
    rewrite (finish_session_unfold _ _ _ sess Hget2 eq_refl). cbv zeta.
    split; [reflexivity|]. split; [done|]. split; [done|]. split.
    + cbn [Api.set_sessions Api.sessions]. rewrite db_get_update.
      change (Api.sessions (Api.set_personal_bests db2 _)) with (Api.sessions db2).
      rewrite Hget2. cbn [fmap option_fmap option_map]. by rewrite decide_True.
    + unfold Api.serialize_session. cbn [snd].
      apply list_elem_of_filter. split; [done|].
      destruct db. cbn. apply elem_of_app. right. by left.
  - intros other Hother.
    unfold Api.log_set, Api.finish_session, Api.cancel_session, Api.delete_session.
    rewrite Hget. cbn [mbind result_bind or_raise]. unfold Api.ensure_owner.
    rewrite decide_True by (cbn; congruence). done.
Qed.

Lemma started_session_runs_witness :
  ∃ db1 sess,
    Api.start_session "2024-02-01" (Api.mkSessionStartPayload 2 None) Sample.alice Sample.db1 =
      Ok (db1, (sess, [])) ∧
    sess = Api.Session.mk 2 1 2 1 "Legs" "Base" "2024-02-01" "in_progress" ∧
    (∃ db2 set_log db3 sess' logs3,
       Api.log_set 2 Sample.payload_90x8 Sample.alice db1 = Ok (db2, set_log) ∧
       Api.finish_session 2 Sample.alice db2 = Ok (db3, (sess', logs3)) ∧
       Api.Session.status sess' = "done" ∧ set_log ∈ logs3) ∧
    Api.finish_session 2 Sample.bob db1 = Raise (HTTPException 403 "Not allowed").
Proof.
  eexists _, _. split; [reflexivity|]. split; [reflexivity|].
  destruct (started_session_runs "2024-02-01" (Api.mkSessionStartPayload 2 None) Sample.alice
              Sample.db1 _ _ _ Sample.payload_90x8 eq_refl) as (_ & _ & Hrun & Hother).
  split.
  - destruct (Hrun 90%Q 9%Q eq_refl eq_refl eq_refl eq_refl eq_refl)
      as (db2 & set_log & db3 & sess' & logs3 & Hlog & _ & Hfin & Hdone & _ & _ & Hin).
    by exists db2, set_log, db3, sess', logs3.
  - exact (proj1 (proj2 (Hother Sample.bob ltac:(simpl; lia)))).
Defined.

(** ** The estimate of the one-repetition maximum *)

(** X17.  [estimate_one_rm] is the weight itself for no repetition and
    twice the weight for thirty; for a weight and a rep count that are not
    negative it is at least the weight, and it does not decrease when the
    weight or the rep count grows.  The prototype computes the same value
    of a weight that is a number, and NaN of NaN. *)
Theorem estimate_one_rm_bounds :
  ∀ weight weight' reps reps',
    (Api.estimate_one_rm weight 0 == weight)%Q ∧
    (Api.estimate_one_rm weight 30 == 2 * weight)%Q ∧
    Gym.estimate_one_rm (Num weight) reps = Num (Api.estimate_one_rm weight reps) ∧
    Gym.estimate_one_rm NaN reps = NaN ∧
    ((0 <= weight)%Q → 0 ≤ reps → (weight <= Api.estimate_one_rm weight reps)%Q) ∧
    ((0 <= weight)%Q → reps ≤ reps' →
     (Api.estimate_one_rm weight reps <= Api.estimate_one_rm weight reps')%Q) ∧
    ((weight <= weight')%Q → 0 ≤ reps →
     (Api.estimate_one_rm weight reps <= Api.estimate_one_rm weight' reps)%Q).
Proof.
  intros w w' r r'. unfold Api.estimate_one_rm, Gym.estimate_one_rm.
  assert (∀ z z' : Z, z ≤ z' → (inject_Z z / 30 <= inject_Z z' / 30)%Q) as Hmono.
  { intros z z' Hz. apply Qmult_le_compat_r; [by rewrite <- Zle_Qle|done]. }
  assert (∀ z : Z, 0 ≤ z → (0 <= inject_Z z / 30)%Q) as Hpos.
  { intros z Hz. apply Qle_shift_div_l; [done|]. rewrite Qmult_0_l.
    change 0%Q with (inject_Z 0). by rewrite <- Zle_Qle. }
  split_and!.
  - change (inject_Z 0) with 0%Q. field.
  - change (inject_Z 30) with 30%Q. field.
  - done.
  - done.
  - intros Hw Hr. pose proof (Hpos r Hr). nra.
  - intros Hw Hr. pose proof (Hmono r r' Hr). nra.
  - intros Hw Hr. pose proof (Hpos r Hr). nra.
Qed.

Lemma estimate_one_rm_bounds_witness :
  (100 <= Api.estimate_one_rm 100 5)%Q ∧
  (Api.estimate_one_rm 100 5 <= Api.estimate_one_rm 100 8)%Q.
Proof.
  destruct (estimate_one_rm_bounds 100 100 5 8) as (_ & _ & _ & _ & Hge & Hmono & _).
  split; [apply Hge; [done|lia]|apply Hmono; [done|lia]].
Defined.

(** ** The database URL *)

Section db_url_facts.
Import Db.

Lemma prefix_split (p s : string) :
  String.prefix p s = true → s = (p ++ string_drop (String.length p) s)%string.
Proof.
  revert s. induction p as [|c p IH]; intros s Hp; [done|].
  destruct s as [|c' s]; [done|]. simpl in Hp.
  destruct (ascii_dec c c') as [->|]; [|done].
  change (String c' s = String c' (p ++ string_drop (String.length p) s)%string).
  f_equal. by apply IH.
Qed.

Lemma replace_first_prefix (s old new : string) :
  String.prefix old s = true →
  replace_first s old new = (new ++ string_drop (String.length old) s)%string.
Proof. intros Hp. destruct s; cbn [replace_first]; by rewrite Hp. Qed.

Lemma string_drop_app (p rest : string) : string_drop (String.length p) (p ++ rest) = rest.
Proof. induction p as [|c p IH]; [by destruct rest|]. exact IH. Qed.

Lemma prefix_app (p rest : string) : String.prefix p (p ++ rest) = true.
Proof.
  induction p as [|c p IH]; [by destruct rest|].
  change (String.prefix (String c p) (String c (p ++ rest)%string) = true).
  simpl. by destruct (ascii_dec c c).
Qed.

Lemma string_app_inj (p a b : string) : (p ++ a)%string = (p ++ b)%string → a = b.
Proof.
  induction p as [|c p IH]; [done|]. intros Heq.
  change (String c (p ++ a)%string = String c (p ++ b)%string) in Heq.
  injection Heq as Heq. by apply IH.
Qed.
End db_url_facts.

(** X18.  [_normalize_db_url] rewrites the scheme [postgres://] or
    [postgresql://] of a URL to [postgresql+psycopg://] and keeps all that
    follows the scheme; any other URL is returned as it is.  Its result never
    has one of the two bare schemes, and normalising twice is normalising
    once. *)
Theorem normalize_db_url_scheme :
  ∀ url,
    Db._normalize_db_url (Db._normalize_db_url url) = Db._normalize_db_url url ∧
    String.prefix "postgres://" (Db._normalize_db_url url) = false ∧
    String.prefix "postgresql://" (Db._normalize_db_url url) = false ∧
    (∀ rest, url = ("postgres://" ++ rest)%string ∨ url = ("postgresql://" ++ rest)%string →
             Db._normalize_db_url url = ("postgresql+psycopg://" ++ rest)%string) ∧
    (String.prefix "postgres://" url = false → String.prefix "postgresql://" url = false →
     Db._normalize_db_url url = url).
Proof.
  intros url.
  assert (∀ rest, Db._normalize_db_url ("postgresql+psycopg://" ++ rest) =
                  ("postgresql+psycopg://" ++ rest)%string) as Hfix.
  { intros rest. unfold Db._normalize_db_url.
    replace (String.prefix "postgres://" ("postgresql+psycopg://" ++ rest)) with false by done.
    by replace (String.prefix "postgresql://" ("postgresql+psycopg://" ++ rest))
      with false by done. }
  assert (∀ rest, Db._normalize_db_url ("postgres://" ++ rest) =
                  ("postgresql+psycopg://" ++ rest)%string) as Hone.
  { intros rest. unfold Db._normalize_db_url. rewrite prefix_app.
    rewrite replace_first_prefix by apply prefix_app. by rewrite string_drop_app. }
  assert (∀ rest, Db._normalize_db_url ("postgresql://" ++ rest) =
                  ("postgresql+psycopg://" ++ rest)%string) as Htwo.
  { intros rest. unfold Db._normalize_db_url.
    replace (String.prefix "postgres://" ("postgresql://" ++ rest)) with false by done.
    rewrite prefix_app.
    replace (String.prefix "postgresql+psycopg://" ("postgresql://" ++ rest))
      with false by done.
    cbn [negb andb]. rewrite replace_first_prefix by apply prefix_app.
    by rewrite string_drop_app. }
  assert (∀ rest, String.prefix "postgres://" ("postgresql+psycopg://" ++ rest) = false ∧
                  String.prefix "postgresql://" ("postgresql+psycopg://" ++ rest) = false)
    as Hscheme by done.
  destruct (String.prefix "postgres://" url) eqn:H1.
  { apply prefix_split in H1. remember (Db.string_drop _ url) as tail eqn:Htail.
    clear Htail. subst url. rewrite Hone, Hfix.
    split_and!; try done; try apply Hscheme.
    intros rest [Heq|Heq].
    - by apply string_app_inj in Heq as ->.
    - apply (f_equal (String.prefix "postgresql://")) in Heq.
      by rewrite prefix_app in Heq. }
  destruct (String.prefix "postgresql://" url) eqn:H2.
  { apply prefix_split in H2. remember (Db.string_drop _ url) as tail eqn:Htail.
    clear Htail. subst url. rewrite Htwo, Hfix.
    split_and!; try done; try apply Hscheme.
    intros rest [Heq|Heq].
    - apply (f_equal (String.prefix "postgresql://")) in Heq.
      by rewrite prefix_app in Heq.
    - by apply string_app_inj in Heq as ->. }
  assert (Db._normalize_db_url url = url) as Hsame.
  { unfold Db._normalize_db_url. by rewrite H1, H2. }
  rewrite !Hsame. split_and!; try done.
  intros rest [->| ->]; [by rewrite prefix_app in H1|by rewrite prefix_app in H2].
Qed.

Lemma normalize_db_url_scheme_witness :
  Db._normalize_db_url "postgres://gym:pw@db.example.org:5432/gym" =
    "postgresql+psycopg://gym:pw@db.example.org:5432/gym" ∧
  Db._normalize_db_url "sqlite:///data/app.db" = "sqlite:///data/app.db".
Proof.
  split.
  - apply (proj1 (proj2 (proj2 (proj2 (normalize_db_url_scheme _))))). by left.
  - by apply (proj2 (proj2 (proj2 (proj2 (normalize_db_url_scheme _))))).
Defined.

(** ** The prototype: references between the lists *)

Section link_facts.
Import Gym.
Implicit Types (db : DB) (tpl : Template.t) (rows : list ExerciseRow.t).
Implicit Types (progs : list Program.t) (exs : list Exercise.t).

Lemma find_item_Some {A} `{Item A} (items : list A) id i x :
  find_item items id = Some (i, x) → items !! i = Some x ∧ x ∈ items ∧ item_id x = id.
Proof.
  unfold find_item. intros Hf. apply list_find_Some in Hf as (Hi & Hid & _).
  split_and!; [done| |done]. by eapply list_elem_of_lookup_2.
Qed.

Lemma find_item_is_Some {A} `{Item A} (items : list A) id x :
  x ∈ items → item_id x = id → is_Some (find_item items id).
Proof.
  intros Hx Hid. unfold find_item.
  destruct (list_find_elem_of (λ item, item_id item = id) items x Hx Hid) as [[i y] Hf].
  by rewrite Hf.
Qed.

Lemma find_item_None {A} `{Item A} (items : list A) id :
  find_item items id = None → ∀ x, x ∈ items → item_id x ≠ id.
Proof.
  intros Hnone x Hx Hid. destruct (find_item_is_Some items id x Hx Hid) as [? Hsome].
  congruence.
Qed.

Lemma row_linked_mono exs extra row :
  row_linked exs row → row_linked (exs ++ extra) row.
Proof. intros (ex & Hex & Hid). exists ex. split; [|done]. apply elem_of_app. by left. Qed.

Lemma linked_mono progs exs ps es tpl :
  linked progs exs tpl → linked (progs ++ ps) (exs ++ es) tpl.
Proof.
  intros [(p & Hp & Hid) Hrows]. split.
  - exists p. split; [|done]. apply elem_of_app. by left.
  - eapply Forall_impl; [exact Hrows|]. intros row. apply row_linked_mono.
Qed.

(** A copy of a row points where the row points. *)
Lemma copied_rows_linked exs rows (ids : list Id) :
  Forall (row_linked exs) rows →
  Forall (row_linked exs) (zip_with with_id rows ids).
Proof.
  intros Hrows. revert ids. induction Hrows as [|row rows Hrow _ IH]; intros [|id ids];
    try constructor; [done|apply IH].
Qed.

(** The loop of [copy_program] appends linked templates to linked ones. *)
Lemma copy_templates_linked draw progs exs fuel i pid npid templates k templates' k' :
  (∃ p, p ∈ progs ∧ Program.id p = npid) →
  Forall (linked progs exs) templates →
  copy_templates draw fuel i pid npid templates k = Some (templates', k') →
  Forall (linked progs exs) templates'.
Proof.
  intros Hnew. revert i templates k.
  induction fuel as [|fuel IH]; intros i templates k Hall Hcopy; [done|].
  simpl in Hcopy. destruct (templates !! i) as [tpl|] eqn:Hi; [|by injection Hcopy as <- _].
  case_decide as Hpid; [by apply (IH (S i) templates k)|].
  rewrite copy_rows_spec in Hcopy. apply (IH _ _ _) in Hcopy; [done|].
  apply Forall_app. split; [done|]. apply Forall_singleton. split; [done|].
  cbn [Template.exercises]. apply copied_rows_linked.
  rewrite Forall_forall in Hall. by apply (Hall tpl (list_elem_of_lookup_2 _ _ _ Hi)).
Qed.

(** [show_rows] prints a line per row and ends well exactly on linked
    rows. *)
Lemma show_rows_linked db rows :
  (show_rows db rows).2 = Ok () ↔ Forall (row_linked (exercises db)) rows.
Proof.
  induction rows as [|row rows IH]; [by split; [constructor|]|].
  cbn [show_rows]. unfold require_id.
  destruct (find_item (exercises db) (ExerciseRow.exercise_id row)) as [[j ex]|] eqn:Hf;
    cbn [or_raise].
  - destruct (show_rows db rows) as [lines r]. cbn [snd] in *. rewrite IH.
    apply find_item_Some in Hf as (_ & Hex & Hid). split.
    + intros Hrows. constructor; [by exists ex|done].
    + by intros [_ Hrows]%Forall_cons.
  - split; [done|]. intros [(ex & Hex & Hid) _]%Forall_cons.
    by destruct (find_item_None _ _ Hf ex Hex).
Qed.

Lemma show_rows_length db rows :
  (show_rows db rows).2 = Ok () → length (show_rows db rows).1 = length rows.
Proof.
  induction rows as [|row rows IH]; [done|]. cbn [show_rows].
  destruct (require_id _ _ _) as [[j ex]|e]; [|done].
  destruct (show_rows db rows) as [lines r]. cbn [fst snd] in *.
  intros Hr. simpl. by rewrite IH.
Qed.
End link_facts.

(** X19.  The commands of the prototype that write keep the document well
    linked: after [add_exercise], [add_program], [add_template],
    [add_template_exercise], [copy_program], [start_session], [log_set] and
    [finish_session] every template still belongs to a stored program and
    every row of a template still points at a stored exercise.
    [add_template] and [add_template_exercise] exit when the program, the
    template or the exercise they are given is not stored. *)
Theorem prototype_keeps_links :
  (∀ draw args db k, Gym.well_linked db → Gym.well_linked (Gym.add_exercise draw args db k).1.1) ∧
  (∀ draw args db k, Gym.well_linked db → Gym.well_linked (Gym.add_program draw args db k).1.1) ∧
  (∀ draw args db k db' k' out,
     Gym.well_linked db → Gym.add_template draw args db k = Ok (db', k', out) →
     Gym.well_linked db' ∧
     is_Some (Gym.find_item (Gym.programs db) (Gym.t_program_id args))) ∧
  (∀ draw args db k db' k' out,
     Gym.well_linked db → Gym.add_template_exercise draw args db k = Ok (db', k', out) →
     Gym.well_linked db' ∧
     is_Some (Gym.find_item (Gym.workout_templates db) (Gym.r_template_id args)) ∧
     is_Some (Gym.find_item (Gym.exercises db) (Gym.r_exercise_id args))) ∧
  (∀ draw fuel args db k db' k',
     Gym.well_linked db → Gym.copy_program draw fuel args db k = Some (Ok (db', k')) →
     Gym.well_linked db') ∧
  (∀ draw today args db k db' k' out,
     Gym.well_linked db → Gym.start_session draw today args db k = Ok (db', k', out) →
     Gym.well_linked db') ∧
  (∀ draw args db k db' k' out,
     Gym.well_linked db → Gym.log_set draw args db k = Ok (db', k', out) → Gym.well_linked db') ∧
  (∀ draw session_id db k db' k' out,
     Gym.well_linked db → Gym.finish_session draw session_id db k = Ok (db', k', out) →
     Gym.well_linked db').
Proof.
  unfold Gym.well_linked. split_and!.
  - intros draw args db k Hdb. cbn.
    eapply Forall_impl; [exact Hdb|]. intros tpl Htpl.
    rewrite <- (app_nil_r (Gym.programs db)). by apply linked_mono.
  - intros draw args db k Hdb. cbn.
    eapply Forall_impl; [exact Hdb|]. intros tpl Htpl.
    rewrite <- (app_nil_r (Gym.exercises db)). by apply linked_mono.
  - intros draw args db k db' k' out Hdb. unfold Gym.add_template, Gym.require_id.
    destruct (Gym.find_item (Gym.programs db) _) as [[i p]|] eqn:Hf; [|done].
    cbn. intros [= <- _ _]. split; [|done]. cbn.
    apply Forall_app. split; [done|]. apply Forall_singleton.
    apply find_item_Some in Hf as (_ & Hp & Hid). split; [by exists p|constructor].
  - intros draw args db k db' k' out Hdb. unfold Gym.add_template_exercise, Gym.require_id.
    destruct (Gym.find_item (Gym.workout_templates db) _) as [[i tpl]|] eqn:Ht; [|done].
    cbn [or_raise mbind result_bind].
    destruct (Gym.find_item (Gym.exercises db) _) as [[j ex]|] eqn:He; [|done].
    cbn. intros [= <- _ _]. split; [|done]. cbn.
    apply find_item_Some in Ht as (Hi & Htpl & _).
    apply find_item_Some in He as (_ & Hex & Hid).
    apply Forall_insert; [done|].
    rewrite Forall_forall in Hdb. destruct (Hdb tpl Htpl) as [Hprog Hrows].
    split; [done|]. cbn. apply Forall_app. split; [done|].
    apply Forall_singleton. by exists ex.
  - intros draw fuel args db k db' k' Hdb. unfold Gym.copy_program, Gym.require_id.
    destruct (Gym.find_item (Gym.programs db) _) as [[i program]|] eqn:Hf; [|done].
    cbn [or_raise Gym.gen_id].
    destruct (Gym.copy_templates draw _ _ _ _ _ _) as [[templates k2]|] eqn:Hcopy; [|done].
    cbn. intros [= <- _]. cbn.
    eapply copy_templates_linked; [| |exact Hcopy].
    + eexists. split; [apply elem_of_app; right; by left|done].
    + eapply Forall_impl; [exact Hdb|]. intros tpl Htpl.
      rewrite <- (app_nil_r (Gym.exercises db)). by apply linked_mono.
  - intros draw today args db k db' k' out Hdb. unfold Gym.start_session, Gym.require_id.
    destruct (Gym.find_item (Gym.workout_templates db) _) as [[i tpl]|]; [|done].
    cbn [or_raise mbind result_bind].
    destruct (Gym.find_item (Gym.programs db) _) as [[j p]|]; [|done].
    cbn. by intros [= <- _ _].
  - intros draw args db k db' k' out Hdb. unfold Gym.log_set, Gym.require_id.
    destruct (Gym.find_item (Gym.sessions db) _) as [[i s]|]; [|done].
    cbn [or_raise mbind result_bind].
    destruct (Gym.find_item (Gym.exercises db) _) as [[j ex]|]; [|done].
    cbn. by intros [= <- _ _].
  - intros draw sid db k db' k' out Hdb. unfold Gym.finish_session, Gym.require_id.
    destruct (Gym.find_item (Gym.sessions db) _) as [[i s]|]; [|done].
    cbn [or_raise mbind result_bind].
    case_decide; [by intros [= <- _ _]|].
    destruct (Gym.update_personal_bests draw _ _ _) as [pbs k2]. by intros [= <- _ _].
Qed.

Lemma prototype_keeps_links_witness :
  Gym.well_linked GymSample.db0 ∧
  ∃ db' k' out,
    Gym.add_template_exercise GymSample.draw
      (Gym.mkRowArgs 6%nat 7%nat "3" "10" "40kg" "" "" "") GymSample.db0 20 = Ok (db', k', out) ∧
    Gym.well_linked db'.
Proof.
  assert (Gym.well_linked GymSample.db0) as Hdb.
  { assert (Gym.row_linked (Gym.exercises GymSample.db0)
              (Gym.ExerciseRow.mk 4%nat 7%nat "4" "6-8" "70kg" "7" "2m" "")) as H4
      by (exists GymSample.bench; split; [by left|done]).
    assert (Gym.row_linked (Gym.exercises GymSample.db0)
              (Gym.ExerciseRow.mk 5%nat 7%nat "2" "12" "50kg" "8" "1m" "back-off")) as H5
      by (exists GymSample.bench; split; [by left|done]).
    assert (Gym.row_linked (Gym.exercises GymSample.db0)
              (Gym.ExerciseRow.mk 9%nat 8%nat "5" "5" "100kg" "8" "3m" "")) as H9
      by (exists GymSample.squat; split; [right; by left|done]).
    assert (Gym.row_linked (Gym.exercises GymSample.db0)
              (Gym.ExerciseRow.mk 11%nat 8%nat "3" "10" "" "" "" "")) as H11
      by (exists GymSample.squat; split; [right; by left|done]).
    unfold Gym.well_linked. cbn [Gym.workout_templates GymSample.db0].
    apply Forall_cons; split; [|apply Forall_cons; split; [|apply Forall_cons; split;
      [|by apply Forall_nil]]].
    - split; [exists GymSample.base_program; split; [by left|done]|].
      by repeat constructor.
    - split; [exists GymSample.other_program; split; [right; by left|done]|].
      by repeat constructor.
    - split; [exists GymSample.base_program; split; [by left|done]|].
      by repeat constructor. }
  split; [exact Hdb|]. eexists _, _, _. split; [reflexivity|].
  exact (proj1 (proj1 (proj2 (proj2 (proj2 prototype_keeps_links))) GymSample.draw
                  (Gym.mkRowArgs 6%nat 7%nat "3" "10" "40kg" "" "" "") GymSample.db0 20%nat
                  _ _ _ Hdb eq_refl)).
Defined.

(** X20.  [show_template] on a stored template prints its lines to the end
    exactly when the template is linked: its program is stored and every row
    points at a stored exercise; it then prints the heading and one line per
    row (or the notice that there is none).  On a linked template
    [start_session] succeeds as well. *)
Theorem show_template_needs_links :
  ∀ db template_id i tpl,
    Gym.find_item (Gym.workout_templates db) template_id = Some (i, tpl) →
    ((Gym.show_template template_id db).2 = Ok () ↔
     Gym.linked (Gym.programs db) (Gym.exercises db) tpl) ∧
    (Gym.linked (Gym.programs db) (Gym.exercises db) tpl →
     length (Gym.show_template template_id db).1 =
       S (Nat.max 1 (length (Gym.Template.exercises tpl))) ∧
     ∀ draw today date k,
       is_ok (Gym.start_session draw today (Gym.mkStartArgs template_id date) db k) = true).
Proof.
  intros db tid i tpl Hf.
  assert ((Gym.show_template tid db).2 = Ok () ↔
          Gym.linked (Gym.programs db) (Gym.exercises db) tpl) as Hiff.
  { unfold Gym.show_template, Gym.require_id, Gym.linked. rewrite Hf. cbn [or_raise].
    destruct (Gym.find_item (Gym.programs db) _) as [[j p]|] eqn:Hp; cbn [or_raise].
    - apply find_item_Some in Hp as (_ & Hp & Hid).
      pose proof (show_rows_linked db (Gym.Template.exercises tpl)) as Hrows.
      destruct (Gym.Template.exercises tpl) as [|row rows] eqn:Hex.
      + split; [intros _; split; [by exists p|constructor]|done].
      + destruct (Gym.show_rows db (row :: rows)) as [lines r]. cbn [snd] in *.
        rewrite Hrows. split; [intros ?; split; [by exists p|done]|by intros [_ ?]].
    - split; [done|]. intros [(p & Hin & Hid) _].
      by destruct (find_item_None _ _ Hp p Hin). }
  split; [done|]. intros Hlinked. split.
  - pose proof (proj2 Hiff Hlinked) as Hok. revert Hok.
    unfold Gym.show_template, Gym.require_id. rewrite Hf. cbn [or_raise].
    destruct (Gym.find_item (Gym.programs db) _) as [[j p]|]; [|done]. cbn [or_raise].
    pose proof (show_rows_length db (Gym.Template.exercises tpl)) as Hlen.
    destruct (Gym.Template.exercises tpl) as [|row rows]; [done|].
    destruct (Gym.show_rows db (row :: rows)) as [lines r]. cbn [fst snd] in *.
    intros Hr. specialize (Hlen Hr). simpl in *. lia.
  - intros draw today date k. unfold Gym.start_session, Gym.require_id.
    cbn [Gym.s_template_id]. rewrite Hf.
    cbn [or_raise mbind result_bind]. destruct Hlinked as [(p & Hin & Hid) _].
    destruct (Gym.find_item (Gym.programs db) (Gym.Template.program_id tpl))
      as [[j q]|] eqn:Hq; [done|].
    by destruct (find_item_None _ _ Hq p Hin).
Qed.

Lemma show_template_needs_links_witness :
  (Gym.show_template 3%nat GymSample.db0).2 = Ok () ∧
  length (Gym.show_template 3%nat GymSample.db0).1 = 3%nat.
Proof.
  destruct (show_template_needs_links GymSample.db0 3%nat 0%nat GymSample.push_day eq_refl)
    as [Hiff Hlen].
  assert (Gym.linked (Gym.programs GymSample.db0) (Gym.exercises GymSample.db0)
            GymSample.push_day) as Hlinked.
  { split; [exists GymSample.base_program; split; [by left|done]|].
    repeat (apply Forall_cons; split); try (by apply Forall_nil);
      exists GymSample.bench; (split; [by left|done]). }
  split; [exact (proj2 Hiff Hlinked)|exact (proj1 (Hlen Hlinked))].
Defined.

(** The HTTP front adds a row without looking the exercise up: the row may
    point at nothing, and [show_template] then exits at that row, after the
    heading and the lines of the rows before it. *)
Example server_add_exercise_breaks_links :
  ∀ draw,
    ∃ db' k' row,
      Server.templates_add_exercise draw 6%nat (Some 99%nat)
        (Gym.mkRowArgs 6%nat 99%nat "3" "10" "" "" "" "") GymSample.db0 20 = Ok (db', k', row) ∧
      Gym.show_template 6%nat db' =
        (["Template Legs (id=6) in program Base";
          "  9: Squat | sets 5 | reps 5 | weight 100kg | RPE 8 | rest 3m | "],
         Raise (SystemExit "Exercise with id '99' not found")).
Proof. intros draw. eexists _, _, _. split; vm_compute; reflexivity. Qed.

(** ** The prototype: seeding the standard exercises *)

Section seed_facts.
Import Gym.
Variable draw : nat → Id.
Variable lower : string → string.
Implicit Types (existing : gset string) (exs news : list Exercise.t) (k added : nat).
Implicit Types (entries : list (string * string * string * string * string)).

(** The loop appends the entries whose name is not among the existing
    ones, drawing an identifier for each. *)
Lemma seed_loop_spec existing entries exs k added :
  ∃ news,
    foldl (seed_step draw lower existing) (exs, k, added) entries =
      (exs ++ news, (k + length news)%nat, (added + length news)%nat) ∧
    (length news ≤ length entries)%nat ∧
    Forall (λ ex, lower (Exercise.name ex) ∉ existing) news ∧
    Forall (λ entry, lower entry.1.1.1.1 ∈ existing ∨
                     entry.1.1.1.1 ∈ Exercise.name <$> news) entries.
Proof.
  revert exs k added. induction entries as [|entry entries IH]; intros exs k added.
  - exists []. rewrite app_nil_r, !Nat.add_0_r. by split_and!.
  - destruct entry as [[[[name mg] typ] equip] notes]. cbn [foldl seed_step].
    destruct (decide (lower name ∈ existing)) as [Hin|Hnin].
    + destruct (IH exs k added) as (news & Heq & Hlen & Hnew & Hall).
      exists news. split_and!; [done|simpl; lia|done|].
      constructor; [by left|done].
    + cbn [gen_id].
      destruct (IH (exs ++ [Exercise.mk (draw k) name mg typ equip notes]) (S k) (S added))
        as (news & Heq & Hlen & Hnew & Hall).
      exists (Exercise.mk (draw k) name mg typ equip notes :: news).
      rewrite Heq, <- app_assoc. split_and!.
      * simpl. do 2 f_equal; lia.
      * simpl. lia.
      * by constructor.
      * constructor; [right; by left|].
        eapply Forall_impl; [exact Hall|]. intros e [?|?]; [by left|right; by right].
Qed.

Lemma seed_loop_noop existing entries exs k added :
  Forall (λ entry, lower entry.1.1.1.1 ∈ existing) entries →
  foldl (seed_step draw lower existing) (exs, k, added) entries = (exs, k, added).
Proof.
  induction 1 as [|entry entries Hin _ IH]; [done|].
  destruct entry as [[[[name mg] typ] equip] notes]. cbn [foldl seed_step].
  cbn [fst] in Hin. by rewrite decide_True.
Qed.
End seed_facts.

(** X21.  For any reading of [str.lower]: [seed_standard_exercises] keeps
    the stored exercises and appends at most thirty new ones, none under a
    name that is stored already up to case, drawing one identifier each; the
    other lists are untouched.  Run again on its own result it adds nothing
    and says so. *)
Theorem seed_standard_exercises_idempotent :
  ∀ draw (lower : string → string) db k,
    ∃ news,
      Gym.seed_standard_exercises draw lower db k =
        (Gym.mkDB (Gym.exercises db ++ news) (Gym.programs db) (Gym.workout_templates db)
                  (Gym.sessions db) (Gym.personal_bests db),
         (k + length news)%nat,
         if decide (length news = O) then "Inga nya övningar lades till."
         else ("Lade till " ++ pretty (length news) ++ " standardövningar.")%string) ∧
      (length news ≤ 30)%nat ∧
      Forall (λ ex, Forall (λ old, lower (Gym.Exercise.name old) ≠
                                   lower (Gym.Exercise.name ex)) (Gym.exercises db)) news ∧
      Gym.seed_standard_exercises draw lower
        (Gym.mkDB (Gym.exercises db ++ news) (Gym.programs db) (Gym.workout_templates db)
                  (Gym.sessions db) (Gym.personal_bests db))
        (k + length news) =
        (Gym.mkDB (Gym.exercises db ++ news) (Gym.programs db) (Gym.workout_templates db)
                  (Gym.sessions db) (Gym.personal_bests db),
         (k + length news)%nat, "Inga nya övningar lades till.").
Proof.
  intros draw lower db k. unfold Gym.seed_standard_exercises at 1.
  set (existing := list_to_set _ : gset string).
  destruct (seed_loop_spec draw lower existing Gym.standard (Gym.exercises db) k 0)
    as (news & Heq & Hlen & Hnew & Hall).
  exists news. rewrite Heq. cbn [Nat.add]. split_and!; [done|exact Hlen| |].
  - eapply Forall_impl; [exact Hnew|]. intros ex Hex. cbv beta in Hex.
    apply Forall_forall. intros old Hold Hsame. apply Hex. unfold existing.
    apply elem_of_list_to_set. apply list_elem_of_fmap. by exists old.
  - unfold Gym.seed_standard_exercises. cbn [Gym.exercises Gym.programs
      Gym.workout_templates Gym.sessions Gym.personal_bests].
    rewrite seed_loop_noop; [done|].
    eapply Forall_impl; [exact Hall|]. intros entry Hentry. cbv beta in Hentry.
    apply elem_of_list_to_set. rewrite fmap_app, elem_of_app.
    destruct Hentry as [Hin|Hin].
    + left. by apply elem_of_list_to_set in Hin.
    + right. apply list_elem_of_fmap in Hin as (ex & -> & Hex).
      apply list_elem_of_fmap. by exists ex.
Qed.

(** ** The HTTP front of the prototype: deleting an exercise, clearing *)

Section server_facts.
Import Gym Server.

Lemma filter_filter_same {A} (P : A → Prop) `{∀ x, Decision (P x)} (l : list A) :
  filter P (filter P l) = filter P l.
Proof. apply filter_all. intros x Hx. by apply list_elem_of_filter in Hx as [? _]. Qed.
End server_facts.

(** X22.  [/api/exercises/delete] with an identifier never fails.  It
    removes the exercise and, with it, every row of a template and every set
    of a session that points at it, so that nothing in the templates or the
    sessions refers to the identifier afterwards and a well linked document
    stays well linked; programs and personal bests are untouched.  Deleting
    the same identifier again changes nothing.  Without an identifier the
    answer is 400. *)
Theorem exercises_delete_cascades :
  ∀ ex_id db,
    ∃ db',
      Server.exercises_delete (Some ex_id) db = Ok (db', ex_id) ∧
      Forall (λ e, Gym.Exercise.id e ≠ ex_id) (Gym.exercises db') ∧
      Forall (λ tpl, Forall (λ row, Gym.ExerciseRow.exercise_id row ≠ ex_id)
                            (Gym.Template.exercises tpl)) (Gym.workout_templates db') ∧
      Forall (λ sess, Forall (λ s, Gym.SetLog.exercise_id s ≠ ex_id)
                             (Gym.Session.set_logs sess)) (Gym.sessions db') ∧
      Gym.programs db' = Gym.programs db ∧
      Gym.personal_bests db' = Gym.personal_bests db ∧
      (Gym.well_linked db → Gym.well_linked db') ∧
      Server.exercises_delete (Some ex_id) db' = Ok (db', ex_id) ∧
      Server.exercises_delete None db = Raise (HTTPException 400 "Missing id").
Proof.
  intros ex_id db. eexists. split; [reflexivity|].
  cbn [Gym.exercises Gym.programs Gym.workout_templates Gym.sessions Gym.personal_bests].
  split_and!; try done.
  - apply Forall_forall. intros e He. by apply list_elem_of_filter in He as [? _].
  - apply Forall_fmap, Forall_forall. intros tpl _. cbn.
    apply Forall_forall. intros row Hrow. by apply list_elem_of_filter in Hrow as [? _].
  - apply Forall_fmap, Forall_forall. intros sess _. cbn.
    apply Forall_forall. intros s Hs. by apply list_elem_of_filter in Hs as [? _].
  - unfold Gym.well_linked. cbn. intros Hdb. apply Forall_fmap.
    eapply Forall_impl; [exact Hdb|]. intros tpl [Hprog Hrows]. split; [done|]. cbn.
    apply Forall_forall. intros row Hrow. apply list_elem_of_filter in Hrow as [Hne Hrow].
    rewrite Forall_forall in Hrows. destruct (Hrows row Hrow) as (ex & Hex & Hid).
    exists ex. split; [|done]. apply list_elem_of_filter. split; [congruence|done].
  - unfold Server.exercises_delete. cbn. rewrite filter_filter_same. do 2 f_equal. f_equal.
    + rewrite <- list_fmap_compose. apply list_fmap_ext. intros i tpl _. cbn.
      unfold Server.with_exercises. cbn. by rewrite filter_filter_same.
    + rewrite <- list_fmap_compose. apply list_fmap_ext. intros i sess _. cbn.
      unfold Server.with_set_logs. cbn. by rewrite filter_filter_same.
Qed.

Lemma exercises_delete_cascades_witness :
  ∃ db',
    Server.exercises_delete (Some 7%nat) GymSample.db0 = Ok (db', 7%nat) ∧
    Gym.exercises db' = [GymSample.squat] ∧
    Gym.Template.exercises <$> Gym.workout_templates db' =
      [[]; Gym.Template.exercises GymSample.other_day;
       Gym.Template.exercises GymSample.leg_day] ∧
    Gym.Session.set_logs <$> Gym.sessions db' = [[]] ∧
    Server.exercises_delete (Some 7%nat) db' = Ok (db', 7%nat).
Proof.
  destruct (exercises_delete_cascades 7%nat GymSample.db0)
    as (db' & Hdel & _ & _ & _ & _ & _ & _ & Hagain & _).
  exists db'. injection Hdel as <-. split; [reflexivity|].
  split; [reflexivity|]. split; [reflexivity|]. split; [reflexivity|]. exact Hagain.
Defined.

(** X23.  [/api/sessions/clear-active] of the prototype never fails: it
    marks every session in progress cancelled, wherever it stands, and
    returns their number; no session is in progress afterwards, no session is
    removed and no set is (the service deletes both).  Called again it
    cancels nothing and returns 0. *)
Theorem sessions_clear_active_cancels :
  ∀ db,
    let sessions' :=
      (λ s, if decide (Gym.Session.status s = "in_progress")
            then Gym.set_status s "cancelled" else s) <$> Gym.sessions db in
    Server.sessions_clear_active db =
      Ok (Gym.set_sessions db sessions',
          Z.of_nat (length (filter (λ s, Gym.Session.status s = "in_progress")
                                   (Gym.sessions db)))) ∧
    Forall (λ s, Gym.Session.status s ≠ "in_progress") sessions' ∧
    Gym.Session.id <$> sessions' = Gym.Session.id <$> Gym.sessions db ∧
    Gym.Session.set_logs <$> sessions' = Gym.Session.set_logs <$> Gym.sessions db ∧
    Server.sessions_clear_active (Gym.set_sessions db sessions') =
      Ok (Gym.set_sessions db sessions', 0).
Proof.
  intros db sessions'.
  assert (∀ (l done : list Gym.Session.t) (n : Z),
            foldl (λ '(done, cancelled) sess,
                if decide (Gym.Session.status sess = "in_progress")
                then (done ++ [Gym.set_status sess "cancelled"], cancelled + 1)
                else (done ++ [sess], cancelled))
              (done, n) l =
            (done ++ ((λ s, if decide (Gym.Session.status s = "in_progress")
                            then Gym.set_status s "cancelled" else s) <$> l),
             n + Z.of_nat (length (filter (λ s, Gym.Session.status s = "in_progress") l))))
    as Hloop.
  { induction l as [|s l IH]; intros done n.
    - simpl. rewrite app_nil_r. f_equal. lia.
    - cbn [foldl]. rewrite fmap_cons. destruct (decide (Gym.Session.status s = "in_progress")).
      + rewrite IH, <- app_assoc, filter_cons_True by done. simpl. f_equal. lia.
      + rewrite IH, <- app_assoc, filter_cons_False by done. done. }
  assert (Forall (λ s, Gym.Session.status s ≠ "in_progress") sessions') as Hnone.
  { apply Forall_fmap, Forall_forall. intros s _. cbn. by case_decide. }
  split_and!.
  - unfold Server.sessions_clear_active. by rewrite Hloop.
  - done.
  - unfold sessions'. rewrite <- list_fmap_compose. apply list_fmap_ext.
    intros i s _. cbn. by case_decide.
  - unfold sessions'. rewrite <- list_fmap_compose. apply list_fmap_ext.
    intros i s _. cbn. by case_decide.
  - unfold Server.sessions_clear_active. rewrite Hloop.
    replace (Gym.sessions (Gym.set_sessions db sessions')) with sessions' by done.
    rewrite (filter_none _ sessions'); last first.
    { intros s Hs. rewrite Forall_forall in Hnone. by apply Hnone. }
    cbn [app length Z.of_nat Z.add]. do 2 f_equal.
    unfold Gym.set_sessions. cbn. f_equal.
    rewrite <- (list_fmap_id sessions') at 2. apply list_fmap_ext.
    intros i s Hs. cbn. rewrite decide_False; [done|].
    rewrite Forall_forall in Hnone. apply Hnone. by eapply list_elem_of_lookup_2.
Qed.

(** ** The full view of a program, and published bests *)

Section view_facts.
Import Api.

(** The dictionary [ex_map] of a template's rows gives, for each of the
    rows, the exercise stored under the row's [exercise_id], if any. *)
Lemma ex_map_lookup (db : DB) (rows : list TemplateExercise.t) r :
  unique_ids (exercises db) → r ∈ rows →
  let exercise_ids : gset Z := list_to_set (TemplateExercise.exercise_id <$> rows) in
  let exercises_ :=
    if decide (exercise_ids ≠ ∅)
    then filter (λ ex, Exercise.id ex ∈ exercise_ids) (exercises db)
    else [] in
  foldl (λ m ex, <[Exercise.id ex := ex]> m) (∅ : gmap Z Exercise.t) exercises_
    !! TemplateExercise.exercise_id r
  = db_get (TemplateExercise.exercise_id r) (exercises db).
Proof.
  intros Hnd Hr exercise_ids exercises_.
  assert (TemplateExercise.exercise_id r ∈ exercise_ids) as Hin.
  { apply elem_of_list_to_set. by apply list_elem_of_fmap_2. }
  assert (exercises_ = filter (λ ex, Exercise.id ex ∈ exercise_ids) (exercises db)) as ->.
  { unfold exercises_. rewrite decide_True; [done|]. set_solver. }
  destruct (db_get (TemplateExercise.exercise_id r) (exercises db)) as [ex|] eqn:Hget.
  - apply db_get_Some in Hget as [Hex Hid]. change (row_id ex) with (Exercise.id ex) in Hid.
    rewrite <- Hid. apply (foldl_insert_lookup Exercise.id).
    + exact (unique_ids_filter (λ ex, Exercise.id ex ∈ exercise_ids) _ Hnd).
    + apply list_elem_of_filter. split; [by rewrite Hid|done].
  - rewrite (foldl_insert_other Exercise.id); [done|].
    intros Hk. apply list_elem_of_fmap in Hk as (ex & Hid & Hex).
    apply list_elem_of_filter in Hex as [_ Hex].
    by apply (proj1 (db_get_None _ _) Hget ex Hex).
Qed.
End view_facts.

(** What the view holds: the rows of each template with their lookups. *)
Lemma get_user_program_full_rows username program_id viewer db program templates :
  unique_ids (Api.exercises db) →
  Api.get_user_program_full username program_id viewer db = Ok (program, templates) →
  templates =
    (λ tpl, (tpl, (λ r, (r, db_get (Api.TemplateExercise.exercise_id r) (Api.exercises db)))
                  <$> Api.template_rows db (Api.WorkoutTemplate.id tpl)))
    <$> Api.program_templates db (Api.Program.id program).
Proof.
  intros Hnd.
  unfold Api.get_user_program_full, Api._get_owner_or_404.
  destruct (Api.get_user_by_username db username) as [owner|]; [|done].
  cbn [mbind result_bind or_raise].
  destruct (db_get program_id (Api.programs db)) as [p|]; [|done].
  case_decide; [done|]. destruct (negb _ && negb _); [done|]. intros [= <- <-].
  unfold Api.program_templates, Api.template_rows. apply list_fmap_ext.
  intros i tpl _. cbv zeta. f_equal. apply list_fmap_ext. intros j r Hr. f_equal.
  apply list_elem_of_lookup_2 in Hr.
  exact (ex_map_lookup db _ r Hnd Hr).
Qed.



(** X25.  [publish_pb] by the owner rewrites the flag [is_public] of the
    record and nothing else.  The flag decides what another user is served
    by [list_user_public_pbs]: with the flag set the record is in the list,
    with the flag cleared no record under that key is. *)
Theorem publish_pb_controls_view :
  ∀ pb_id flag user db db' pb viewer,
    Api.publish_pb pb_id flag user db = Ok (db', pb) →
    Api.get_user_by_username db (Api.User.username user) = Some user →
    Api.User.id viewer ≠ Api.User.id user →
    (∃ pb0, db_get pb_id (Api.personal_bests db) = Some pb0 ∧
            Api.PersonalBest.owner_id pb0 = Api.User.id user ∧
            pb = Api.set_pb_public pb0 flag) ∧
    db' = Api.set_personal_bests db (db_update pb (Api.personal_bests db)) ∧
    ∃ l, Api.list_user_public_pbs (Api.User.username user) None viewer db' = Ok l ∧
         if flag then pb ∈ l else Forall (λ x, Api.PersonalBest.id x ≠ pb_id) l.
Proof.
  intros pid flag user db db' pb viewer Hpub Huser Hviewer.
  unfold Api.publish_pb in Hpub.
  destruct (db_get pid (Api.personal_bests db)) as [pb0|] eqn:Hget; [|done].
  cbn [mbind result_bind or_raise] in Hpub.
  destruct (Api.ensure_owner _ user) as [[]|e] eqn:Hown; [|done].
  apply ensure_owner_Ok in Hown. cbn [mbind result_bind] in Hpub. injection Hpub as <- <-.
  pose proof (db_get_Some _ _ _ Hget) as [Hin Hid].
  change (row_id pb0) with (Api.PersonalBest.id pb0) in Hid.
  set (pb := Api.set_pb_public pb0 flag).
  set (db' := Api.set_personal_bests db _).
  assert (Api.personal_bests db' = db_update pb (Api.personal_bests db)) as Hpbs
    by (by destruct db).
  assert (Api.get_user_by_username db' (Api.User.username user) = Some user) as Huser'
    by (by destruct db).
  split; [by exists pb0|]. split; [done|].
  unfold Api.list_user_public_pbs, Api._get_owner_or_404. rewrite Huser'.
  cbn [mbind result_bind or_raise]. rewrite bool_decide_eq_false_2 by done.
  eexists. split; [reflexivity|]. rewrite Hpbs. destruct flag.
  - apply list_elem_of_filter. split; [done|]. apply list_elem_of_filter.
    split; [done|]. by apply (db_update_elem_of pb pb0).
  - apply Forall_forall. intros x Hx Hxid.
    apply list_elem_of_filter in Hx as [Hpublic Hx].
    apply list_elem_of_filter in Hx as [_ Hx].
    apply (db_update_same_id pb x) in Hx;
      [|change (Api.PersonalBest.id x = Api.PersonalBest.id pb0); congruence].
    by subst x.
Qed.

Lemma publish_pb_controls_view_witness :
  ∃ db' pb l,
    Api.publish_pb 1 false Sample.alice Sample.db_with_best = Ok (db', pb) ∧
    Api.list_user_public_pbs "alice" None Sample.bob Sample.db_with_best =
      Ok [Sample.old_best] ∧
    Api.list_user_public_pbs "alice" None Sample.bob db' = Ok l ∧
    Forall (λ x, Api.PersonalBest.id x ≠ 1) l.
Proof.
  destruct (publish_pb_controls_view 1 false Sample.alice Sample.db_with_best _ _ Sample.bob
              eq_refl eq_refl ltac:(simpl; lia)) as (_ & _ & l & Hl & Hnone).
  eexists _, _, l. split; [reflexivity|]. split; [reflexivity|]. by split.
Defined.

(** X26.  [delete_exercise] of the service removes the exercise of the
    caller and nothing else: the rows of templates and the logged sets that
    point at it stay, as do the personal bests earned on it.  The full view
    of a program then serves each such row with no exercise.  The prototype's
    [/api/exercises/delete] removes those rows and sets as well. *)
Theorem delete_exercise_leaves_rows :
  ∀ exercise_id user db db' r,
    Api.delete_exercise exercise_id user db = Ok (db', r) →
    r = exercise_id ∧
    db' = Api.set_exercises db
            (filter (λ ex, Api.Exercise.id ex ≠ exercise_id) (Api.exercises db)) ∧
    Api.template_exercises db' = Api.template_exercises db ∧
    Api.set_logs db' = Api.set_logs db ∧
    Api.personal_bests db' = Api.personal_bests db ∧
    db_get exercise_id (Api.exercises db') = None ∧
    (∀ username program_id viewer program templates tpl rows row ex,
       unique_ids (Api.exercises db) →
       Api.get_user_program_full username program_id viewer db' = Ok (program, templates) →
       (tpl, rows) ∈ templates → (row, ex) ∈ rows →
       Api.TemplateExercise.exercise_id row = exercise_id → ex = None).
Proof.
  intros eid user db db' r. unfold Api.delete_exercise.
  destruct (db_get eid (Api.exercises db)) as [db_ex|] eqn:Hget; [|done].
  cbn [mbind result_bind or_raise].
  destruct (Api.ensure_owner _ user) as [[]|e]; [|done].
  apply db_get_Some in Hget as [_ Hid]. change (row_id db_ex) with (Api.Exercise.id db_ex) in Hid.
  cbn [mbind result_bind]. rewrite Hid. intros [= <- <-].
  set (db' := Api.set_exercises db _).
  assert (Api.exercises db' = db_delete eid (Api.exercises db)) as Hexs by (by destruct db).
  assert (db_get eid (Api.exercises db') = None) as Hgone
    by (rewrite Hexs; apply db_get_deleted).
  split_and!; try done; try (by destruct db).
  intros username pid viewer program templates tpl rows row ex Hnd Hview Htpl Hrow Heid.
  assert (unique_ids (Api.exercises db')) as Hnd'
    by (rewrite Hexs; by apply unique_ids_filter).
  rewrite (get_user_program_full_rows _ _ _ _ _ _ Hnd' Hview) in Htpl.
  apply list_elem_of_fmap in Htpl as (t & [= -> ->] & _).
  apply list_elem_of_fmap in Hrow as (r0 & [= -> ->] & _).
  by rewrite Heid.
Qed.

Lemma delete_exercise_leaves_rows_witness :
  ∃ db',
    Api.delete_exercise 8 Sample.alice Sample.db0 = Ok (db', 8) ∧
    Api.exercises db' = [Sample.bench] ∧
    Api.template_exercises db' = Sample.push_rows ∧
    db_get 8 (Api.exercises db') = None.
Proof.
  eexists. split; [reflexivity|]. split; [reflexivity|].
  destruct (delete_exercise_leaves_rows 8 Sample.alice Sample.db0 _ _ eq_refl)
    as (_ & _ & Hrows & _ & _ & Hgone & _).
  split; [exact Hrows|exact Hgone].
Defined.
